(** * AutoUMail: the resilient classification pipeline

    A shallow embedding of the Python back end
    ([services/text_features.py], [services/classifier.py],
    [services/gemini_service.py], [services/nlp_preprocessor.py],
    [services/company_service.py], [main.py]) and the properties of its
    heuristic classifier, circuit breaker, retry loop, response parsing,
    orchestration, preprocessor, configuration store and endpoint.

    Conventions.
    - A Python [str] is the list of its Unicode code points ([pystr]).
    - A Python [float] is a binary64 primitive float, so additions such as
      [0.3 + 0.2] round exactly as they do in CPython.
    - [time.time()] readings are rationals (every binary64 value is one); the
      rounding of [now + 45] and [now - t] is not modelled.
    - An exception is a value of [exn]; a call returns [res A]. *)

From Stdlib Require Import ZArith NArith QArith Qround List Bool Lia Lqa.
From Stdlib Require Import String Ascii DecimalString.
From Stdlib Require Import Floats.PrimFloat Floats.SpecFloat Floats.FloatOps.
From Stdlib Require Import Uint63.
Import ListNotations.

Set Warnings "-inexact-float,-register-all".

(* ================================================================== *)
(** ** Python strings *)

Module Py.

Definition pystr := list N.

(** Decoding of the UTF-8 bytes of a literal into code points. *)
Fixpoint utf8_decode (bs : list N) : pystr :=
  match bs with
  | [] => []
  | b :: r =>
      if (b <? 128)%N then b :: utf8_decode r
      else if (b <? 224)%N then
        match r with
        | c1 :: r1 => ((b - 192) * 64 + (c1 - 128))%N :: utf8_decode r1
        | [] => []
        end
      else if (b <? 240)%N then
        match r with
        | c1 :: c2 :: r2 =>
            ((b - 224) * 4096 + (c1 - 128) * 64 + (c2 - 128))%N :: utf8_decode r2
        | _ => []
        end
      else
        match r with
        | c1 :: c2 :: c3 :: r3 =>
            ((b - 240) * 262144 + (c1 - 128) * 4096 + (c2 - 128) * 64 + (c3 - 128))%N
              :: utf8_decode r3
        | _ => []
        end
  end.

Definition lit (s : string) : pystr :=
  utf8_decode (map N_of_ascii (list_ascii_of_string s)).

Definition str_eqb (a b : pystr) : bool :=
  if list_eq_dec N.eq_dec a b then true else false.

(** [bool(s)] for a string: non-empty. *)
Definition nonempty (s : pystr) : bool :=
  match s with [] => false | _ => true end.

(** [s.startswith(p)] *)
Fixpoint startswith (p s : pystr) : bool :=
  match p, s with
  | [], _ => true
  | _ :: _, [] => false
  | a :: p', b :: s' => (a =? b)%N && startswith p' s'
  end.

(** [sub in s] *)
Fixpoint contains (sub s : pystr) : bool :=
  startswith sub s ||
  match s with
  | [] => false
  | _ :: s' => contains sub s'
  end.

(** [s.count(c)] for a one-character [c]. *)
Definition count_char (c : N) (s : pystr) : nat :=
  List.length (filter (N.eqb c) s).

(** [c.isspace()] *)
Definition isspace (c : N) : bool :=
  ((9 <=? c) && (c <=? 13) || (28 <=? c) && (c <=? 32) ||
   (c =? 133) || (c =? 160) || (c =? 5760) ||
   (8192 <=? c) && (c <=? 8202) || (c =? 8232) || (c =? 8233) ||
   (c =? 8239) || (c =? 8287) || (c =? 12288))%N.

Fixpoint lstrip (s : pystr) : pystr :=
  match s with
  | c :: s' => if isspace c then lstrip s' else s
  | [] => []
  end.

(** [s.strip()] *)
Definition strip (s : pystr) : pystr := rev (lstrip (rev (lstrip s))).

(** [s.split()]: the maximal runs of non-space characters.  [cur] holds the
    current run, reversed. *)
Fixpoint split_ws_aux (cur : pystr) (s : pystr) : list pystr :=
  match s with
  | [] => match cur with [] => [] | _ => [rev cur] end
  | c :: s' =>
      if isspace c
      then match cur with
           | [] => split_ws_aux [] s'
           | _ => rev cur :: split_ws_aux [] s'
           end
      else split_ws_aux (c :: cur) s'
  end.

Definition split_ws (s : pystr) : list pystr := split_ws_aux [] s.

(** [s.split(sep)] for a non-empty [sep]; [skip] counts the characters of
    a matched separator still to pass and [cur] holds the current piece, reversed. *)
Fixpoint split_on_aux (sep : pystr) (skip : nat) (cur : pystr) (s : pystr)
  : list pystr :=
  match s with
  | [] => [rev cur]
  | c :: s' =>
      match skip with
      | S k => split_on_aux sep k cur s'
      | O =>
          if startswith sep s
          then rev cur :: split_on_aux sep (List.length sep - 1) [] s'
          else split_on_aux sep 0 (c :: cur) s'
      end
  end.

Definition split_on (sep s : pystr) : list pystr := split_on_aux sep 0 [] s.

(** [c.lower()], [c.isalpha()], [c.isupper()] on Basic Latin and the Latin-1
    Supplement.  Code points from U+0100 on are left unchanged and counted as
    caseless non-letters: the model is exact for Latin-1 text. *)
Definition lower_char (c : N) : N :=
  if ((65 <=? c) && (c <=? 90) ||
      (192 <=? c) && (c <=? 222) && negb (c =? 215))%N
  then (c + 32)%N else c.

Definition lower (s : pystr) : pystr := map lower_char s.

Definition isupper (c : N) : bool :=
  ((65 <=? c) && (c <=? 90) ||
   (192 <=? c) && (c <=? 222) && negb (c =? 215))%N.

Definition isalpha (c : N) : bool :=
  ((65 <=? c) && (c <=? 90) || (97 <=? c) && (c <=? 122) ||
   (c =? 170) || (c =? 181) || (c =? 186) ||
   (192 <=? c) && (c <=? 255) && negb (c =? 215) && negb (c =? 247))%N.

(** [str(n)] for a non-negative integer. *)
Definition str_of_N (n : N) : pystr :=
  map N_of_ascii (list_ascii_of_string (NilZero.string_of_uint (N.to_uint n))).

Definition str_of_nat (n : nat) : pystr := str_of_N (N.of_nat n).

(** *** Floats *)

Definition float_of_nat (n : nat) : float :=
  PrimFloat.of_uint63 (Uint63.of_Z (Z.of_nat n)).

(** [a > b] and [a < b] on floats. *)
Definition fgt (a b : float) : bool := PrimFloat.ltb b a.
Definition flt (a b : float) : bool := PrimFloat.ltb a b.

(** [min(a, b)]: the first argument unless the second is smaller. *)
Definition fmin (a b : float) : float := if PrimFloat.ltb b a then b else a.

(** [max] of a non-empty argument list, left to right. *)
Definition fmax (a b : float) : float := if PrimFloat.ltb a b then b else a.

(** Rounding of [num / den] to the nearest integer, ties to even. *)
Definition round_half_even (num den : Z) : Z :=
  let q := (num / den)%Z in
  let r := (num mod den)%Z in
  match (2 * r ?= den)%Z with
  | Lt => q
  | Gt => (q + 1)%Z
  | Eq => if Z.even q then q else (q + 1)%Z
  end.

(** The digits of [n], left-padded with zeros to at least [w] digits. *)
Definition zero_pad (w : nat) (ds : pystr) : pystr :=
  repeat 48%N (w - List.length ds) ++ ds.

(** [format(x, '.<d>f')]: the exact binary value, correctly rounded to [d]
    decimals. *)
Definition format_fixed (d : nat) (x : float) : pystr :=
  let minus (s : bool) : pystr := if s then [45%N] else [] in
  let render (s : bool) (n : Z) : pystr :=
    let ds := zero_pad (S d) (str_of_N (Z.to_N n)) in
    let k := (List.length ds - d)%nat in
    minus s ++ firstn k ds ++
      match d with O => [] | _ => 46%N :: skipn k ds end in
  match Prim2SF x with
  | S754_nan => lit "nan"
  | S754_infinity s => minus s ++ lit "inf"
  | S754_zero s => render s 0%Z
  | S754_finite s m e =>
      let scale := Z.pow 10 (Z.of_nat d) in
      let n := if (0 <=? e)%Z
               then (Z.pos m * Z.pow 2 e * scale)%Z
               else round_half_even (Z.pos m * scale) (Z.pow 2 (- e)) in
      render s n
  end.

End Py.

Import Py.

(* ================================================================== *)
(** ** services/text_features.py *)

Module TextFeatureExtractor.

Definition technical_keywords : list pystr :=
  map lit ["erro"; "bug"; "falha"; "defeito"; "problema técnico";
           "não funciona"; "não consegui"; "travando"; "lento";
           "crash"; "parou"; "quebrado"; "corrompido"]%string.

Definition business_keywords : list pystr :=
  map lit ["preço"; "custo"; "valor"; "orçamento"; "proposta";
           "contrato"; "comprar"; "adquirir"; "contratar";
           "investimento"; "pagamento"; "fatura"]%string.

Definition support_keywords : list pystr :=
  map lit ["ajuda"; "suporte"; "dúvida"; "como fazer"; "não sei";
           "orientação"; "assistência"; "informação"; "esclarecimento";
           "tutorial"; "instrução"; "passo a passo"]%string.

Definition social_keywords : list pystr :=
  map lit ["parabéns"; "felicitações"; "aniversário"; "festa";
           "convite"; "celebração"; "gratidão"; "obrigado por tudo";
           "abraço"; "beijo"; "feliz"; "alegria"]%string.

Definition urgency_keywords : list pystr :=
  map lit ["urgente"; "imediato"; "asap"; "rápido"; "prazo";
           "emergência"; "crítico"; "quanto antes"]%string.

Definition negative_words : list pystr :=
  map lit ["não"; "nunca"; "nada"; "ninguém"; "problema"; "erro";
           "falha"; "ruim"; "péssimo"; "horrível"; "insatisfeito";
           "reclamação"; "decepcionado"; "frustrado"]%string.

Definition positive_words : list pystr :=
  map lit ["obrigado"; "agradeço"; "excelente"; "ótimo"; "bom";
           "parabéns"; "feliz"; "satisfeito"; "gostei"; "adorei"]%string.

(** [sum(1 for keyword in keywords if keyword in text)] *)
Definition count_hits (text : pystr) (keywords : list pystr) : nat :=
  List.length (filter (fun keyword => contains keyword text) keywords).

(** [re.split(r'[.!?]+', text)]: the pieces between maximal runs of the
    three sentence marks. *)
Definition is_sentence_mark (c : N) : bool :=
  ((c =? 46) || (c =? 33) || (c =? 63))%N.

Fixpoint split_runs_aux (in_run : bool) (cur : pystr) (s : pystr) : list pystr :=
  match s with
  | [] => [rev cur]
  | c :: s' =>
      if is_sentence_mark c
      then if in_run then split_runs_aux true cur s'
           else rev cur :: split_runs_aux true [] s'
      else split_runs_aux false (c :: cur) s'
  end.

Definition _count_sentences (text : pystr) : nat :=
  List.length (filter (fun s => nonempty (strip s)) (split_runs_aux false [] text)).

Definition _avg_word_length (text : pystr) : float :=
  let words := split_ws text in
  match words with
  | [] => 0.0%float
  | _ =>
      let total_length := fold_left (fun acc word => (acc + List.length word)%nat) words 0%nat in
      (float_of_nat total_length / float_of_nat (List.length words))%float
  end.

Definition _calculate_caps_ratio (text : pystr) : float :=
  match text with
  | [] => 0.0%float
  | _ =>
      let letters := filter isalpha text in
      match letters with
      | [] => 0.0%float
      | _ =>
          let caps_count := List.length (filter isupper letters) in
          (float_of_nat caps_count / float_of_nat (List.length letters))%float
      end
  end.

Definition _calculate_keyword_score (text : pystr) (keywords : list pystr) : float :=
  match keywords with
  | [] => 0.0%float
  | _ =>
      let matches := count_hits text keywords in
      fmin (float_of_nat matches / 3.0)%float 1.0%float
  end.

Definition _calculate_urgency_score (text : pystr) : float :=
  let score := 0.0%float in
  let score :=
    fold_left (fun score keyword =>
                 if contains keyword text then (score + 0.3)%float else score)
              urgency_keywords score in
  let score :=
    if (2 <=? count_char 33 text)%nat then (score + 0.2)%float else score in
  let caps_ratio := _calculate_caps_ratio text in
  let score := if fgt caps_ratio 0.5%float then (score + 0.2)%float else score in
  fmin score 1.0%float.

Definition _count_negative_words (text : pystr) : nat := count_hits text negative_words.
Definition _count_positive_words (text : pystr) : nat := count_hits text positive_words.

Definition _classify_by_features (text : pystr) : pystr :=
  let technical := _calculate_keyword_score text technical_keywords in
  let business := _calculate_keyword_score text business_keywords in
  let support := _calculate_keyword_score text support_keywords in
  let social := _calculate_keyword_score text social_keywords in
  if fgt technical 0.3%float || fgt business 0.3%float || fgt support 0.3%float
  then lit "productive"
  else if fgt social 0.3%float && flt technical 0.1%float && flt business 0.1%float
  then lit "unproductive"
  else lit "uncertain".

Definition _calculate_confidence (text : pystr) : float :=
  let technical := _calculate_keyword_score text technical_keywords in
  let business := _calculate_keyword_score text business_keywords in
  let support := _calculate_keyword_score text support_keywords in
  let social := _calculate_keyword_score text social_keywords in
  let max_score := fmax (fmax (fmax technical business) support) social in
  if fgt max_score 0.5%float then 0.8%float
  else if fgt max_score 0.3%float then 0.6%float
  else 0.3%float.

(** The feature dictionary.  The entries computed by regular-expression
    searches ([has_urls], [has_email_addresses], [has_phone_numbers],
    [has_deadline_mention], [has_specific_numbers], [has_specific_dates],
    [has_bullet_points]) are read by no caller and are left out. *)
Record Features := {
  text_length : nat;
  word_count : nat;
  sentence_count : nat;
  avg_word_length : float;
  question_count : nat;
  exclamation_count : nat;
  has_multiple_questions : bool;
  has_excessive_exclamations : bool;
  caps_lock_ratio : float;
  technical_score : float;
  business_score : float;
  support_score : float;
  social_score : float;
  urgency_score : float;
  negative_words_count : nat;
  positive_words_count : nat;
  feature_based_category : pystr;
  confidence_score : float
}.

(** A dictionary as the extractor can return it: complete, or the [{}] of
    its exception handler. *)
Inductive FeatureDict :=
| EmptyDict
| FullDict (f : Features).

(** [features.get(key, default)] *)
Definition get {A} (proj : Features -> A) (default : A) (features : FeatureDict) : A :=
  match features with
  | EmptyDict => default
  | FullDict f => proj f
  end.

(** [subject or ''] *)
Definition or_empty (subject : option pystr) : pystr :=
  match subject with
  | Some s => s
  | None => []
  end.

(** No operation of the [try] block raises on strings, so the handler's
    [return {}] is never reached. *)
Definition extract_all_features (text : pystr) (subject : option pystr) : FeatureDict :=
  let full_text := lower (or_empty subject ++ [32%N] ++ text) in
  FullDict {|
    text_length := List.length text;
    word_count := List.length (split_ws text);
    sentence_count := _count_sentences text;
    avg_word_length := _avg_word_length text;
    question_count := count_char 63 text;
    exclamation_count := count_char 33 text;
    has_multiple_questions := (2 <=? count_char 63 text)%nat;
    has_excessive_exclamations := (3 <=? count_char 33 text)%nat;
    caps_lock_ratio := _calculate_caps_ratio text;
    technical_score := _calculate_keyword_score full_text technical_keywords;
    business_score := _calculate_keyword_score full_text business_keywords;
    support_score := _calculate_keyword_score full_text support_keywords;
    social_score := _calculate_keyword_score full_text social_keywords;
    urgency_score := _calculate_urgency_score full_text;
    negative_words_count := _count_negative_words full_text;
    positive_words_count := _count_positive_words full_text;
    feature_based_category := _classify_by_features full_text;
    confidence_score := _calculate_confidence full_text
  |}.

End TextFeatureExtractor.

Import TextFeatureExtractor.

(* ================================================================== *)
(** ** Exceptions and results *)

(** The exceptions the modelled code raises or meets.  All of them derive
    from [Exception]. *)
Inductive exn :=
| Exception (msg : pystr)
| ValueError (msg : pystr)
| KeyError (key : pystr)
| IndexError
| TypeError
| AttributeError
| JSONDecodeError
| ValidationError
| TimeoutError.

(** The result of a synchronous call. *)
Inductive res (A : Type) :=
| Ok (a : A)
| Raise (e : exn).

Arguments Ok {A} a.
Arguments Raise {A} e.

Definition bind {A B} (r : res A) (k : A -> res B) : res B :=
  match r with
  | Ok a => k a
  | Raise e => Raise e
  end.

(** The result of awaiting a coroutine.  Its cancellation
    ([asyncio.CancelledError]) derives from [BaseException] only, so no
    handler of [Exception] sees it. *)
Inductive awaited (A : Type) :=
| Returns (a : A)
| Raises (e : exn)
| Cancelled.

Arguments Returns {A} a.
Arguments Raises {A} e.
Arguments Cancelled {A}.

Notation "x <- r ;; k" := (bind r (fun x => k))
  (at level 61, r at next level, right associativity).

(** [str(e)].  The texts of the interpreter's own errors are representative;
    none of them carries a status code. *)
Definition str_exn (e : exn) : pystr :=
  match e with
  | Exception msg => msg
  | ValueError msg => msg
  | KeyError key => [39%N] ++ key ++ [39%N]
  | IndexError => lit "index out of range"
  | TypeError => lit "unsupported operand type"
  | AttributeError => lit "object has no attribute"
  | JSONDecodeError => lit "Expecting value"
  | ValidationError => lit "validation error"
  | TimeoutError => []
  end.

(* ================================================================== *)
(** ** Decoded JSON documents and the operations Python applies to them *)

Module Json.

(** A number with a fraction or an exponent is kept as [m * 10^e]. *)
Inductive value :=
| JNull
| JBool (b : bool)
| JInt (z : Z)
| JFloat (m e : Z)
| JNaN
| JInf (negative : bool)
| JStr (s : pystr)
| JList (l : list value)
| JDict (d : list (pystr * value)).

Fixpoint lookup (k : pystr) (d : list (pystr * value)) : option value :=
  match d with
  | [] => None
  | (k', v) :: d' => if str_eqb k k' then Some v else lookup k d'
  end.

(** [d[k] = v]: an existing key keeps its place. *)
Fixpoint dict_set (k : pystr) (v : value) (d : list (pystr * value))
  : list (pystr * value) :=
  match d with
  | [] => [(k, v)]
  | (k', v') :: d' =>
      if str_eqb k k' then (k, v) :: d' else (k', v') :: dict_set k v d'
  end.

(** Whether the decimal [m * 10^e] rounds to the float zero: at most half of
    the least subnormal, [2^-1075]. *)
Definition float_is_zero (m e : Z) : bool :=
  if (m =? 0)%Z then true
  else if (0 <=? e)%Z then false
  else (Z.abs m * Z.pow 2 1075 <=? Z.pow 10 (- e))%Z.

(** [bool(v)] *)
Definition truthy (v : value) : bool :=
  match v with
  | JNull => false
  | JBool b => b
  | JInt z => negb (z =? 0)%Z
  | JFloat m e => negb (float_is_zero m e)
  | JNaN => true
  | JInf _ => true
  | JStr s => nonempty s
  | JList l => match l with [] => false | _ => true end
  | JDict d => match d with [] => false | _ => true end
  end.

Definition is_str (k : pystr) (v : value) : bool :=
  match v with
  | JStr s => str_eqb k s
  | _ => false
  end.

(** [k in v] for a string [k] *)
Definition py_in (k : pystr) (v : value) : res bool :=
  match v with
  | JDict d => Ok (match lookup k d with Some _ => true | None => false end)
  | JList l => Ok (existsb (is_str k) l)
  | JStr s => Ok (contains k s)
  | _ => Raise TypeError
  end.

(** [v[k]] for a string [k] *)
Definition getitem (v : value) (k : pystr) : res value :=
  match v with
  | JDict d => match lookup k d with Some x => Ok x | None => Raise (KeyError k) end
  | _ => Raise TypeError
  end.

(** [v[0]] *)
Definition getitem0 (v : value) : res value :=
  match v with
  | JList (x :: _) => Ok x
  | JList [] => Raise IndexError
  | JStr (c :: _) => Ok (JStr [c])
  | JStr [] => Raise IndexError
  | JDict _ => Raise (KeyError (lit "0"))
  | _ => Raise TypeError
  end.

(** [v.get(k, default)] *)
Definition get (v : value) (k : pystr) (default : value) : res value :=
  match v with
  | JDict d => Ok (match lookup k d with Some x => x | None => default end)
  | _ => Raise AttributeError
  end.

(** The items [for x in v] visits. *)
Definition iter (v : value) : res (list value) :=
  match v with
  | JList l => Ok l
  | JStr s => Ok (map (fun c => JStr [c]) s)
  | JDict d => Ok (map (fun kv => JStr (fst kv)) d)
  | _ => Raise TypeError
  end.

(** *** [json.loads] *)

Definition is_ws (c : N) : bool :=
  ((c =? 32) || (c =? 9) || (c =? 10) || (c =? 13))%N.

Fixpoint skip_ws (s : pystr) : pystr :=
  match s with
  | c :: s' => if is_ws c then skip_ws s' else s
  | [] => []
  end.

Definition is_digit (c : N) : bool := ((48 <=? c) && (c <=? 57))%N.

Definition hex_digit (c : N) : option N :=
  if ((48 <=? c) && (c <=? 57))%N then Some (c - 48)%N
  else if ((97 <=? c) && (c <=? 102))%N then Some (c - 87)%N
  else if ((65 <=? c) && (c <=? 70))%N then Some (c - 55)%N
  else None.

Definition hex4 (a b c d : N) : option N :=
  match hex_digit a, hex_digit b, hex_digit c, hex_digit d with
  | Some x, Some y, Some z, Some w => Some (x * 4096 + y * 256 + z * 16 + w)%N
  | _, _, _, _ => None
  end.

Definition escape (c : N) : option N :=
  if (c =? 34)%N then Some 34%N
  else if (c =? 92)%N then Some 92%N
  else if (c =? 47)%N then Some 47%N
  else if (c =? 98)%N then Some 8%N
  else if (c =? 102)%N then Some 12%N
  else if (c =? 110)%N then Some 10%N
  else if (c =? 114)%N then Some 13%N
  else if (c =? 116)%N then Some 9%N
  else None.

Definition is_high_surrogate (u : N) : bool := ((55296 <=? u) && (u <=? 56319))%N.
Definition is_low_surrogate (u : N) : bool := ((56320 <=? u) && (u <=? 57343))%N.

(** The low surrogate escape that follows a high one, if any. *)
Definition low_escape (s : pystr) : option (N * pystr) :=
  match s with
  | b :: u :: g1 :: g2 :: g3 :: g4 :: r =>
      if ((b =? 92) && (u =? 117))%N
      then match hex4 g1 g2 g3 g4 with
           | Some lo => if is_low_surrogate lo then Some (lo, r) else None
           | None => None
           end
      else None
  | _ => None
  end.

(** The body of a string literal after its opening quote (strict mode);
    [acc] is the decoded text so far, reversed. *)
Fixpoint scanstring (acc : pystr) (s : pystr) : option (pystr * pystr) :=
  match s with
  | [] => None
  | c :: r =>
      if (c =? 34)%N then Some (rev acc, r)
      else if (c =? 92)%N then
        match r with
        | [] => None
        | e :: r1 =>
            if (e =? 117)%N then
              match r1 with
              | h1 :: h2 :: h3 :: h4 :: r2 =>
                  match hex4 h1 h2 h3 h4 with
                  | None => None
                  | Some hi =>
                      if is_high_surrogate hi then
                        match r2 with
                        | b :: u :: g1 :: g2 :: g3 :: g4 :: r3 =>
                            match low_escape r2 with
                            | Some (lo, _) =>
                                scanstring
                                  ((65536 + (hi - 55296) * 1024 + (lo - 56320))%N :: acc) r3
                            | None => scanstring (hi :: acc) r2
                            end
                        | _ => scanstring (hi :: acc) r2
                        end
                      else scanstring (hi :: acc) r2
                  end
              | _ => None
              end
            else
              match escape e with
              | Some x => scanstring (x :: acc) r1
              | None => None
              end
        end
      else if (c <? 32)%N then None
      else scanstring (c :: acc) r
  end.

(** The longest prefix of digits, read as a number, with its length. *)
Fixpoint digits (acc : Z) (n : Z) (s : pystr) : Z * Z * pystr :=
  match s with
  | c :: s' =>
      if is_digit c then digits (acc * 10 + Z.of_N (c - 48)) (n + 1) s'
      else (acc, n, s)
  | [] => (acc, n, s)
  end.

(** The integer part: a zero, or a non-zero digit and the digits after it. *)
Definition int_part (s : pystr) : option (Z * pystr) :=
  match s with
  | c :: s' =>
      if (c =? 48)%N then Some (0%Z, s')
      else if is_digit c then
        let '(z, _, r) := digits 0 0 s in Some (z, r)
      else None
  | [] => None
  end.

(** The fraction, a point and at least one digit: the digits as an integer
    and their number. *)
Definition frac_part (s : pystr) : option (Z * Z * pystr) :=
  match s with
  | p :: c :: _ =>
      if ((p =? 46)%N && is_digit c)
      then Some (digits 0 0 (tl s))
      else None
  | _ => None
  end.

(** The exponent: [e] or [E], an optional sign and at least one digit. *)
Definition exp_part (s : pystr) : option (Z * pystr) :=
  match s with
  | x :: r =>
      if ((x =? 101) || (x =? 69))%N then
        match r with
        | sg :: c :: _ =>
            if (((sg =? 45) || (sg =? 43))%N && is_digit c) then
              let '(z, _, r') := digits 0 0 (tl r) in
              Some ((if (sg =? 45)%N then - z else z)%Z, r')
            else if is_digit sg then
              let '(z, _, r') := digits 0 0 r in Some (z, r')
            else None
        | [c] => if is_digit c then Some (Z.of_N (c - 48), []) else None
        | [] => None
        end
      else None
  | [] => None
  end.

(** A match of the number pattern at the head of [s]. *)
Definition number (s : pystr) : option (value * pystr) :=
  let '(neg, s1) :=
    match s with
    | c :: r => if (c =? 45)%N then (true, r) else (false, s)
    | [] => (false, s)
    end in
  match int_part s1 with
  | None => None
  | Some (i, s2) =>
      let sign (z : Z) := if neg then (- z)%Z else z in
      match frac_part s2, exp_part s2 with
      | None, None => Some (JInt (sign i), s2)
      | Some (f, n, s3), _ =>
          let m := (i * Z.pow 10 n + f)%Z in
          match exp_part s3 with
          | Some (x, s4) => Some (JFloat (sign m) (x - n), s4)
          | None => Some (JFloat (sign m) (- n), s3)
          end
      | None, Some (x, s3) => Some (JFloat (sign i) x, s3)
      end
  end.

Definition keyword (k : string) (v : value) (s : pystr) : option (value * pystr) :=
  if startswith (lit k) s
  then Some (v, skipn (List.length (lit k)) s)
  else None.

(** One value at the head of [s] and the text after it.  [fuel] bounds the
    nesting; every call consumes a character, so the length of the document
    is enough. *)
Fixpoint scan_once (fuel : nat) (s : pystr) : option (value * pystr) :=
  match fuel with
  | O => None
  | S fuel' =>
      match s with
      | [] => None
      | c :: r =>
          if (c =? 34)%N then
            match scanstring [] r with
            | Some (str, r') => Some (JStr str, r')
            | None => None
            end
          else if (c =? 123)%N then
            match skip_ws r with
            | q :: r1 =>
                if (q =? 125)%N then Some (JDict [], r1)
                else if (q =? 34)%N then members fuel' [] r1
                else None
            | [] => None
            end
          else if (c =? 91)%N then
            match skip_ws r with
            | q :: r1 =>
                if (q =? 93)%N then Some (JList [], r1)
                else elements fuel' [] (q :: r1)
            | [] => None
            end
          else
            match number s with
            | Some x => Some x
            | None =>
                match keyword "null" JNull s, keyword "true" (JBool true) s,
                      keyword "false" (JBool false) s, keyword "NaN" JNaN s,
                      keyword "Infinity" (JInf false) s,
                      keyword "-Infinity" (JInf true) s with
                | Some x, _, _, _, _, _ => Some x
                | _, Some x, _, _, _, _ => Some x
                | _, _, Some x, _, _, _ => Some x
                | _, _, _, Some x, _, _ => Some x
                | _, _, _, _, Some x, _ => Some x
                | _, _, _, _, _, Some x => Some x
                | _, _, _, _, _, _ => None
                end
            end
      end
  end

(** The members of an object, from just after the opening quote of a key. *)
with members (fuel : nat) (acc : list (pystr * value)) (s : pystr)
  : option (value * pystr) :=
  match fuel with
  | O => None
  | S fuel' =>
      match scanstring [] s with
      | None => None
      | Some (key, s1) =>
          match skip_ws s1 with
          | colon :: s2 =>
              if (colon =? 58)%N then
                match scan_once fuel' (skip_ws s2) with
                | None => None
                | Some (v, s3) =>
                    let acc' := dict_set key v acc in
                    match skip_ws s3 with
                    | d :: s4 =>
                        if (d =? 125)%N then Some (JDict acc', s4)
                        else if (d =? 44)%N then
                          match skip_ws s4 with
                          | q :: s5 =>
                              if (q =? 34)%N then members fuel' acc' s5 else None
                          | [] => None
                          end
                        else None
                    | [] => None
                    end
                end
              else None
          | [] => None
          end
      end
  end

(** The elements of an array, from the first character of an element;
    [acc] is reversed. *)
with elements (fuel : nat) (acc : list value) (s : pystr)
  : option (value * pystr) :=
  match fuel with
  | O => None
  | S fuel' =>
      match scan_once fuel' s with
      | None => None
      | Some (v, s1) =>
          match skip_ws s1 with
          | d :: s2 =>
              if (d =? 93)%N then Some (JList (rev (v :: acc)), s2)
              else if (d =? 44)%N then elements fuel' (v :: acc) (skip_ws s2)
              else None
          | [] => None
          end
      end
  end.

(** [json.loads(s)]: one value between optional white space, nothing after
    it.  A leading byte-order mark is no white space and is refused with the
    rest. *)
Definition loads (s : pystr) : res value :=
  match scan_once (S (S (List.length s))) (skip_ws s) with
  | Some (v, rest) =>
      match skip_ws rest with
      | [] => Ok v
      | _ => Raise JSONDecodeError
      end
  | None => Raise JSONDecodeError
  end.

End Json.

Import Json.

(* ================================================================== *)
(** ** services/gemini_service.py *)

Module GeminiService.

(** [x < y] on clock readings. *)
Definition Qltb (x y : Q) : bool := negb (Qle_bool y x).

(** *** The service object and its circuit breaker *)

Record service := {
  model : pystr;
  fallback_model : pystr;
  circuit_breaker_errors : list Q;
  circuit_open_until : Q
}.

Definition circuit_breaker_threshold : nat := 3.
Definition circuit_breaker_timeout : Q := 45.

(** [__init__] *)
Definition init : service := {|
  model := lit "gemini-2.5-flash-lite";
  fallback_model := lit "gemini-2.5-flash-lite";
  circuit_breaker_errors := [];
  circuit_open_until := 0
|}.

Definition set_errors (errors : list Q) (s : service) : service := {|
  model := model s;
  fallback_model := fallback_model s;
  circuit_breaker_errors := errors;
  circuit_open_until := circuit_open_until s
|}.

Definition set_open_until (t : Q) (s : service) : service := {|
  model := model s;
  fallback_model := fallback_model s;
  circuit_breaker_errors := circuit_breaker_errors s;
  circuit_open_until := t
|}.

(** [_is_circuit_open], with the reading of [time.time()] as argument. *)
Definition _is_circuit_open (current_time : Q) (s : service) : service * bool :=
  if Qltb (circuit_open_until s) current_time then
    (set_errors [] s, false)
  else
    let recent_errors :=
      filter (fun t => Qltb (current_time - t) 60) (circuit_breaker_errors s) in
    let s := set_errors recent_errors s in
    if (circuit_breaker_threshold <=? List.length recent_errors)%nat
    then (s, true)
    else (s, false).

(** [_record_error], with the reading of [time.time()] as argument. *)
Definition _record_error (current_time : Q) (s : service) : service :=
  let s := set_errors (circuit_breaker_errors s ++ [current_time]) s in
  if (circuit_breaker_threshold <=? List.length (circuit_breaker_errors s))%nat
  then set_open_until (current_time + circuit_breaker_timeout) s
  else s.

(** *** The world around the service

    The provider is an oracle: its [n]-th answer and the time it takes.  The
    text of a prompt has no influence on the control flow and is not part of
    a request. *)

Inductive http_outcome :=
| Response (status : N) (body : value)
| ClientError (msg : pystr).

Record exchange := {
  elapsed : Q;
  outcome : http_outcome
}.

Inductive endpoint := GenerateText | ToolCall.

Inductive event :=
| Request (kind : endpoint) (model_id : pystr)
| Sleep (seconds : Q)
| Completed (category : value) (classification_method : pystr) (confidence : value).

Record world := {
  svc : service;
  clock : Q;
  loop_clock : Q;
  deadline : option Q;
  provider : nat -> exchange;
  sent : nat;
  trace : list event
}.

Definition set_svc (s : service) (w : world) : world := {|
  svc := s; clock := clock w; loop_clock := loop_clock w;
  deadline := deadline w; provider := provider w; sent := sent w;
  trace := trace w
|}.

Definition set_deadline (d : option Q) (w : world) : world := {|
  svc := svc w; clock := clock w; loop_clock := loop_clock w;
  deadline := d; provider := provider w; sent := sent w;
  trace := trace w
|}.

(** Time passes. *)
Definition advance (d : Q) (w : world) : world := {|
  svc := svc w; clock := clock w + d; loop_clock := loop_clock w + d;
  deadline := deadline w; provider := provider w; sent := sent w;
  trace := trace w
|}.

Definition emit (e : event) (w : world) : world := {|
  svc := svc w; clock := clock w; loop_clock := loop_clock w;
  deadline := deadline w; provider := provider w; sent := sent w;
  trace := trace w ++ [e]
|}.

Definition consume (w : world) : world := {|
  svc := svc w; clock := clock w; loop_clock := loop_clock w;
  deadline := deadline w; provider := provider w; sent := S (sent w);
  trace := trace w
|}.

(** A computation of the service: it changes the world and returns, raises
    or is cancelled. *)
Definition M (A : Type) : Type := world -> world * awaited A.

Definition ret {A} (a : A) : M A := fun w => (w, Returns a).
Definition raise {A} (e : exn) : M A := fun w => (w, Raises e).

(** A synchronous call inside a coroutine. *)
Definition lift {A} (r : res A) : M A :=
  fun w =>
    match r with
    | Ok a => (w, Returns a)
    | Raise e => (w, Raises e)
    end.

Definition bindM {A B} (m : M A) (k : A -> M B) : M B :=
  fun w =>
    let (w1, r) := m w in
    match r with
    | Returns a => k a w1
    | Raises e => (w1, Raises e)
    | Cancelled => (w1, Cancelled)
    end.

(** [try: m  except Exception as e: h e].  A cancellation is no [Exception]
    and passes through. *)
Definition catch {A} (m : M A) (h : exn -> M A) : M A :=
  fun w =>
    let (w1, r) := m w in
    match r with
    | Raises e => h e w1
    | _ => (w1, r)
    end.

Declare Scope io_scope.
Delimit Scope io_scope with io.
Notation "x <- m ;; k" := (bindM m (fun x => k))
  (at level 61, m at next level, right associativity) : io_scope.
Notation "m ;;; k" := (bindM m (fun _ => k))
  (at level 61, right associativity) : io_scope.

(** Whether waiting [d] seconds from now would pass the deadline. *)
Definition past_deadline (d : Q) (w : world) : bool :=
  match deadline w with
  | Some limit => Qltb limit (clock w + d)
  | None => false
  end.

(** The wait until the deadline. *)
Definition until_deadline (w : world) : Q :=
  match deadline w with
  | Some limit => limit - clock w
  | None => 0
  end.

(** [await asyncio.sleep(d)] *)
Definition sleep (d : Q) : M unit :=
  fun w =>
    if past_deadline d w
    then (advance (until_deadline w) w, Cancelled)
    else (emit (Sleep d) (advance d w), Returns tt).

(** What a client with [aiohttp.ClientTimeout(total=budget)] gets from an
    exchange: the answer of the provider, [asyncio.TimeoutError] when it
    takes longer than the budget. *)
Definition received (budget : Q) (x : exchange) : res (N * value) :=
  if Qltb budget (elapsed x) then Raise TimeoutError
  else match outcome x with
       | Response status body => Ok (status, body)
       | ClientError msg => Raise (Exception msg)
       end.

(** The time the client spends on an exchange. *)
Definition waited (budget : Q) (x : exchange) : Q :=
  if Qltb budget (elapsed x) then budget else elapsed x.

(** One POST: the next exchange with the provider. *)
Definition post (budget : Q) (kind : endpoint) (model_id : pystr) : M (N * value) :=
  fun w =>
    let x := provider w (sent w) in
    let w := consume (emit (Request kind model_id) w) in
    if past_deadline (waited budget x) w
    then (advance (until_deadline w) w, Cancelled)
    else lift (received budget x) (advance (waited budget x) w).

(** [await asyncio.wait_for(m, timeout)].  The bound the caller of the
    pipeline sets around it (30 seconds, in [main.py]) is outside the model:
    the deadline in force is replaced and restored. *)
Definition wait_for {A} (m : M A) (timeout : Q) : M A :=
  fun w =>
    let outer := deadline w in
    let (w1, r) := m (set_deadline (Some (clock w + timeout)) w) in
    let w1 := set_deadline outer w1 in
    match r with
    | Cancelled => (w1, Raises TimeoutError)
    | _ => (w1, r)
    end.

(** [self._is_circuit_open()] and [self._record_error()] at the present
    time. *)
Definition is_circuit_open_now : M bool :=
  fun w =>
    let (s, b) := _is_circuit_open (clock w) (svc w) in
    (set_svc s w, Returns b).

Definition record_error_now : M unit :=
  fun w => (set_svc (_record_error (clock w) (svc w)) w, Returns tt).

(** [asyncio.get_event_loop().time()] *)
Definition loop_time : M Q := fun w => (w, Returns (loop_clock w)).

(** [x % 1] *)
Definition mod1 (x : Q) : Q := x - inject_Z (Qfloor x).

Local Open Scope io_scope.

(** *** Reading the provider's answer *)

(** [a and b] where [b] is only evaluated when [a] holds. *)
Definition and_then (a b : res bool) : res bool :=
  bind a (fun x => if x then b else Ok false).

(** ['candidates' in result and result['candidates']] *)
Definition has_candidates (result : value) : res bool :=
  and_then (py_in (lit "candidates") result)
           (bind (getitem result (lit "candidates")) (fun c => Ok (truthy c))).

(** ['content' in candidate and key in candidate['content']] *)
Definition content_has (key : pystr) (candidate : value) : res bool :=
  and_then (py_in (lit "content") candidate)
           (bind (getitem candidate (lit "content")) (py_in key)).

(** [[part.get('text', '') for part in parts if 'text' in part]] *)
Fixpoint texts_of (parts : list value) : res (list value) :=
  match parts with
  | [] => Ok []
  | part :: rest =>
      bind (py_in (lit "text") part) (fun b =>
      if b then
        bind (get part (lit "text") (JStr [])) (fun t =>
        bind (texts_of rest) (fun ts => Ok (t :: ts)))
      else texts_of rest)
  end.

(** [''.join(items)] *)
Fixpoint join (items : list value) : res pystr :=
  match items with
  | [] => Ok []
  | JStr s :: rest => bind (join rest) (fun t => Ok (s ++ t))
  | _ :: _ => Raise TypeError
  end.

(** [v.strip()] *)
Definition strip_value (v : value) : res pystr :=
  match v with
  | JStr s => Ok (strip s)
  | _ => Raise AttributeError
  end.

(** The inner [try] block of [_call_gemini_api]. *)
Definition extract_generated_text (result : value) : res pystr :=
  bind (has_candidates result) (fun ok =>
  if ok then
    bind (getitem result (lit "candidates")) (fun candidates =>
    bind (getitem0 candidates) (fun candidate =>
    bind (get candidate (lit "finishReason") (JStr (lit "UNKNOWN"))) (fun finish_reason =>
    bind (bind (content_has (lit "parts") candidate) (fun in_parts =>
          if in_parts then
            bind (getitem candidate (lit "content")) (fun content =>
            bind (getitem content (lit "parts")) (fun parts =>
            bind (iter parts) (fun items =>
            bind (texts_of items) (fun ts =>
            bind (join ts) (fun t => Ok (JStr t))))))
          else
            bind (content_has (lit "text") candidate) (fun in_text =>
            if in_text then
              bind (getitem candidate (lit "content")) (fun content =>
              getitem content (lit "text"))
            else
              bind (py_in (lit "text") candidate) (fun has_text =>
              if has_text then getitem candidate (lit "text")
              else Ok (JStr [])))))
         (fun generated_text =>
    bind (strip_value generated_text) (fun stripped =>
    if nonempty stripped then Ok stripped
    else if is_str (lit "MAX_TOKENS") finish_reason then Ok []
    else Ok [])))))
  else Ok []).

(** [except (KeyError, IndexError): return ""] *)
Definition or_empty_text (r : res pystr) : res pystr :=
  match r with
  | Raise (KeyError _) => Ok []
  | Raise IndexError => Ok []
  | _ => r
  end.

(** What [_call_gemini_api] does with an answer: the text of a 200, an
    error for any other status. *)
Definition read_answer (status : N) (result : value) : res pystr :=
  if (status =? 200)%N
  then or_empty_text (extract_generated_text result)
  else Raise (Exception (lit "Gemini API failed with status " ++ str_of_N status)).

(** The two handlers that close [_call_gemini_api]. *)
Definition gemini_failure (e : exn) : exn :=
  match e with
  | TimeoutError => Exception (lit "Gemini API timed out")
  | _ => Exception (lit "Gemini API call failed: " ++ str_exn e)
  end.

(** [_call_gemini_api]; [model or self.model] takes the service's model for
    an absent or empty argument. *)
Definition _call_gemini_api (max_tokens : N) (model_arg : option pystr) : M pystr :=
  fun w =>
    let current_model :=
      match model_arg with
      | Some m => if nonempty m then m else model (svc w)
      | None => model (svc w)
      end in
    catch
      (x <- post 12 GenerateText current_model ;;
       lift (read_answer (fst x) (snd x)))
      (fun e => raise (gemini_failure e))
      w.

(** *** The retry loop *)

(** ["503" in error_str or "UNAVAILABLE" in error_str] *)
Definition is_transient (error_str : pystr) : bool :=
  contains (lit "503") error_str || contains (lit "UNAVAILABLE") error_str.

(** One turn of the [for] loop of [_call_with_retry]: [Some response] when
    the function returns, [None] when the loop goes on to the next attempt;
    a raised error leaves the function. *)
Definition retry_attempt (max_output_tokens : N) (max_attempts attempt : nat)
  : M (option pystr) :=
  fun w =>
    let model_id := if (0 <? attempt)%nat then fallback_model (svc w)
                    else model (svc w) in
    catch
      ((if (0 <? attempt)%nat then
          t <- loop_time ;;
          let backoff := inject_Z (2 ^ Z.of_nat attempt) + mod1 t in
          sleep backoff
        else ret tt) ;;;
       response <- _call_gemini_api max_output_tokens (Some model_id) ;;
       if nonempty response then ret (Some response) else ret None)
      (fun e =>
         let error_str := str_exn e in
         if is_transient error_str then
           record_error_now ;;;
           if (attempt <? max_attempts - 1)%nat then ret None
           else if (attempt =? max_attempts - 1)%nat then raise e
           else ret None
         else if (attempt =? max_attempts - 1)%nat then raise e
         else ret None)
      w.

Fixpoint retry_loop (max_output_tokens : N) (max_attempts : nat)
    (attempts : list nat) : M pystr :=
  match attempts with
  | [] => raise (Exception (lit "All retry attempts failed"))
  | attempt :: rest =>
      r <- retry_attempt max_output_tokens max_attempts attempt ;;
      match r with
      | Some response => ret response
      | None => retry_loop max_output_tokens max_attempts rest
      end
  end.

(** [_call_with_retry]: [for attempt in range(max_attempts)] *)
Definition _call_with_retry (max_output_tokens : N) (max_attempts : nat) : M pystr :=
  retry_loop max_output_tokens max_attempts (seq 0 max_attempts).

(** *** Parsing a drafted reply *)

(** The dictionary [{"to": .., "subject": .., "body": ..}]. *)
Record reply := {
  to : value;
  subject : value;
  body : value
}.

Definition fence : pystr := lit "```".

(** The rebinding of [response] at the head of
    [_parse_structured_response]: the text between the first two fences,
    less a leading [json]. *)
Definition unfence (response : pystr) : pystr :=
  let response := strip response in
  if startswith fence response then
    let response := nth 1 (split_on fence response) [] in
    if startswith (lit "json") response then skipn 4 response else response
  else response.

(** [_format_response] *)
Definition _format_response (response : pystr) : pystr :=
  let formatted := strip response in
  let marker := lit "Resposta profissional:" in
  if contains marker formatted
  then strip (last (split_on marker formatted) [])
  else formatted.

(** The [try] block of [_parse_structured_response] after the rebinding. *)
Definition parse_reply (response : pystr) : res reply :=
  bind (loads (strip response)) (fun parsed =>
  bind (and_then (py_in (lit "to") parsed)
         (and_then (py_in (lit "subject") parsed) (py_in (lit "body") parsed)))
       (fun complete =>
  if complete then
    bind (getitem parsed (lit "to")) (fun t =>
    bind (getitem parsed (lit "subject")) (fun s =>
    bind (getitem parsed (lit "body")) (fun b =>
    Ok {| to := t; subject := s; body := b |})))
  else Raise (ValueError (lit "Missing required fields in JSON")))).

(** [x if x else default] on an optional string. *)
Definition truthy_str (x : option pystr) : bool :=
  match x with
  | Some s => nonempty s
  | None => false
  end.

Definition reply_fallback (response : pystr) (sender subject : option pystr) : reply := {|
  to := JStr (if truthy_str sender then or_empty sender else lit "cliente@email.com");
  subject := JStr (if truthy_str subject then lit "Re: " ++ or_empty subject
                   else lit "Resposta ao seu contato");
  body := JStr (_format_response response)
|}.

(** [_parse_structured_response] *)
Definition _parse_structured_response (response : pystr)
    (sender subject : option pystr) : reply :=
  let response := unfence response in
  match parse_reply response with
  | Ok r => r
  | _ => reply_fallback response sender subject
  end.

(** *** The structured classification call *)

(** The [for part in parts] loop looking for the function call. *)
Fixpoint find_function_call (tool_name : pystr) (parts : list value)
  : res (option value) :=
  match parts with
  | [] => Ok None
  | part :: rest =>
      bind (py_in (lit "functionCall") part) (fun b =>
      if b then
        bind (getitem part (lit "functionCall")) (fun function_call =>
        bind (get function_call (lit "name") JNull) (fun name =>
        if is_str tool_name name
        then bind (get function_call (lit "args") (JDict [])) (fun args => Ok (Some args))
        else find_function_call tool_name rest))
      else find_function_call tool_name rest)
  end.

(** [try: return json.loads(text.strip())  except: pass] *)
Definition try_loads (text : value) : option value :=
  match strip_value text with
  | Ok s => match loads s with Ok v => Some v | _ => None end
  | _ => None
  end.

(** What [_call_with_tool_calling] does with the body of a 200 answer. *)
Definition structured_output (tool_name : pystr) (result : value) : res value :=
  bind (bind (has_candidates result) (fun ok =>
        if ok then
          bind (getitem result (lit "candidates")) (fun candidates =>
          bind (getitem0 candidates) (fun candidate =>
          bind (content_has (lit "parts") candidate) (fun in_parts =>
          if in_parts then
            bind (getitem candidate (lit "content")) (fun content =>
            bind (getitem content (lit "parts")) (fun parts =>
            bind (iter parts) (find_function_call tool_name)))
          else Ok None)))
        else Ok None))
       (fun found =>
  match found with
  | Some args => Ok args
  | None =>
      bind (bind (has_candidates result) (fun ok =>
            if ok then
              bind (getitem result (lit "candidates")) (fun candidates =>
              bind (getitem0 candidates) (fun candidate =>
              bind (content_has (lit "parts") candidate) (fun in_parts =>
              if in_parts then
                bind (getitem candidate (lit "content")) (fun content =>
                bind (getitem content (lit "parts")) (fun parts =>
                bind (getitem0 parts) (fun first =>
                bind (get first (lit "text") (JStr [])) (fun text =>
                Ok (try_loads text)))))
              else Ok None)))
            else Ok None))
           (fun parsed =>
      match parsed with
      | Some v => Ok v
      | None => Raise (Exception (lit "Could not extract structured output from response"))
      end)
  end).

(** What [_call_with_tool_calling] does with an answer. *)
Definition read_tool_answer (tool_name : pystr) (status : N) (result : value)
  : res value :=
  if (status =? 200)%N
  then structured_output tool_name result
  else Raise (Exception (lit "Tool calling API failed with status " ++ str_of_N status)).

Definition tool_failure (e : exn) : exn :=
  match e with
  | TimeoutError => Exception (lit "Tool calling API timed out")
  | _ => Exception (lit "Tool calling failed: " ++ str_exn e)
  end.

(** [_call_with_tool_calling]: one request to the primary model, no retry
    and no error recording. *)
Definition _call_with_tool_calling (tool_name : pystr) : M value :=
  fun w =>
    catch
      (x <- post 15 ToolCall (model (svc w)) ;;
       lift (read_tool_answer tool_name (fst x) (snd x)))
      (fun e => raise (tool_failure e))
      w.

(** *** The two operations *)

Definition circuit_open_error : exn :=
  Exception (lit "Circuit breaker is open - too many recent errors").

(** The log line that ends [classify_email_with_context]: it reads
    [response['category']], [response.get('confidence', 'unknown')] and
    [response['reasoning']]. *)
Definition log_result (response : value) : res unit :=
  bind (getitem response (lit "category")) (fun _ =>
  bind (get response (lit "confidence") (JStr (lit "unknown"))) (fun _ =>
  bind (getitem response (lit "reasoning")) (fun _ => Ok tt))).

(** [classify_email_with_context] past the breaker check. *)
Definition classify_call : M value :=
  response <- _call_with_tool_calling (lit "classify_email") ;;
  lift (log_result response) ;;;
  ret response.

(** [classify_email_with_context]; its handler raises the error again.  The
    content, subject and tenant hints only enter the prompt. *)
Definition classify_email_with_context : M value :=
  is_open <- is_circuit_open_now ;;
  if is_open then raise circuit_open_error else classify_call.

(** [generate_response] past the breaker check. *)
Definition draft_call (sender subject : option pystr) : M reply :=
  response <- _call_with_retry 1024 3 ;;
  if negb (nonempty response) || (List.length (strip response) <? 20)%nat
  then raise (Exception (lit "Gemini API returned empty or too short response"))
  else ret (_parse_structured_response response sender subject).

Definition draft_circuit_open_error : exn :=
  Exception (lit "Circuit breaker open - too many recent failures").

(** The handler of [generate_response]. *)
Definition draft_failure {A} (e : exn) : M A :=
  raise (Exception (lit "Gemini Text Generation API failed: " ++ str_exn e)).

(** [generate_response]; the context, category and tenant hints only enter
    the prompt. *)
Definition generate_response (sender subject : option pystr) : M reply :=
  catch
    (is_open <- is_circuit_open_now ;;
     if is_open then raise draft_circuit_open_error
     else draft_call sender subject)
    draft_failure.

End GeminiService.

(* ================================================================== *)
(** ** models/email_models.py *)

Module Models.

(** The two result models.  Their constructors validate as pydantic does: a
    text field takes a string, the category one of its two literals. *)
Record StructuredResponse := {
  to : pystr;
  subject : pystr;
  body : pystr
}.

Definition new_StructuredResponse (t s b : value) : res StructuredResponse :=
  match t, s, b with
  | JStr t, JStr s, JStr b => Ok {| to := t; subject := s; body := b |}
  | _, _, _ => Raise ValidationError
  end.

Record ClassificationResult := {
  category : pystr;
  reasoning : pystr;
  suggested_response : StructuredResponse
}.

Definition new_ClassificationResult (c r : value) (sr : StructuredResponse)
  : res ClassificationResult :=
  match c, r with
  | JStr c, JStr r =>
      if str_eqb c (lit "productive") || str_eqb c (lit "unproductive")
      then Ok {| category := c; reasoning := r; suggested_response := sr |}
      else Raise ValidationError
  | _, _ => Raise ValidationError
  end.

End Models.

(* ================================================================== *)
(** ** services/classifier.py *)

Module EmailClassifier.

Import GeminiService.
Local Open Scope io_scope.

(** The dictionary [_nlp_enhanced_fallback] returns. *)
Record verdict := {
  category : pystr;
  reasoning : pystr;
  confidence : pystr
}.

Definition productive : pystr := lit "productive".
Definition unproductive : pystr := lit "unproductive".

(** [_nlp_enhanced_fallback].  Its first statement builds a lower-cased
    text that nothing reads. *)
Definition _nlp_enhanced_fallback (content : pystr) (subject : option pystr)
    (features : option FeatureDict) : verdict :=
  let features :=
    match features with
    | None => extract_all_features content subject
    | Some features => features
    end in
  let technical_score := TextFeatureExtractor.get technical_score 0.0%float features in
  let business_score := TextFeatureExtractor.get business_score 0.0%float features in
  let support_score := TextFeatureExtractor.get support_score 0.0%float features in
  let social_score := TextFeatureExtractor.get social_score 0.0%float features in
  let urgency_score := TextFeatureExtractor.get urgency_score 0.0%float features in
  if fgt urgency_score 0.5 && (fgt technical_score 0.2 || fgt business_score 0.2) then
    {| category := productive;
       reasoning := lit "Email urgente detectado com contexto de negócios (urgência: "
                      ++ format_fixed 1 urgency_score ++ lit ")";
       confidence := lit "high" |}
  else if fgt technical_score 0.4 then
    {| category := productive;
       reasoning := lit "Problema técnico identificado pelas features NLP (score: "
                      ++ format_fixed 2 technical_score ++ lit ")";
       confidence := lit "high" |}
  else if fgt business_score 0.4 then
    {| category := productive;
       reasoning := lit "Questão comercial identificada (score: "
                      ++ format_fixed 2 business_score ++ lit ")";
       confidence := lit "high" |}
  else if fgt support_score 0.4 then
    {| category := productive;
       reasoning := lit "Solicitação de suporte identificada (score: "
                      ++ format_fixed 2 support_score ++ lit ")";
       confidence := lit "medium" |}
  else if fgt social_score 0.4 && flt technical_score 0.1 && flt business_score 0.1 then
    {| category := unproductive;
       reasoning := lit "Mensagem social/pessoal sem contexto de negócios (score social: "
                      ++ format_fixed 2 social_score ++ lit ")";
       confidence := lit "high" |}
  else if TextFeatureExtractor.get has_multiple_questions false features && flt social_score 0.2 then
    {| category := productive;
       reasoning := lit "Múltiplas perguntas detectadas, indicando necessidade de suporte";
       confidence := lit "medium" |}
  else if (TextFeatureExtractor.get word_count 0 features <? 10)%nat then
    {| category := unproductive;
       reasoning := lit "Mensagem muito curta (" ++ str_of_nat (TextFeatureExtractor.get word_count 0%nat features)
                      ++ lit " palavras) sem indicadores claros";
       confidence := lit "medium" |}
  else
    {| category := unproductive;
       reasoning := lit "Sem indicadores claros de necessidade de ação (análise NLP conservadora)";
       confidence := lit "low" |}.

(** [_critical_fallback_classification] *)
Definition _critical_fallback_classification (content : pystr) (subject : option pystr)
  : verdict :=
  _nlp_enhanced_fallback content subject None.

(** [_generate_response] *)
Definition _generate_response (sender subject : option pystr)
  : M Models.StructuredResponse :=
  catch
    (response_dict <- generate_response sender subject ;;
     lift (Models.new_StructuredResponse
             (GeminiService.to response_dict)
             (GeminiService.subject response_dict)
             (GeminiService.body response_dict)))
    (fun e => raise (Exception (lit "AI Response Generation falhou"))).

Definition nl : pystr := [10%N].

Definition productive_body : pystr :=
  lit "Prezado(a)," ++ nl ++ nl ++
  lit "Recebemos sua mensagem e nossa equipe irá analisá-la. Retornaremos o contato em breve."
  ++ nl ++ nl ++ lit "Atenciosamente," ++ nl ++ lit "Equipe de Suporte".

Definition unproductive_body : pystr :=
  lit "Prezado(a)," ++ nl ++ nl ++ lit "Agradecemos seu contato."
  ++ nl ++ nl ++ lit "Atenciosamente," ++ nl ++ lit "Equipe".

(** The reply built by the handler of the drafting stage. *)
Definition templated_reply (final_category : value) (sender subject : option pystr)
  : Models.StructuredResponse := {|
  Models.to := if truthy_str sender then or_empty sender else lit "cliente@email.com";
  Models.subject := if truthy_str subject then lit "Re: " ++ or_empty subject
                    else lit "Re: Seu contato";
  Models.body := if is_str productive final_category then productive_body
                 else unproductive_body
|}.

(** The values the classification stage settles: category, reasoning,
    confidence and method. *)
Definition settled : Type := (value * value * value * pystr)%type.

Definition heuristic (content : pystr) (subject : option pystr) (features : FeatureDict)
  : settled :=
  let fallback_result := _nlp_enhanced_fallback content subject (Some features) in
  (JStr (category fallback_result), JStr (reasoning fallback_result),
   JStr (confidence fallback_result), lit "NLP_fallback").

(** The first inner [try] of [classify_and_respond]: the AI under a
    15-second bound, the heuristic in both handlers. *)
Definition classification_stage (content : pystr) (subject : option pystr)
    (features : FeatureDict) : M settled :=
  catch
    (ai_result <- wait_for classify_email_with_context 15 ;;
     final_category <- lift (Json.get ai_result (lit "category") (JStr unproductive)) ;;
     final_reasoning <- lift (Json.get ai_result (lit "reasoning")
                                (JStr (lit "Classificação por IA"))) ;;
     confidence <- lift (Json.get ai_result (lit "confidence") (JStr (lit "medium"))) ;;
     ret (final_category, final_reasoning, confidence, lit "AI+NLP"))
    (fun e =>
       match e with
       | TimeoutError => ret (heuristic content subject features)
       | _ => ret (heuristic content subject features)
       end).

(** The second inner [try]: the drafted reply under a 20-second bound, the
    template in the handler. *)
Definition drafting_stage (final_category : value) (sender subject : option pystr)
  : M Models.StructuredResponse :=
  catch (wait_for (_generate_response sender subject) 20)
        (fun e => ret (templated_reply final_category sender subject)).

(** The closing log line. *)
Definition log_completed (result : Models.ClassificationResult)
    (classification_method : pystr) (confidence : value) : M unit :=
  fun w =>
    (emit (Completed (JStr (Models.category result)) classification_method confidence) w,
     Returns tt).

(** [classify_and_respond].  The preprocessor cannot raise and its output
    only enters the prompt and the log. *)
Definition classify_and_respond (content : pystr) (subject sender : option pystr)
  : M Models.ClassificationResult :=
  catch
    (let features := extract_all_features content subject in
     s <- classification_stage content subject features ;;
     let '(final_category, final_reasoning, confidence, classification_method) := s in
     structured_response <- drafting_stage final_category sender subject ;;
     result <- lift (Models.new_ClassificationResult final_category final_reasoning
                       structured_response) ;;
     log_completed result classification_method confidence ;;;
     ret result)
    (fun e => raise (Exception (lit "Email Classification Service failed: " ++ str_exn e))).

End EmailClassifier.

(* ================================================================== *)
(** ** The rule list of the heuristic classifier, as specified *)

Module HeuristicSpec.

Definition score (proj : Features -> float) (features : FeatureDict) : float :=
  TextFeatureExtractor.get proj 0.0%float features.

(** A rule: its condition and its outcome, the reasoning being a text
    about the scores of the vector. *)
Record rule := {
  applies : FeatureDict -> bool;
  outcome_category : pystr;
  outcome_reasoning : FeatureDict -> pystr;
  outcome_confidence : pystr
}.

Definition urgency_reasoning (f : FeatureDict) : pystr :=
  lit "Email urgente detectado com contexto de negócios (urgência: "
    ++ format_fixed 1 (score urgency_score f) ++ lit ")".

Definition no_clear_indicator : pystr :=
  lit "Sem indicadores claros de necessidade de ação (análise NLP conservadora)".

Definition rule1 : rule := {|
  applies := fun f => fgt (score urgency_score f) 0.5
                      && (fgt (score technical_score f) 0.2
                          || fgt (score business_score f) 0.2);
  outcome_category := lit "productive";
  outcome_reasoning := urgency_reasoning;
  outcome_confidence := lit "high"
|}.

Definition rule2 : rule := {|
  applies := fun f => fgt (score technical_score f) 0.4;
  outcome_category := lit "productive";
  outcome_reasoning := fun f =>
    lit "Problema técnico identificado pelas features NLP (score: "
      ++ format_fixed 2 (score technical_score f) ++ lit ")";
  outcome_confidence := lit "high"
|}.

Definition rule3 : rule := {|
  applies := fun f => fgt (score business_score f) 0.4;
  outcome_category := lit "productive";
  outcome_reasoning := fun f =>
    lit "Questão comercial identificada (score: "
      ++ format_fixed 2 (score business_score f) ++ lit ")";
  outcome_confidence := lit "high"
|}.

Definition rule4 : rule := {|
  applies := fun f => fgt (score support_score f) 0.4;
  outcome_category := lit "productive";
  outcome_reasoning := fun f =>
    lit "Solicitação de suporte identificada (score: "
      ++ format_fixed 2 (score support_score f) ++ lit ")";
  outcome_confidence := lit "medium"
|}.

Definition rule5 : rule := {|
  applies := fun f => fgt (score social_score f) 0.4
                      && flt (score technical_score f) 0.1
                      && flt (score business_score f) 0.1;
  outcome_category := lit "unproductive";
  outcome_reasoning := fun f =>
    lit "Mensagem social/pessoal sem contexto de negócios (score social: "
      ++ format_fixed 2 (score social_score f) ++ lit ")";
  outcome_confidence := lit "high"
|}.

Definition rule6 : rule := {|
  applies := fun f => TextFeatureExtractor.get has_multiple_questions false f
                      && flt (score social_score f) 0.2;
  outcome_category := lit "productive";
  outcome_reasoning := fun _ =>
    lit "Múltiplas perguntas detectadas, indicando necessidade de suporte";
  outcome_confidence := lit "medium"
|}.

Definition rule7 : rule := {|
  applies := fun f => (TextFeatureExtractor.get word_count 0%nat f <? 10)%nat;
  outcome_category := lit "unproductive";
  outcome_reasoning := fun f =>
    lit "Mensagem muito curta ("
      ++ str_of_nat (TextFeatureExtractor.get word_count 0%nat f)
      ++ lit " palavras) sem indicadores claros";
  outcome_confidence := lit "medium"
|}.

(** Rule 8, the default. *)
Definition rule8 : rule := {|
  applies := fun _ => true;
  outcome_category := lit "unproductive";
  outcome_reasoning := fun _ => no_clear_indicator;
  outcome_confidence := lit "low"
|}.

Definition rules : list rule := [rule1; rule2; rule3; rule4; rule5; rule6; rule7; rule8].

(** First matching rule wins. *)
Fixpoint first_match (rs : list rule) (f : FeatureDict) : option rule :=
  match rs with
  | [] => None
  | r :: rs' => if applies r f then Some r else first_match rs' f
  end.

(** The outcome a rule gives on a vector. *)
Definition outcome (r : rule) (f : FeatureDict) : EmailClassifier.verdict := {|
  EmailClassifier.category := outcome_category r;
  EmailClassifier.reasoning := outcome_reasoning r f;
  EmailClassifier.confidence := outcome_confidence r
|}.

End HeuristicSpec.

(* ================================================================== *)
(** ** Histories of the circuit breaker *)

Module BreakerHistory.

Import GeminiService.

(** What happens to the breaker: a check or a recorded error, each at the
    time read from the clock. *)
Inductive op :=
| Check (now : Q)
| Record (now : Q).

(** A check that finds the time past [circuit_open_until] and empties the
    log. *)
Definition clearing (now : Q) (s : service) : bool :=
  Qltb (circuit_open_until s) now.

(** The state after a history, with the number of errors recorded since the
    last clearing check ([n] of them before the history starts). *)
Fixpoint run (ops : list op) (s : service) (n : nat) : service * nat :=
  match ops with
  | [] => (s, n)
  | Check now :: rest =>
      run rest (fst (_is_circuit_open now s)) (if clearing now s then 0%nat else n)
  | Record now :: rest =>
      run rest (_record_error now s) (S n)
  end.

(** Whether recording one more error opens the breaker, that is, sets
    [circuit_open_until]. *)
Definition trips (s : service) : bool :=
  (circuit_breaker_threshold <=? S (List.length (circuit_breaker_errors s)))%nat.

End BreakerHistory.

(* ================================================================== *)
(** ** The retry loop seen from the provider's side *)

Module RetrySpec.

Import GeminiService.

(** What [_call_gemini_api] makes of an exchange when no deadline cuts it
    short. *)
Definition api_result (x : exchange) : res pystr :=
  match bind (received 12 x) (fun a => read_answer (fst a) (snd a)) with
  | Ok t => Ok t
  | Raise e => Raise (gemini_failure e)
  end.

(** An attempt succeeds when it returns a non-empty text. *)
Definition succeeded (r : res pystr) : bool :=
  match r with
  | Ok t => nonempty t
  | Raise _ => false
  end.

(** A failure of the service-unavailable class. *)
Definition transient (r : res pystr) : bool :=
  match r with
  | Ok _ => false
  | Raise e => is_transient (str_exn e)
  end.

(** What the loop ends with when its last attempt did not succeed. *)
Definition exhausted (r : res pystr) : awaited pystr :=
  match r with
  | Ok _ => Raises (Exception (lit "All retry attempts failed"))
  | Raise e => Raises e
  end.

End RetrySpec.

(* ================================================================== *)
(** ** Shapes of the provider's answers *)

Module Wire.

(** The body of a 200 answer that carries one text part and no function
    call. *)
Definition text_answer (t : pystr) : value :=
  JDict [(lit "candidates",
          JList [JDict [(lit "content",
                         JDict [(lit "parts", JList [JDict [(lit "text", JStr t)]])])]])].

End Wire.

(* ================================================================== *)
(** ** Sample inputs *)

Module Samples.

Import GeminiService.

Definition features_with (technical business support social urgency : float)
    (multiple_questions : bool) (words : nat) : FeatureDict :=
  FullDict {|
    text_length := 0; word_count := words; sentence_count := 0;
    avg_word_length := 0.0%float; question_count := 0; exclamation_count := 0;
    has_multiple_questions := multiple_questions;
    has_excessive_exclamations := false; caps_lock_ratio := 0.0%float;
    technical_score := technical; business_score := business;
    support_score := support; social_score := social; urgency_score := urgency;
    negative_words_count := 0; positive_words_count := 0;
    feature_based_category := lit "uncertain"; confidence_score := 0.3%float
  |}.

(** Urgent and technical: meets rule 1 and rule 2. *)
Definition urgent_technical : FeatureDict :=
  features_with (2 / 3.0)%float 0.0%float 0.0%float 0.0%float 0.8%float false 12.

(** Twelve words and no signal: meets none of the rules 1 to 7. *)
Definition no_signal : FeatureDict :=
  features_with 0.0%float 0.0%float 0.0%float 0.0%float 0.0%float false 12.

Definition quote : pystr := [34%N].
Definition newline : pystr := [10%N].

(** A provider that answers from a script and then stays silent. *)
Definition silent : exchange :=
  {| elapsed := 0; outcome := ClientError (lit "connection refused") |}.

Definition script (answers : list exchange) : nat -> exchange :=
  fun n => nth n answers silent.

Definition two_models : service := {|
  model := lit "primary-model";
  fallback_model := lit "fallback-model";
  circuit_breaker_errors := [];
  circuit_open_until := 0
|}.

(** A world at a given clock reading with no deadline in force. *)
Definition world_at (now : Q) (s : service) (answers : list exchange) : world := {|
  svc := s; clock := now; loop_clock := 7 # 2; deadline := None;
  provider := script answers; sent := 0; trace := []
|}.

(** A service whose breaker opened at 992. *)
Definition tripped : service :=
  _record_error 992 (_record_error 991 (_record_error 990 two_models)).

Definition status (code : N) : exchange :=
  {| elapsed := 1; outcome := Response code JNull |}.

(** An answer that arrives after the 12 seconds of the client's timeout. *)
Definition late : exchange :=
  {| elapsed := 13; outcome := Response 200 JNull |}.

Definition answer (t : pystr) : exchange :=
  {| elapsed := 1; outcome := Response 200 (Wire.text_answer t) |}.

(** The reply of the drafting example, inside a fenced block. *)
Definition fenced_reply : pystr :=
  lit "```json" ++ newline
  ++ lit "{" ++ quote ++ lit "to" ++ quote ++ lit ":" ++ quote ++ lit "a@b.com" ++ quote
  ++ lit "," ++ quote ++ lit "subject" ++ quote ++ lit ":" ++ quote ++ lit "S" ++ quote
  ++ lit "," ++ quote ++ lit "body" ++ quote ++ lit ":" ++ quote ++ lit "B" ++ quote
  ++ lit "}" ++ newline ++ lit "```".

(** A classification in free text that gives no confidence. *)
Definition no_confidence : pystr :=
  lit "{" ++ quote ++ lit "category" ++ quote ++ lit ": " ++ quote ++ lit "productive" ++ quote
  ++ lit ", " ++ quote ++ lit "reasoning" ++ quote ++ lit ": " ++ quote
  ++ lit "pedido de suporte" ++ quote ++ lit "}".

(** The message of the end-to-end example. *)
Definition urgent_content : pystr :=
  lit "O sistema está travando, erro 500, preciso de ajuda urgente!!".

Definition urgent_subject : option pystr := Some (lit "Urgente").

End Samples.

(* ================================================================== *)
(** ** Shapes of strings *)

Module PyFacts.


(** A text of Basic Latin and Latin-1 Supplement characters only, on which
    [lower], [isalpha] and [isupper] are those of Python. *)
Definition latin1 (s : pystr) : bool := forallb (fun c => (c <? 256)%N) s.

(** [s.rstrip()] *)
Definition rstrip (s : pystr) : pystr := rev (lstrip (rev s)).

(** The test that a character is not white space. *)
Definition is_ink (c : N) : bool := negb (isspace c).

End PyFacts.

(* ================================================================== *)
(** ** Keyword hits and the scores they give *)

Module FeatureSpec.

(** The score of a keyword list by the number of its keywords that occur:
    a third for each, one from three on. *)
Definition banded (hits : nat) : float :=
  match hits with
  | 0%nat => 0.0%float
  | 1%nat => (1 / 3)%float
  | 2%nat => (2 / 3)%float
  | _ => 1.0%float
  end.

(** The text the extractor scores: subject, a space, the body, in lower
    case. *)
Definition full_text (text : pystr) (subject : option pystr) : pystr :=
  lower (or_empty subject ++ [32%N] ++ text).

End FeatureSpec.

(* ================================================================== *)
(** ** Requests sent by a computation *)

Module Traffic.

Import GeminiService.

(** A computation that sends at most [n] requests, whatever the world. *)
Definition sends_at_most {A} (n : nat) (m : M A) : Prop :=
  forall w : world,
    (sent w <= sent (fst (m w)))%nat /\ (sent (fst (m w)) <= sent w + n)%nat.

(** The result of a synchronous call, as the result of awaiting it. *)
Definition of_res {A} (r : res A) : awaited A :=
  match r with
  | Ok a => Returns a
  | Raise e => Raises e
  end.

(** The model a request of [_call_gemini_api] names. *)
Definition addressed (model_arg : option pystr) (s : service) : pystr :=
  match model_arg with
  | Some m => if nonempty m then m else model s
  | None => model s
  end.

(** The same world with no time bound in force. *)
Definition unbounded (w : world) : world := set_deadline None w.

(** A computation that a time bound only affects by cutting it: a run that
    is not cancelled goes as it goes without the bound. *)
Definition steady {A} (m : M A) : Prop :=
  forall w : world,
    snd (m w) <> Cancelled ->
    m (unbounded w) = (unbounded (fst (m w)), snd (m w)).

End Traffic.

(* ================================================================== *)
(** ** More shapes of the provider's answers *)

Module Bodies.



(** The body of a 200 answer whose first part is a call of the function
    [name] with the arguments [args]. *)
Definition function_call_answer (name : pystr) (args : value) : value :=
  JDict [(lit "candidates",
          JList [JDict [(lit "content",
                         JDict [(lit "parts",
                                 JList [JDict [(lit "functionCall",
                                                JDict [(lit "name", JStr name);
                                                       (lit "args", args)])]])])]])].

(** The HTTP status codes. *)
Definition http_statuses : list N := map N.of_nat (seq 100 500).

End Bodies.

(* ================================================================== *)
(** ** The attempts of the retry loop, step by step *)

Module RetrySteps.

Import GeminiService.

(** The pause before an attempt other than the first. *)
Definition backoff (attempt : nat) (w : world) : Q :=
  inject_Z (2 ^ Z.of_nat attempt) + mod1 (loop_clock w).

(** The model an attempt addresses. *)
Definition model_for (attempt : nat) (s : service) : pystr :=
  Traffic.addressed
    (Some (if (0 <? attempt)%nat then fallback_model s else model s)) s.

(** The world when the request of an attempt goes out. *)
Definition before_call (attempt : nat) (w : world) : world :=
  if (0 <? attempt)%nat
  then emit (Sleep (backoff attempt w)) (advance (backoff attempt w) w)
  else w.

(** The world when the answer, or the client's timeout, has come. *)
Definition after_call (attempt : nat) (w : world) : world :=
  advance (waited 12 (provider w (sent w)))
    (consume (emit (Request GenerateText (model_for attempt (svc w)))
                (before_call attempt w))).

(** The world an attempt leaves under no deadline: a transient failure is
    recorded at the time it is met. *)
Definition after_attempt (attempt : nat) (w : world) : world :=
  let wc := after_call attempt w in
  if RetrySpec.transient (RetrySpec.api_result (provider w (sent w)))
  then set_svc (_record_error (clock wc) (svc wc)) wc
  else wc.

(** The answer to the attempt number [k] of a call that starts in [w]. *)
Definition result_of (k : nat) (w : world) : res pystr :=
  RetrySpec.api_result (provider w (sent w + k)).

End RetrySteps.

(* ================================================================== *)
(** ** services/nlp_preprocessor.py *)

Module NLPPreprocessor.

Definition stop_words : list pystr :=
  map lit ["o"; "a"; "os"; "as"; "um"; "uma"; "uns"; "umas";
           "de"; "da"; "do"; "das"; "dos"; "em"; "no"; "na"; "nos"; "nas";
           "por"; "para"; "com"; "sem"; "sob"; "sobre";
           "e"; "ou"; "mas"; "porém"; "contudo";
           "que"; "qual"; "quais"; "quanto"; "quantos";
           "esse"; "essa"; "esses"; "essas"; "aquele"; "aquela";
           "isto"; "isso"; "aquilo";
           "se"; "como"; "quando"; "onde"]%string.

(** [re.sub(r'\s+', ' ', text)]: every maximal run of white space becomes
    one space.  [in_run] tells that the run has been replaced already. *)
Fixpoint sub_spaces (in_run : bool) (text : pystr) : pystr :=
  match text with
  | [] => []
  | c :: rest =>
      if isspace c
      then if in_run then sub_spaces true rest else 32%N :: sub_spaces true rest
      else c :: sub_spaces false rest
  end.

(** What a run of [run] line feeds becomes under
    [re.sub(r'\n{3,}', '\n\n', text)]. *)
Definition line_feeds (run : nat) : pystr :=
  repeat 10%N (if (3 <=? run)%nat then 2%nat else run).

(** [re.sub(r'\n{3,}', '\n\n', text)]; [run] counts the line feeds of the
    run being read. *)
Fixpoint sub_newlines (run : nat) (text : pystr) : pystr :=
  match text with
  | [] => line_feeds run
  | c :: rest =>
      if (c =? 10)%N
      then sub_newlines (S run) rest
      else line_feeds run ++ c :: sub_newlines 0 rest
  end.

(** [_normalize_text] *)
Definition _normalize_text (text : pystr) : pystr :=
  let text := sub_spaces false text in
  let text := sub_newlines 0 text in
  strip text.

Definition portuguese_indicators : list pystr :=
  map lit ["ção"; "ões"; "ão"; "ê"; "á"; "à"; "ó"; "ô"]%string.

(** [_detect_language] *)
Definition _detect_language (text : pystr) : pystr :=
  let text_lower := lower text in
  let pt_count :=
    List.length (filter (fun indicator => contains indicator text_lower)
                   portuguese_indicators) in
  if (2 <? pt_count)%nat then lit "pt" else lit "en".

(** [' '.join(words)] *)
Fixpoint join_words (words : list pystr) : pystr :=
  match words with
  | [] => []
  | [word] => word
  | word :: rest => word ++ 32%N :: join_words rest
  end.

(** [word in self.stop_words] *)
Definition is_stop_word (word : pystr) : bool := existsb (str_eqb word) stop_words.

(** [_remove_stopwords] *)
Definition _remove_stopwords (text : pystr) : pystr :=
  let words := split_ws (lower text) in
  let filtered_words := filter (fun word => negb (is_stop_word word)) words in
  join_words filtered_words.

(** A word as [split] yields it: not empty and free of white space. *)
Definition is_word (w : pystr) : Prop :=
  w <> [] /\ forallb PyFacts.is_ink w = true.

End NLPPreprocessor.

(* ================================================================== *)
(** ** services/company_service.py *)

Module CompanyService.

(** [models/company_models.py]: a stored configuration.  [created_at] is
    the reading of the clock, in seconds. *)
Record CompanyConfig := {
  config_id : pystr;
  company_name : pystr;
  custom_instructions : pystr;
  created_at : Q
}.

(** [self._configs], in insertion order. *)
Definition configs := list (pystr * CompanyConfig).

(** [self._configs.get(config_id)] *)
Fixpoint find (config_id : pystr) (self : configs) : option CompanyConfig :=
  match self with
  | [] => None
  | (k, config) :: rest => if str_eqb config_id k then Some config else find config_id rest
  end.

(** [self._configs[config_id] = config] *)
Fixpoint put (config_id : pystr) (config : CompanyConfig) (self : configs) : configs :=
  match self with
  | [] => [(config_id, config)]
  | (k, old) :: rest =>
      if str_eqb config_id k then (k, config) :: rest
      else (k, old) :: put config_id config rest
  end.

(** [c.upper()] on the characters of the text of a UUID, which are hexadecimal
    digits and dashes. *)
Definition upper_char (c : N) : N :=
  if ((97 <=? c) && (c <=? 122))%N then (c - 32)%N else c.

Definition upper (s : pystr) : pystr := map upper_char s.

(** [create_config].  [uuid4] is the text [str(uuid.uuid4())] of the
    identifier drawn by the call and [now] the value of [datetime.now()];
    the result is the updated service and the returned configuration. *)
Definition create_config (uuid4 : pystr) (now : Q)
    (request_company_name request_custom_instructions : pystr) (self : configs)
  : configs * CompanyConfig :=
  let config_id := upper (firstn 8 uuid4) in
  let config := {|
    config_id := config_id;
    company_name := request_company_name;
    custom_instructions := request_custom_instructions;
    created_at := now
  |} in
  (put config_id config self, config).

(** [get_config] *)
Definition get_config (config_id : pystr) (self : configs) : option CompanyConfig :=
  find config_id self.

(** [config_exists] *)
Definition config_exists (config_id : pystr) (self : configs) : bool :=
  match find config_id self with
  | Some _ => true
  | None => false
  end.

(** One call of [create_config]: the UUID drawn, the time and the two fields
    of the request. *)
Record creation := {
  drawn : pystr;
  at_time : Q;
  name : pystr;
  instructions : pystr
}.

(** The service after a sequence of creations, from [__init__] on. *)
Definition after (calls : list creation) : configs :=
  fold_left (fun self c =>
               fst (create_config (drawn c) (at_time c) (name c) (instructions c) self))
            calls [].

End CompanyService.

(* ================================================================== *)
(** ** The letters that tell Portuguese *)

Module Indicators.

(** The letters a-grave, a-acute, e-circumflex, o-acute, o-circumflex and
    o-tilde: every indicator of [_detect_language] but the two endings in
    a-tilde holds one of them. *)
Definition marks : list N := [224; 225; 234; 243; 244; 245]%N.

(** A text without these letters, in either case. *)
Definition unmarked (text : pystr) : bool :=
  forallb (fun c => negb (existsb (N.eqb (lower_char c)) marks)) text.

End Indicators.

(* ================================================================== *)
(** ** main.py *)

Module Main.

Import GeminiService.

(** [models/email_models.py]: the request and the response of the
    endpoint.  The identifiers, the echoed email and the time stamps of the
    response are not modelled. *)
Record EmailRequest := {
  content : pystr;
  subject : option pystr;
  sender : option pystr;
  config_id : option pystr
}.

Record EmailClassificationResponse := {
  category : pystr;
  reasoning : pystr;
  suggestedResponse : Models.StructuredResponse
}.

(** The response of the two [except] branches. *)
Definition default_response (request : EmailRequest) (reasoning body : pystr)
  : EmailClassificationResponse := {|
  category := lit "productive";
  reasoning := reasoning;
  suggestedResponse := {|
    Models.to := if truthy_str (sender request) then or_empty (sender request)
                 else lit "cliente@email.com";
    Models.subject := if truthy_str (subject request)
                      then lit "Re: " ++ or_empty (subject request)
                      else lit "Resposta";
    Models.body := body
  |}
|}.

Definition timeout_response (request : EmailRequest) : EmailClassificationResponse :=
  default_response request
    (lit "Timeout no processamento - classificação padrão aplicada")
    (lit "Prezado(a)," ++ [10; 10]%N
       ++ lit "Recebemos sua mensagem e vamos analisá-la em breve." ++ [10; 10]%N
       ++ lit "Atenciosamente," ++ [10]%N ++ lit "Equipe de Suporte").

Definition error_response (request : EmailRequest) : EmailClassificationResponse :=
  default_response request
    (lit "Erro no processamento - classificação padrão aplicada")
    (lit "Prezado(a)," ++ [10; 10]%N
       ++ lit "Recebemos sua mensagem. Nossa equipe irá analisá-la e retornar em breve."
       ++ [10; 10]%N
       ++ lit "Atenciosamente," ++ [10]%N ++ lit "Equipe de Suporte").

(** [await asyncio.wait_for(classifier.classify_and_respond(...),
    timeout=30.0)]: what the handler gets from the pipeline started in [w].
    A run of the pipeline that would end more than 30 seconds after its
    start is cancelled at that time and the await raises
    [asyncio.TimeoutError]; the world a request leaves is not modelled. *)
Definition bounded_pipeline (request : EmailRequest) (w : world)
  : awaited Models.ClassificationResult :=
  let (w1, r) :=
    EmailClassifier.classify_and_respond (content request) (subject request)
      (sender request) w in
  if Qltb (clock w + 30) (clock w1) then Raises TimeoutError else r.

(** [classify_email]: the response to a request that arrives in [w]. *)
Definition classify_email (request : EmailRequest) (w : world)
  : awaited EmailClassificationResponse :=
  match bounded_pipeline request w with
  | Returns classification_result =>
      Returns {|
        category := Models.category classification_result;
        reasoning := Models.reasoning classification_result;
        suggestedResponse := Models.suggested_response classification_result
      |}
  | Raises TimeoutError => Returns (timeout_response request)
  | Raises _ => Returns (error_response request)
  | Cancelled => Cancelled
  end.

End Main.

(* ================================================================== *)
(** ** The limits of the JSON decoder *)

Module JsonLimits.




End JsonLimits.

(* ================================================================== *)
(** * Properties *)

Import GeminiService.

(** ** The heuristic classifier *)

(** C1.  The fallback classifier is a total function of the feature vector
    that decides by the first matching rule of the ordered list of eight:
    its whole answer, category, reasoning and confidence, is the outcome of
    that rule, so the order of the rules is the order of the code.  A
    vector that meets both rule 1 and rule 2 gets the outcome of rule 1
    (productive, high, the urgency reasoning), and a vector that meets none
    of the rules 1 to 7 gets unproductive, low and the no-clear-indicator
    reasoning. *)
Theorem fallback_first_matching_rule
    (content : pystr) (subject : option pystr) (features : FeatureDict) :
  let v := EmailClassifier._nlp_enhanced_fallback content subject (Some features) in
  (exists r, HeuristicSpec.first_match HeuristicSpec.rules features = Some r
             /\ v = HeuristicSpec.outcome r features)
  /\ (HeuristicSpec.applies HeuristicSpec.rule1 features = true ->
      HeuristicSpec.applies HeuristicSpec.rule2 features = true ->
      v = {| EmailClassifier.category := lit "productive";
             EmailClassifier.reasoning := HeuristicSpec.urgency_reasoning features;
             EmailClassifier.confidence := lit "high" |})
  /\ (forallb (fun r => negb (HeuristicSpec.applies r features))
              (removelast HeuristicSpec.rules) = true ->
      v = {| EmailClassifier.category := lit "unproductive";
             EmailClassifier.reasoning := HeuristicSpec.no_clear_indicator;
             EmailClassifier.confidence := lit "low" |}).
Proof.
  cbv zeta.
  unfold EmailClassifier._nlp_enhanced_fallback, HeuristicSpec.rules,
    HeuristicSpec.first_match, removelast, forallb,
    EmailClassifier.productive, EmailClassifier.unproductive.
  cbn [HeuristicSpec.applies HeuristicSpec.rule1 HeuristicSpec.rule2
       HeuristicSpec.rule3 HeuristicSpec.rule4 HeuristicSpec.rule5
       HeuristicSpec.rule6 HeuristicSpec.rule7 HeuristicSpec.rule8].
  unfold HeuristicSpec.urgency_reasoning, HeuristicSpec.no_clear_indicator,
    HeuristicSpec.score.
  generalize (fgt (TextFeatureExtractor.get urgency_score 0.0%float features) 0.5
              && (fgt (TextFeatureExtractor.get technical_score 0.0%float features) 0.2
                  || fgt (TextFeatureExtractor.get business_score 0.0%float features) 0.2))
    as c1.
  generalize (fgt (TextFeatureExtractor.get technical_score 0.0%float features) 0.4) as c2.
  generalize (fgt (TextFeatureExtractor.get business_score 0.0%float features) 0.4) as c3.
  generalize (fgt (TextFeatureExtractor.get support_score 0.0%float features) 0.4) as c4.
  generalize (fgt (TextFeatureExtractor.get social_score 0.0%float features) 0.4
              && flt (TextFeatureExtractor.get technical_score 0.0%float features) 0.1
              && flt (TextFeatureExtractor.get business_score 0.0%float features) 0.1)
    as c5.
  generalize (TextFeatureExtractor.get has_multiple_questions false features
              && flt (TextFeatureExtractor.get social_score 0.0%float features) 0.2)
    as c6.
  generalize (TextFeatureExtractor.get word_count 0%nat features <? 10)%nat as c7.
  intros c7 c6 c5 c4 c3 c2 c1.
  destruct c1, c2, c3, c4, c5, c6, c7;
    cbn [andb negb];
    (split; [eexists; split; [reflexivity|];
             unfold HeuristicSpec.outcome;
             cbn [HeuristicSpec.outcome_category HeuristicSpec.outcome_reasoning
                  HeuristicSpec.outcome_confidence
                  HeuristicSpec.rule1 HeuristicSpec.rule2
                  HeuristicSpec.rule3 HeuristicSpec.rule4 HeuristicSpec.rule5
                  HeuristicSpec.rule6 HeuristicSpec.rule7 HeuristicSpec.rule8];
             unfold HeuristicSpec.urgency_reasoning, HeuristicSpec.no_clear_indicator,
               HeuristicSpec.score;
             reflexivity
            | split; intros; try discriminate; reflexivity]).
Qed.

(** Witness of C1: the urgent technical sample meets rules 1 and 2 and gets
    rule 1's outcome; the sample without signal gets the default. *)
Lemma fallback_first_matching_rule_witness :
  (HeuristicSpec.applies HeuristicSpec.rule1 Samples.urgent_technical = true
   /\ HeuristicSpec.applies HeuristicSpec.rule2 Samples.urgent_technical = true
   /\ EmailClassifier._nlp_enhanced_fallback [] None (Some Samples.urgent_technical) =
      {| EmailClassifier.category := lit "productive";
         EmailClassifier.reasoning :=
           lit "Email urgente detectado com contexto de negócios (urgência: 0.8)";
         EmailClassifier.confidence := lit "high" |})
  /\ EmailClassifier._nlp_enhanced_fallback [] None (Some Samples.no_signal) =
     {| EmailClassifier.category := lit "unproductive";
        EmailClassifier.reasoning := HeuristicSpec.no_clear_indicator;
        EmailClassifier.confidence := lit "low" |}.
Proof.
  split; [split; [reflexivity | split; [reflexivity |]] |].
  - apply (proj1 (proj2 (fallback_first_matching_rule [] None Samples.urgent_technical)));
      reflexivity.
  - apply (proj2 (proj2 (fallback_first_matching_rule [] None Samples.no_signal)));
      reflexivity.
Defined.

(** ** The circuit breaker *)

Lemma Qltb_lt (x y : Q) : Qltb x y = true <-> x < y.
Proof.
  unfold Qltb. rewrite negb_true_iff. split; intros H.
  - apply Qnot_le_lt. intros Hle. apply Qle_bool_iff in Hle. congruence.
  - destruct (Qle_bool y x) eqn:E; [|reflexivity].
    apply Qle_bool_iff in E. exfalso. exact (Qlt_not_le _ _ H E).
Qed.

Lemma Qltb_ge (x y : Q) : Qltb x y = false <-> y <= x.
Proof.
  unfold Qltb. rewrite negb_false_iff. apply Qle_bool_iff.
Qed.

Lemma record_error_errors (t : Q) (s : service) :
  circuit_breaker_errors (_record_error t s) = circuit_breaker_errors s ++ [t].
Proof.
  unfold _record_error. cbn [set_errors circuit_breaker_errors].
  destruct (_ <=? _)%nat; reflexivity.
Qed.

Lemma record_error_models (t : Q) (s : service) :
  model (_record_error t s) = model s
  /\ fallback_model (_record_error t s) = fallback_model s.
Proof.
  unfold _record_error. cbn [set_errors circuit_breaker_errors].
  destruct (_ <=? _)%nat; split; reflexivity.
Qed.

Lemma record_error_open_until (t : Q) (s : service) :
  circuit_open_until (_record_error t s) =
  if BreakerHistory.trips s then t + circuit_breaker_timeout
  else circuit_open_until s.
Proof.
  unfold _record_error, BreakerHistory.trips.
  cbn [set_errors circuit_breaker_errors].
  rewrite last_length.
  destruct (_ <=? _)%nat; reflexivity.
Qed.

(** A check strictly after [circuit_open_until] empties the log and reports
    the breaker closed. *)
Lemma check_after_open_until (now : Q) (s : service) :
  circuit_open_until s < now ->
  _is_circuit_open now s = (set_errors [] s, false).
Proof.
  intros H. unfold _is_circuit_open.
  apply Qltb_lt in H. rewrite H. reflexivity.
Qed.

(** A check during the cooldown prunes the log and reports the breaker open
    when three recent errors remain. *)
Lemma check_during_cooldown (now : Q) (s : service) :
  now <= circuit_open_until s ->
  (3 <= List.length (filter (fun t => Qltb (now - t) 60) (circuit_breaker_errors s)))%nat ->
  _is_circuit_open now s =
  (set_errors (filter (fun t => Qltb (now - t) 60) (circuit_breaker_errors s)) s, true).
Proof.
  intros H1 H2. unfold _is_circuit_open.
  apply Qltb_ge in H1. rewrite H1.
  cbn [set_errors circuit_breaker_errors].
  unfold circuit_breaker_threshold.
  apply Nat.leb_le in H2. rewrite H2. reflexivity.
Qed.

(** Every call of the classification operation sends exactly one request,
    to the primary model. *)
Lemma tool_calling_one_request (tool_name : pystr) (w : world) :
  let w' := fst (_call_with_tool_calling tool_name w) in
  trace w' = trace w ++ [Request ToolCall (model (svc w))]
  /\ sent w' = S (sent w)
  /\ svc w' = svc w.
Proof.
  cbv zeta. unfold _call_with_tool_calling, catch, bindM, post, raise.
  destruct (past_deadline _ _); [repeat split; reflexivity|].
  unfold lift.
  destruct (received _ _) as [[st body]|e]; cbn [fst snd].
  - destruct (read_tool_answer _ _ _); repeat split; reflexivity.
  - repeat split; reflexivity.
Qed.

(** C2.  After three recorded errors [circuit_open_until] is the time of
    the third plus 45 seconds.  A call of either operation made during the
    cooldown, while the three errors lie in its trailing 60-second window,
    is rejected with the circuit-open error and sends no request.  A call
    made after [circuit_open_until] finds the log emptied and proceeds as on
    a closed breaker: its first request is the real one. *)
Theorem breaker_opens_and_resets (s : service) (t1 t2 t3 : Q) :
  let opened := _record_error t3 (_record_error t2 (_record_error t1 s)) in
  circuit_open_until opened = t3 + 45
  /\ (forall (w : world) (sender subject : option pystr),
        svc w = opened ->
        clock w <= circuit_open_until opened ->
        clock w - t1 < 60 -> clock w - t2 < 60 -> clock w - t3 < 60 ->
        let pruned := set_svc (fst (_is_circuit_open (clock w) opened)) w in
        classify_email_with_context w = (pruned, Raises circuit_open_error)
        /\ generate_response sender subject w =
           (pruned, Raises (Exception (lit "Gemini Text Generation API failed: "
                                         ++ str_exn draft_circuit_open_error)))
        /\ trace pruned = trace w /\ sent pruned = sent w)
  /\ (forall (w : world) (sender subject : option pystr),
        svc w = opened ->
        circuit_open_until opened < clock w ->
        let cleared := set_svc (set_errors [] opened) w in
        _is_circuit_open (clock w) opened = (set_errors [] opened, false)
        /\ classify_email_with_context w = classify_call cleared
        /\ generate_response sender subject w =
           catch (draft_call sender subject) draft_failure cleared
        /\ trace (fst (classify_email_with_context w)) =
           trace w ++ [Request ToolCall (model opened)]).
Proof.
  cbv zeta.
  assert (Hopen : circuit_open_until
            (_record_error t3 (_record_error t2 (_record_error t1 s))) = t3 + 45).
  { rewrite record_error_open_until. unfold BreakerHistory.trips.
    rewrite !record_error_errors, !last_length. reflexivity. }
  split; [exact Hopen|]. split.
  - intros w sender subject Hsvc Hnow H1 H2 H3.
    assert (Hcheck : _is_circuit_open (clock w)
              (_record_error t3 (_record_error t2 (_record_error t1 s))) =
            (set_errors (filter (fun t => Qltb (clock w - t) 60)
                           (circuit_breaker_errors
                              (_record_error t3 (_record_error t2 (_record_error t1 s)))))
               (_record_error t3 (_record_error t2 (_record_error t1 s))), true)).
    { apply check_during_cooldown; [exact Hnow|].
      rewrite !record_error_errors, <- !app_assoc, filter_app. cbn [app filter].
      apply Qltb_lt in H1, H2, H3. rewrite H1, H2, H3.
      rewrite length_app. cbn [List.length]. lia. }
    unfold classify_email_with_context, generate_response, catch, bindM,
      is_circuit_open_now, draft_failure, raise.
    rewrite Hsvc, Hcheck. cbn [fst]. repeat split; reflexivity.
  - intros w sender subject Hsvc Hnow.
    pose proof (check_after_open_until _ _ Hnow) as Hcheck.
    split; [exact Hcheck|].
    assert (Hc : classify_email_with_context w =
                 classify_call
                   (set_svc (set_errors []
                      (_record_error t3 (_record_error t2 (_record_error t1 s)))) w)).
    { unfold classify_email_with_context, bindM, is_circuit_open_now.
      rewrite Hsvc, Hcheck. reflexivity. }
    split; [exact Hc|]. split.
    + unfold generate_response, catch, bindM, is_circuit_open_now.
      rewrite Hsvc, Hcheck. reflexivity.
    + rewrite Hc. unfold classify_call, bindM.
      pose proof (tool_calling_one_request (lit "classify_email")
                    (set_svc (set_errors []
                      (_record_error t3 (_record_error t2 (_record_error t1 s)))) w)) as Ht.
      cbv zeta in Ht. destruct Ht as (Ht & _ & _).
      destruct (_call_with_tool_calling _ _) as [w1 r]. cbn [fst] in Ht.
      destruct r as [v| |]; cbn [fst]; try exact Ht.
      unfold lift. destruct (log_result v); cbn [fst]; exact Ht.
Qed.

(** Witness of C2: three errors at 990, 991 and 992; a call at 1000 is
    rejected, a call at 1040 proceeds. *)
Lemma breaker_opens_and_resets_witness :
  classify_email_with_context (Samples.world_at 1000 Samples.tripped []) =
    (set_svc (fst (_is_circuit_open 1000 Samples.tripped))
       (Samples.world_at 1000 Samples.tripped []),
     Raises circuit_open_error)
  /\ classify_email_with_context (Samples.world_at 1040 Samples.tripped []) =
     classify_call (set_svc (set_errors [] Samples.tripped)
                      (Samples.world_at 1040 Samples.tripped [])).
Proof.
  split.
  - apply (proj1 (proj2 (breaker_opens_and_resets Samples.two_models 990 991 992))
             (Samples.world_at 1000 Samples.tripped []) None None).
    + reflexivity.
    + apply Qle_bool_iff. reflexivity.
    + reflexivity.
    + reflexivity.
    + reflexivity.
  - apply (proj2 (proj2 (breaker_opens_and_resets Samples.two_models 990 991 992))
             (Samples.world_at 1040 Samples.tripped []) None None).
    + reflexivity.
    + reflexivity.
Defined.

Lemma run_log_bound (ops : list BreakerHistory.op) :
  forall (s : service) (n : nat),
    (List.length (circuit_breaker_errors s) <= n)%nat ->
    (List.length (circuit_breaker_errors (fst (BreakerHistory.run ops s n)))
     <= snd (BreakerHistory.run ops s n))%nat.
Proof.
  induction ops as [|o ops IH]; intros s n Hn; [exact Hn|].
  destruct o as [now|now]; cbn [BreakerHistory.run]; apply IH.
  - unfold BreakerHistory.clearing, _is_circuit_open.
    destruct (Qltb (circuit_open_until s) now); [cbn; lia|].
    assert (List.length (filter (fun t => Qltb (now - t) 60) (circuit_breaker_errors s))
            <= n)%nat
      by (etransitivity; [apply filter_length_le | exact Hn]).
    destruct (_ <=? _)%nat; exact H.
  - rewrite record_error_errors, last_length. lia.
Qed.

(** C10.  A check made strictly after [circuit_open_until], and so every
    check from the initial state, empties the whole log and reports the
    breaker closed.  Hence along any history the log never holds more
    errors than were recorded since the latest such check, and one more
    error opens the breaker only when at least two were recorded since
    then: the threshold of three is reached by recordings with no clearing
    check between them. *)
Theorem clearing_check_forgets_errors :
  (forall (s : service) (now : Q),
      circuit_open_until s < now ->
      _is_circuit_open now s = (set_errors [] s, false))
  /\ (forall now : Q, 0 < now -> _is_circuit_open now init = (init, false))
  /\ (forall (s : service) (ops : list BreakerHistory.op),
        let after := BreakerHistory.run ops s (List.length (circuit_breaker_errors s)) in
        (List.length (circuit_breaker_errors (fst after)) <= snd after)%nat
        /\ (BreakerHistory.trips (fst after) = true -> (2 <= snd after)%nat)).
Proof.
  split; [exact (fun s now => check_after_open_until now s)|]. split.
  - intros now Hnow. unfold _is_circuit_open.
    change (circuit_open_until init) with 0.
    apply Qltb_lt in Hnow. rewrite Hnow. reflexivity.
  - intros s ops. cbv zeta.
    pose proof (run_log_bound ops s _ (Nat.le_refl _)) as Hb.
    split; [exact Hb|].
    unfold BreakerHistory.trips, circuit_breaker_threshold.
    intros Ht. apply Nat.leb_le in Ht. lia.
Qed.

(** Witness of C10: a check at 1040 on the breaker that opened until 1037,
    and a check one second after the epoch on a new service. *)
Lemma clearing_check_forgets_errors_witness :
  _is_circuit_open 1040 Samples.tripped = (set_errors [] Samples.tripped, false)
  /\ _is_circuit_open 1 init = (init, false).
Proof.
  split.
  - apply (proj1 clearing_check_forgets_errors). reflexivity.
  - apply (proj1 (proj2 clearing_check_forgets_errors)). reflexivity.
Defined.

(* ================================================================== *)
(** * Further properties *)

(** ** Python strings *)






(** ** The feature scorer *)

Lemma count_hits_le (text : pystr) (keywords : list pystr) :
  (count_hits text keywords <= List.length keywords)%nat.
Proof. unfold count_hits. apply filter_length_le. Qed.

Lemma keyword_score_of_hits (text : pystr) (keywords : list pystr) :
  keywords <> [] ->
  _calculate_keyword_score text keywords =
  fmin (float_of_nat (count_hits text keywords) / 3.0)%float 1.0%float.
Proof.
  intros H. destruct keywords; [congruence | reflexivity].
Qed.

Lemma banded_score (n : nat) :
  (n <= 16)%nat ->
  fmin (float_of_nat n / 3.0)%float 1.0%float = FeatureSpec.banded n.
Proof.
  intros H.
  do 17 (destruct n as [|n]; [vm_compute; reflexivity|]).
  exfalso; lia.
Qed.

Lemma keyword_score_banded (text : pystr) (keywords : list pystr) :
  keywords <> [] ->
  (List.length keywords <= 16)%nat ->
  _calculate_keyword_score text keywords =
  FeatureSpec.banded (count_hits text keywords).
Proof.
  intros Hne Hlen. rewrite keyword_score_of_hits by exact Hne.
  apply banded_score. pose proof (count_hits_le text keywords). lia.
Qed.

Lemma technical_score_banded (text : pystr) :
  _calculate_keyword_score text technical_keywords =
  FeatureSpec.banded (count_hits text technical_keywords).
Proof. apply keyword_score_banded; [discriminate | vm_compute; lia]. Qed.

Lemma business_score_banded (text : pystr) :
  _calculate_keyword_score text business_keywords =
  FeatureSpec.banded (count_hits text business_keywords).
Proof. apply keyword_score_banded; [discriminate | vm_compute; lia]. Qed.

Lemma support_score_banded (text : pystr) :
  _calculate_keyword_score text support_keywords =
  FeatureSpec.banded (count_hits text support_keywords).
Proof. apply keyword_score_banded; [discriminate | vm_compute; lia]. Qed.

Lemma social_score_banded (text : pystr) :
  _calculate_keyword_score text social_keywords =
  FeatureSpec.banded (count_hits text social_keywords).
Proof. apply keyword_score_banded; [discriminate | vm_compute; lia]. Qed.

(** X1.  A keyword score only takes four values.  For each of the four
    keyword lists of the extractor it is 0, 1/3 or 2/3 when no, one or two
    of the keywords occur in the text and 1 from three on; a list without
    keywords scores 0. *)
Theorem keyword_score_bands (text : pystr) :
  _calculate_keyword_score text technical_keywords =
    FeatureSpec.banded (count_hits text technical_keywords)
  /\ _calculate_keyword_score text business_keywords =
     FeatureSpec.banded (count_hits text business_keywords)
  /\ _calculate_keyword_score text support_keywords =
     FeatureSpec.banded (count_hits text support_keywords)
  /\ _calculate_keyword_score text social_keywords =
     FeatureSpec.banded (count_hits text social_keywords)
  /\ _calculate_keyword_score text [] = 0.0%float.
Proof.
  repeat split.
  - apply technical_score_banded.
  - apply business_score_banded.
  - apply support_score_banded.
  - apply social_score_banded.
Qed.

(** The hint, by the keywords that occur. *)
Lemma hint_by_hits (text : pystr) :
  _classify_by_features text =
  if negb (count_hits text technical_keywords =? 0)%nat
     || negb (count_hits text business_keywords =? 0)%nat
     || negb (count_hits text support_keywords =? 0)%nat
  then lit "productive"
  else if negb (count_hits text social_keywords =? 0)%nat
  then lit "unproductive"
  else lit "uncertain".
Proof.
  unfold _classify_by_features.
  rewrite technical_score_banded, business_score_banded,
    support_score_banded, social_score_banded.
  generalize (count_hits text technical_keywords) as t.
  generalize (count_hits text business_keywords) as b.
  generalize (count_hits text support_keywords) as p.
  generalize (count_hits text social_keywords) as s.
  intros s p b t.
  destruct t as [|[|[|t]]]; destruct b as [|[|[|b]]];
    destruct p as [|[|[|p]]]; destruct s as [|[|[|s]]];
    vm_compute; reflexivity.
Qed.

(** X2.  The category hint is "productive" exactly when a technical,
    business or support keyword occurs in the text, "unproductive" when
    none of those but a social keyword occurs, and "uncertain" when no
    keyword of the four lists occurs. *)
Theorem hint_by_keyword_hits (text : pystr) :
  _classify_by_features text =
  if negb (count_hits text technical_keywords =? 0)%nat
     || negb (count_hits text business_keywords =? 0)%nat
     || negb (count_hits text support_keywords =? 0)%nat
  then lit "productive"
  else if negb (count_hits text social_keywords =? 0)%nat
  then lit "unproductive"
  else lit "uncertain".
Proof.
  unfold _classify_by_features.
  rewrite technical_score_banded, business_score_banded,
    support_score_banded, social_score_banded.
  generalize (count_hits text technical_keywords) as t.
  generalize (count_hits text business_keywords) as b.
  generalize (count_hits text support_keywords) as p.
  generalize (count_hits text social_keywords) as s.
  intros s p b t.
  destruct t as [|[|[|t]]]; destruct b as [|[|[|b]]];
    destruct p as [|[|[|p]]]; destruct s as [|[|[|s]]];
    vm_compute; reflexivity.
Qed.

(** X3.  The confidence of the hint is 0.8 when some list has two or more
    of its keywords in the text, 0.6 when the best list has exactly one and
    0.3 when no keyword occurs; so an "uncertain" hint always comes with
    0.3. *)
Theorem confidence_by_keyword_hits (text : pystr) :
  let best := Nat.max (Nat.max (Nat.max (count_hits text technical_keywords)
                                         (count_hits text business_keywords))
                               (count_hits text support_keywords))
                      (count_hits text social_keywords) in
  _calculate_confidence text =
    (if (2 <=? best)%nat then 0.8 else if (1 <=? best)%nat then 0.6 else 0.3)%float
  /\ (_classify_by_features text = lit "uncertain" ->
      _calculate_confidence text = 0.3%float).
Proof.
  cbv zeta.
  assert (H : _calculate_confidence text =
    (if (2 <=? Nat.max (Nat.max (Nat.max (count_hits text technical_keywords)
                                         (count_hits text business_keywords))
                               (count_hits text support_keywords))
                      (count_hits text social_keywords))%nat
     then 0.8 else
     if (1 <=? Nat.max (Nat.max (Nat.max (count_hits text technical_keywords)
                                         (count_hits text business_keywords))
                               (count_hits text support_keywords))
                      (count_hits text social_keywords))%nat
     then 0.6 else 0.3)%float).
  { unfold _calculate_confidence.
    rewrite technical_score_banded, business_score_banded,
      support_score_banded, social_score_banded.
    generalize (count_hits text technical_keywords) as t.
    generalize (count_hits text business_keywords) as b.
    generalize (count_hits text support_keywords) as p.
    generalize (count_hits text social_keywords) as s.
    intros s p b t.
    destruct t as [|[|[|t]]]; destruct b as [|[|[|b]]];
      destruct p as [|[|[|p]]]; destruct s as [|[|[|s]]];
      vm_compute; reflexivity. }
  split; [exact H|].
  rewrite H, hint_by_hits.
  generalize (count_hits text technical_keywords) as t.
  generalize (count_hits text business_keywords) as b.
  generalize (count_hits text support_keywords) as p.
  generalize (count_hits text social_keywords) as s.
  intros s p b t.
  destruct t, b, p, s; cbn [Nat.eqb negb orb]; intros Hh;
    try discriminate Hh; reflexivity.
Qed.

(** X4.  A Latin-1 text without letters, the empty text among them, has
    the capitals ratio 0: no division takes place. *)
Theorem caps_ratio_without_letters (text : pystr) :
  PyFacts.latin1 text = true ->
  forallb (fun c => negb (isalpha c)) text = true ->
  _calculate_caps_ratio text = 0.0%float.
Proof.
  intros _ H. unfold _calculate_caps_ratio.
  destruct text as [|c text]; [reflexivity|].
  assert (Hf : filter isalpha (c :: text) = []).
  { revert H. generalize (c :: text) as l. induction l as [|a l IH]; [reflexivity|].
    cbn [forallb filter]. intros H. apply andb_true_iff in H. destruct H as [Ha Hl].
    apply negb_true_iff in Ha. rewrite Ha. apply IH. exact Hl. }
  rewrite Hf. reflexivity.
Qed.

Lemma caps_ratio_without_letters_witness :
  _calculate_caps_ratio (lit "2024-01-15: 100%!") = 0.0%float.
Proof.
  apply caps_ratio_without_letters; reflexivity.
Defined.

(** X5.  The urgency score lies between 0 and 1.  It is above 0.5, the
    threshold of the first rule, exactly when two urgency keywords occur, or
    one together with both the double exclamation mark and the capitals
    signal: one keyword and exclamation marks give 0.5, which is not
    above. *)
Theorem urgency_score_range (text : pystr) :
  PrimFloat.leb 0 (_calculate_urgency_score text) = true
  /\ PrimFloat.leb (_calculate_urgency_score text) 1 = true
  /\ fgt (_calculate_urgency_score text) 0.5 =
     ((2 <=? count_hits text urgency_keywords)%nat
      || ((1 <=? count_hits text urgency_keywords)%nat
          && (2 <=? count_char 33 text)%nat
          && fgt (_calculate_caps_ratio text) 0.5)).
Proof.
  unfold _calculate_urgency_score, count_hits, urgency_keywords.
  cbn [map fold_left filter].
  generalize (fgt (_calculate_caps_ratio text) 0.5) as caps.
  generalize (2 <=? count_char 33 text)%nat as marks.
  repeat match goal with
         | |- context [contains ?k text] => generalize (contains k text); intro
         end.
  intros marks caps.
  repeat match goal with
         | b : bool |- _ => destruct b
         end;
    vm_compute; repeat split; reflexivity.
Qed.

(** ** The heuristic classifier on extracted features *)

Lemma banded_above_04 (n : nat) : fgt (FeatureSpec.banded n) 0.4 = (2 <=? n)%nat.
Proof. destruct n as [|[|[|n]]]; reflexivity. Qed.

Lemma banded_above_02 (n : nat) : fgt (FeatureSpec.banded n) 0.2 = (1 <=? n)%nat.
Proof. destruct n as [|[|[|n]]]; reflexivity. Qed.

Lemma banded_below_01 (n : nat) : flt (FeatureSpec.banded n) 0.1 = (n =? 0)%nat.
Proof. destruct n as [|[|[|n]]]; reflexivity. Qed.

Lemma banded_below_02 (n : nat) : flt (FeatureSpec.banded n) 0.2 = (n =? 0)%nat.
Proof. destruct n as [|[|[|n]]]; reflexivity. Qed.

(** The fallback on the features of a message, by keyword counts. *)
Lemma fallback_by_hits (content : pystr) (subject : option pystr) :
  let text := FeatureSpec.full_text content subject in
  let t := count_hits text technical_keywords in
  let b := count_hits text business_keywords in
  let p := count_hits text support_keywords in
  let s := count_hits text social_keywords in
  let u := _calculate_urgency_score text in
  let words := List.length (split_ws content) in
  EmailClassifier._nlp_enhanced_fallback content subject
    (Some (extract_all_features content subject)) =
  if fgt u 0.5 && ((1 <=? t)%nat || (1 <=? b)%nat) then
    {| EmailClassifier.category := lit "productive";
       EmailClassifier.reasoning :=
         lit "Email urgente detectado com contexto de negócios (urgência: "
           ++ format_fixed 1 u ++ lit ")";
       EmailClassifier.confidence := lit "high" |}
  else if (2 <=? t)%nat then
    {| EmailClassifier.category := lit "productive";
       EmailClassifier.reasoning :=
         lit "Problema técnico identificado pelas features NLP (score: "
           ++ format_fixed 2 (FeatureSpec.banded t) ++ lit ")";
       EmailClassifier.confidence := lit "high" |}
  else if (2 <=? b)%nat then
    {| EmailClassifier.category := lit "productive";
       EmailClassifier.reasoning :=
         lit "Questão comercial identificada (score: "
           ++ format_fixed 2 (FeatureSpec.banded b) ++ lit ")";
       EmailClassifier.confidence := lit "high" |}
  else if (2 <=? p)%nat then
    {| EmailClassifier.category := lit "productive";
       EmailClassifier.reasoning :=
         lit "Solicitação de suporte identificada (score: "
           ++ format_fixed 2 (FeatureSpec.banded p) ++ lit ")";
       EmailClassifier.confidence := lit "medium" |}
  else if (2 <=? s)%nat && (t =? 0)%nat && (b =? 0)%nat then
    {| EmailClassifier.category := lit "unproductive";
       EmailClassifier.reasoning :=
         lit "Mensagem social/pessoal sem contexto de negócios (score social: "
           ++ format_fixed 2 (FeatureSpec.banded s) ++ lit ")";
       EmailClassifier.confidence := lit "high" |}
  else if (2 <=? count_char 63 content)%nat && (s =? 0)%nat then
    {| EmailClassifier.category := lit "productive";
       EmailClassifier.reasoning :=
         lit "Múltiplas perguntas detectadas, indicando necessidade de suporte";
       EmailClassifier.confidence := lit "medium" |}
  else if (words <? 10)%nat then
    {| EmailClassifier.category := lit "unproductive";
       EmailClassifier.reasoning :=
         lit "Mensagem muito curta (" ++ str_of_nat words
           ++ lit " palavras) sem indicadores claros";
       EmailClassifier.confidence := lit "medium" |}
  else
    {| EmailClassifier.category := lit "unproductive";
       EmailClassifier.reasoning :=
         lit "Sem indicadores claros de necessidade de ação (análise NLP conservadora)";
       EmailClassifier.confidence := lit "low" |}.
Proof.
  cbv zeta.
  unfold EmailClassifier._nlp_enhanced_fallback, extract_all_features,
    FeatureSpec.full_text, EmailClassifier.productive, EmailClassifier.unproductive.
  cbn [TextFeatureExtractor.get technical_score business_score support_score
       social_score urgency_score has_multiple_questions word_count].
  rewrite technical_score_banded, business_score_banded,
    support_score_banded, social_score_banded.
  rewrite !banded_above_04, !banded_above_02, !banded_below_01, !banded_below_02.
  reflexivity.
Qed.

(** X6.  The fallback, applied to the features of a message in Latin-1
    text, decides by counts: the number of keywords of each list that occur
    in the subject and body, the urgency score, the question marks and the
    words of the body.  Two technical, business or support keywords are
    needed for the rules 2 to 4, and two social keywords with no technical
    or business one for rule 5. *)
Theorem fallback_decides_by_keyword_hits (content : pystr) (subject : option pystr) :
  PyFacts.latin1 content = true ->
  PyFacts.latin1 (or_empty subject) = true ->
  let text := FeatureSpec.full_text content subject in
  let t := count_hits text technical_keywords in
  let b := count_hits text business_keywords in
  let p := count_hits text support_keywords in
  let s := count_hits text social_keywords in
  let u := _calculate_urgency_score text in
  let words := List.length (split_ws content) in
  let v := EmailClassifier._nlp_enhanced_fallback content subject
             (Some (extract_all_features content subject)) in
  (EmailClassifier.category v, EmailClassifier.confidence v) =
  if fgt u 0.5 && ((1 <=? t)%nat || (1 <=? b)%nat)
  then (lit "productive", lit "high")
  else if (2 <=? t)%nat then (lit "productive", lit "high")
  else if (2 <=? b)%nat then (lit "productive", lit "high")
  else if (2 <=? p)%nat then (lit "productive", lit "medium")
  else if (2 <=? s)%nat && (t =? 0)%nat && (b =? 0)%nat
  then (lit "unproductive", lit "high")
  else if (2 <=? count_char 63 content)%nat && (s =? 0)%nat
  then (lit "productive", lit "medium")
  else if (words <? 10)%nat then (lit "unproductive", lit "medium")
  else (lit "unproductive", lit "low").
Proof.
  intros _ _. cbv zeta. rewrite fallback_by_hits. cbv zeta.
  repeat match goal with
         | |- context [if ?c then _ else _] => destruct c
         end; reflexivity.
Qed.

Lemma fallback_decides_by_keyword_hits_witness :
  (EmailClassifier.category
     (EmailClassifier._nlp_enhanced_fallback (lit "Preciso de ajuda e suporte.") None
        (Some (extract_all_features (lit "Preciso de ajuda e suporte.") None))),
   EmailClassifier.confidence
     (EmailClassifier._nlp_enhanced_fallback (lit "Preciso de ajuda e suporte.") None
        (Some (extract_all_features (lit "Preciso de ajuda e suporte.") None))))
  = (lit "productive", lit "medium").
Proof.
  exact (fallback_decides_by_keyword_hits (lit "Preciso de ajuda e suporte.") None
           eq_refl eq_refl).
Defined.

(** X7.  Two technical keywords, or two business keywords, in the subject
    and body make the fallback answer productive with high confidence, and
    two support keywords make it answer productive, whatever else the
    message holds.  The legacy entry point, which extracts the features
    itself, answers the same. *)
Theorem strong_keywords_are_productive (content : pystr) (subject : option pystr) :
  let text := FeatureSpec.full_text content subject in
  let v := EmailClassifier._nlp_enhanced_fallback content subject
             (Some (extract_all_features content subject)) in
  ((2 <= count_hits text technical_keywords)%nat
   \/ (2 <= count_hits text business_keywords)%nat ->
   EmailClassifier.category v = lit "productive"
   /\ EmailClassifier.confidence v = lit "high")
  /\ ((2 <= count_hits text support_keywords)%nat ->
      EmailClassifier.category v = lit "productive")
  /\ EmailClassifier._critical_fallback_classification content subject = v.
Proof.
  cbv zeta.
  split; [|split; [|reflexivity]]; rewrite fallback_by_hits; cbv zeta.
  - intros H.
    destruct (fgt _ 0.5 && _); [split; reflexivity|].
    destruct (2 <=? count_hits _ technical_keywords)%nat eqn:Et; [split; reflexivity|].
    destruct (2 <=? count_hits _ business_keywords)%nat eqn:Eb; [split; reflexivity|].
    apply Nat.leb_gt in Et, Eb. lia.
  - intros H.
    destruct (fgt _ 0.5 && _); [reflexivity|].
    destruct (2 <=? count_hits _ technical_keywords)%nat; [reflexivity|].
    destruct (2 <=? count_hits _ business_keywords)%nat; [reflexivity|].
    destruct (2 <=? count_hits _ support_keywords)%nat eqn:Ep; [reflexivity|].
    apply Nat.leb_gt in Ep. lia.
Qed.

Lemma strong_keywords_are_productive_witness :
  EmailClassifier.category
    (EmailClassifier._nlp_enhanced_fallback (lit "Ocorreu um ERRO: o app fica travando.") None
       (Some (extract_all_features (lit "Ocorreu um ERRO: o app fica travando.") None)))
  = lit "productive"
  /\ EmailClassifier.category
       (EmailClassifier._nlp_enhanced_fallback (lit "Preciso de ajuda e suporte.") None
          (Some (extract_all_features (lit "Preciso de ajuda e suporte.") None)))
     = lit "productive".
Proof.
  split.
  - apply (proj1 (strong_keywords_are_productive
                    (lit "Ocorreu um ERRO: o app fica travando.") None)).
    left. vm_compute. lia.
  - apply (proj1 (proj2 (strong_keywords_are_productive
                           (lit "Preciso de ajuda e suporte.") None))).
    vm_compute. lia.
Defined.

(** X8.  A message in Latin-1 text with two social keywords, no technical
    or business keyword and at most one support keyword is answered
    unproductive with high confidence; a single social keyword does not
    reach rule 5. *)
Theorem social_messages_are_unproductive (content : pystr) (subject : option pystr) :
  PyFacts.latin1 content = true ->
  PyFacts.latin1 (or_empty subject) = true ->
  let text := FeatureSpec.full_text content subject in
  let v := EmailClassifier._nlp_enhanced_fallback content subject
             (Some (extract_all_features content subject)) in
  count_hits text technical_keywords = 0%nat ->
  count_hits text business_keywords = 0%nat ->
  (count_hits text support_keywords <= 1)%nat ->
  ((2 <= count_hits text social_keywords)%nat ->
   EmailClassifier.category v = lit "unproductive"
   /\ EmailClassifier.confidence v = lit "high")
  /\ (count_hits text social_keywords = 1%nat ->
      EmailClassifier.confidence v <> lit "high").
Proof.
  intros _ _. cbv zeta. intros Ht Hb Hp. rewrite fallback_by_hits. cbv zeta.
  assert (Ep : (2 <=? count_hits (FeatureSpec.full_text content subject)
                        support_keywords)%nat = false)
    by (apply Nat.leb_gt; lia).
  rewrite Ht, Hb, Ep.
  change (1 <=? 0)%nat with false. change (2 <=? 0)%nat with false.
  change (0 =? 0)%nat with true.
  cbn [orb]. rewrite !andb_false_r, !andb_true_r. cbv iota.
  split.
  - intros Hs. apply Nat.leb_le in Hs. rewrite Hs. split; reflexivity.
  - intros Hs. rewrite Hs.
    change (2 <=? 1)%nat with false. change (1 =? 0)%nat with false.
    rewrite andb_false_r. cbv iota.
    destruct (_ <? 10)%nat; discriminate.
Qed.

Lemma social_messages_are_unproductive_witness :
  EmailClassifier.category
    (EmailClassifier._nlp_enhanced_fallback (lit "Feliz aniversário! Um abraço.")
       (Some (lit "Parabéns"))
       (Some (extract_all_features (lit "Feliz aniversário! Um abraço.")
                (Some (lit "Parabéns")))))
  = lit "unproductive".
Proof.
  apply (proj1 (social_messages_are_unproductive (lit "Feliz aniversário! Um abraço.")
                  (Some (lit "Parabéns")) eq_refl eq_refl
                  ltac:(reflexivity) ltac:(reflexivity) ltac:(vm_compute; lia))).
  vm_compute. lia.
Defined.

(** X9.  Whatever the features, given or extracted, the fallback answers
    one of the two categories with one of the three confidence levels, so
    its answer always passes the validation of the result model. *)
Theorem fallback_labels (content : pystr) (subject : option pystr)
    (features : option FeatureDict) (sr : Models.StructuredResponse) :
  let v := EmailClassifier._nlp_enhanced_fallback content subject features in
  (EmailClassifier.category v = lit "productive"
   \/ EmailClassifier.category v = lit "unproductive")
  /\ (EmailClassifier.confidence v = lit "high"
      \/ EmailClassifier.confidence v = lit "medium"
      \/ EmailClassifier.confidence v = lit "low")
  /\ Models.new_ClassificationResult (JStr (EmailClassifier.category v))
       (JStr (EmailClassifier.reasoning v)) sr =
     Ok {| Models.category := EmailClassifier.category v;
           Models.reasoning := EmailClassifier.reasoning v;
           Models.suggested_response := sr |}.
Proof.
  cbv zeta. unfold EmailClassifier._nlp_enhanced_fallback.
  repeat match goal with
         | |- context [if ?c then _ else _] => destruct c
         end;
    cbn [EmailClassifier.category EmailClassifier.confidence EmailClassifier.reasoning];
    (split; [auto | split; [auto | reflexivity]]).
Qed.

(** ** Calls of the provider *)

Lemma post_no_deadline (budget : Q) (kind : endpoint) (m : pystr) (w : world) :
  deadline w = None ->
  post budget kind m w =
  lift (received budget (provider w (sent w)))
       (advance (waited budget (provider w (sent w)))
          (consume (emit (Request kind m) w))).
Proof.
  intros Hd. unfold post, past_deadline. cbn [deadline consume emit].
  rewrite Hd. reflexivity.
Qed.

(** What a call of [_call_gemini_api] leaves behind, whatever its result. *)
Lemma call_api_effects (tokens : N) (m : option pystr) (w : world) :
  let w' := fst (_call_gemini_api tokens m w) in
  sent w' = S (sent w)
  /\ trace w' = trace w ++ [Request GenerateText (Traffic.addressed m (svc w))]
  /\ svc w' = svc w
  /\ deadline w' = deadline w
  /\ provider w' = provider w.
Proof.
  cbv zeta. unfold _call_gemini_api, catch, bindM, post, raise, Traffic.addressed.
  destruct (past_deadline _ _); [repeat split; reflexivity|].
  unfold lift at 2.
  destruct (received _ _) as [[st body]|e]; cbn [fst snd].
  - unfold lift. destruct (read_answer _ _); repeat split; reflexivity.
  - repeat split; reflexivity.
Qed.

(** The call under no deadline: the exchange decides. *)
Lemma call_api_no_deadline (tokens : N) (m : option pystr) (w : world) :
  deadline w = None ->
  _call_gemini_api tokens m w =
  (advance (waited 12 (provider w (sent w)))
     (consume (emit (Request GenerateText (Traffic.addressed m (svc w))) w)),
   Traffic.of_res (RetrySpec.api_result (provider w (sent w)))).
Proof.
  intros Hd. unfold _call_gemini_api, catch, bindM, Traffic.addressed.
  rewrite post_no_deadline by exact Hd.
  unfold RetrySpec.api_result, lift, raise.
  destruct (received _ _) as [[st body]|e]; cbn [bind fst snd].
  - destruct (read_answer _ _); reflexivity.
  - reflexivity.
Qed.

(** X10.  Whatever the world, [_call_gemini_api] sends exactly one request
    and lets no other exception out than its own two: "Gemini API timed
    out" for the client's timeout and "Gemini API call failed: ..." around
    the text of any other error. *)
Theorem call_api_wraps_failures (tokens : N) (m : option pystr) (w : world) (e : exn) :
  snd (_call_gemini_api tokens m w) = Raises e ->
  (e = Exception (lit "Gemini API timed out")
   \/ exists cause, e = Exception (lit "Gemini API call failed: " ++ str_exn cause))
  /\ sent (fst (_call_gemini_api tokens m w)) = S (sent w).
Proof.
  intros H. split; [|apply call_api_effects].
  revert H. unfold _call_gemini_api, catch, bindM, post, raise.
  destruct (past_deadline _ _); [discriminate|].
  unfold lift at 2.
  destruct (received _ _) as [[st body]|e0]; cbn [fst snd].
  - unfold lift. destruct (read_answer _ _) as [t|e1]; cbn [snd]; [discriminate|].
    intros H. injection H as <-.
    destruct e1; cbn [gemini_failure]; eauto.
  - intros H. injection H as <-.
    destruct e0; cbn [gemini_failure]; eauto.
Qed.

Lemma call_api_wraps_failures_witness :
  Exception (lit "Gemini API call failed: Gemini API failed with status 500")
  = Exception (lit "Gemini API timed out")
  \/ exists cause,
      Exception (lit "Gemini API call failed: Gemini API failed with status 500")
      = Exception (lit "Gemini API call failed: " ++ str_exn cause).
Proof.
  apply (proj1 (call_api_wraps_failures 512 None
                  (Samples.world_at 1000 Samples.two_models [Samples.status 500])
                  _ eq_refl)).
Defined.







(** The error of an answer with a status other than 200, as the retry loop
    reads it. *)
Lemma status_failure (d : Q) (status : N) (body : value) :
  d <= 12 ->
  (status =? 200)%N = false ->
  RetrySpec.api_result {| elapsed := d; outcome := Response status body |} =
  Raise (Exception (lit "Gemini API call failed: "
                      ++ lit "Gemini API failed with status " ++ str_of_N status)).
Proof.
  intros Hfast Hs. unfold RetrySpec.api_result, received. cbn [elapsed outcome].
  apply Qltb_ge in Hfast. rewrite Hfast. cbn [bind fst snd].
  unfold read_answer. rewrite Hs. reflexivity.
Qed.

Lemma timeout_failure (d : Q) (o : http_outcome) :
  12 < d ->
  RetrySpec.api_result {| elapsed := d; outcome := o |} =
  Raise (Exception (lit "Gemini API timed out")).
Proof.
  intros Hslow. unfold RetrySpec.api_result, received. cbn [elapsed].
  apply Qltb_lt in Hslow. rewrite Hslow. reflexivity.
Qed.

Lemma statuses_checked :
  forallb (fun status =>
             Bool.eqb (is_transient (lit "Gemini API call failed: "
                                       ++ lit "Gemini API failed with status "
                                       ++ str_of_N status))
                      (status =? 503)%N)
          Bodies.http_statuses = true.
Proof. vm_compute. reflexivity. Qed.

(** X12.  Of the answers with an HTTP status from 100 to 599 other than
    200, only status 503 is a failure of the service-unavailable class,
    the one the retry loop records for the circuit breaker: 500, 502, 504
    and 429 are not.  Nor is the client's timeout after 12 seconds. *)
Theorem only_503_is_transient (d : Q) (status : N) (body : value) :
  (d <= 12 ->
   (100 <= status)%N -> (status <= 599)%N -> status <> 200%N ->
   RetrySpec.transient
     (RetrySpec.api_result {| elapsed := d; outcome := Response status body |})
   = (status =? 503)%N)
  /\ (12 < d ->
      RetrySpec.transient
        (RetrySpec.api_result {| elapsed := d; outcome := Response status body |})
      = false).
Proof.
  split.
  - intros Hfast Hlo Hhi Hne.
    rewrite status_failure; [|exact Hfast|apply N.eqb_neq; exact Hne].
    cbn [RetrySpec.transient str_exn].
    pose proof statuses_checked as Hall.
    rewrite forallb_forall in Hall.
    apply eqb_prop. apply Hall.
    unfold Bodies.http_statuses. apply in_map_iff.
    exists (N.to_nat status). split; [apply N2Nat.id|].
    apply in_seq. lia.
  - intros Hslow. rewrite timeout_failure by exact Hslow. reflexivity.
Qed.

Lemma only_503_is_transient_witness :
  RetrySpec.transient
    (RetrySpec.api_result {| elapsed := 1; outcome := Response 503 JNull |}) = true
  /\ RetrySpec.transient
       (RetrySpec.api_result {| elapsed := 1; outcome := Response 429 JNull |}) = false
  /\ RetrySpec.transient
       (RetrySpec.api_result {| elapsed := 13; outcome := Response 503 JNull |}) = false.
Proof.
  split; [|split].
  - apply (proj1 (only_503_is_transient 1 503 JNull)).
    + apply Qle_bool_iff. reflexivity.
    + lia.
    + lia.
    + discriminate.
  - apply (proj1 (only_503_is_transient 1 429 JNull)).
    + apply Qle_bool_iff. reflexivity.
    + lia.
    + lia.
    + discriminate.
  - apply (proj2 (only_503_is_transient 13 503 JNull)). reflexivity.
Defined.

(** X13.  A 200 answer that is an object without candidates, or whose
    candidates are empty or null, gives the empty string and no error; so
    does a first candidate that is an object with neither content nor
    text. *)
Theorem answer_without_text_is_empty (fields : list (pystr * value)) :
  (lookup (lit "candidates") fields = None ->
   read_answer 200 (JDict fields) = Ok [])
  /\ (forall c, lookup (lit "candidates") fields = Some c -> truthy c = false ->
      read_answer 200 (JDict fields) = Ok [])
  /\ (forall candidate rest,
        lookup (lit "candidates") fields = Some (JList (JDict candidate :: rest)) ->
        lookup (lit "content") candidate = None ->
        lookup (lit "text") candidate = None ->
        read_answer 200 (JDict fields) = Ok []).
Proof.
  unfold read_answer. change (200 =? 200)%N with true. cbv iota.
  unfold extract_generated_text, has_candidates, and_then.
  cbn [py_in getitem bind].
  split; [|split].
  - intros H. rewrite H. reflexivity.
  - intros c H Hc. rewrite H. cbn [bind]. rewrite Hc. reflexivity.
  - intros candidate rest H Hc Ht. rewrite H. cbn [bind truthy getitem0 Json.get].
    unfold content_has, and_then. cbn [py_in bind getitem].
    rewrite Hc, Ht. cbn [bind strip_value strip lstrip rev app nonempty or_empty_text].
    destruct (is_str _ _); reflexivity.
Qed.

Lemma answer_without_text_is_empty_witness :
  read_answer 200 (JDict [(lit "promptFeedback", JDict [])]) = Ok []
  /\ read_answer 200 (JDict [(lit "candidates", JList [])]) = Ok [].
Proof.
  split.
  - apply (proj1 (answer_without_text_is_empty [(lit "promptFeedback", JDict [])])).
    reflexivity.
  - apply (proj1 (proj2 (answer_without_text_is_empty [(lit "candidates", JList [])]))
             (JList [])); reflexivity.
Defined.

(** ** Requests sent *)

Lemma sam_ret {A} (a : A) : Traffic.sends_at_most 0 (ret a).
Proof. intros w. cbn. lia. Qed.

Lemma sam_raise {A} (e : exn) : Traffic.sends_at_most 0 (raise (A:=A) e).
Proof. intros w. cbn. lia. Qed.

Lemma sam_lift {A} (r : res A) : Traffic.sends_at_most 0 (lift r).
Proof. intros w. destruct r; cbn; lia. Qed.

Lemma sam_weaken {A} (n k : nat) (m : M A) :
  (n <= k)%nat -> Traffic.sends_at_most n m -> Traffic.sends_at_most k m.
Proof. intros Hle H w. specialize (H w). lia. Qed.

Lemma sam_bind {A B} (n k : nat) (m : M A) (f : A -> M B) :
  Traffic.sends_at_most n m ->
  (forall a, Traffic.sends_at_most k (f a)) ->
  Traffic.sends_at_most (n + k) (bindM m f).
Proof.
  intros Hm Hf w. unfold bindM. specialize (Hm w).
  destruct (m w) as [w1 r]. cbn [fst] in Hm.
  destruct r as [a| |]; cbn [fst]; try lia.
  specialize (Hf a w1). lia.
Qed.

Lemma sam_catch {A} (n k : nat) (m : M A) (h : exn -> M A) :
  Traffic.sends_at_most n m ->
  (forall e, Traffic.sends_at_most k (h e)) ->
  Traffic.sends_at_most (n + k) (catch m h).
Proof.
  intros Hm Hh w. unfold catch. specialize (Hm w).
  destruct (m w) as [w1 r]. cbn [fst] in Hm.
  destruct r as [a|e|]; cbn [fst]; try lia.
  specialize (Hh e w1). lia.
Qed.

Lemma sam_wait_for {A} (n : nat) (m : M A) (timeout : Q) :
  Traffic.sends_at_most n m -> Traffic.sends_at_most n (wait_for m timeout).
Proof.
  intros Hm w. unfold wait_for.
  specialize (Hm (set_deadline (Some (clock w + timeout)) w)).
  destruct (m _) as [w1 r]. cbn [fst set_deadline sent] in Hm.
  destruct r; cbn [fst set_deadline sent]; lia.
Qed.

Lemma sam_sleep (d : Q) : Traffic.sends_at_most 0 (sleep d).
Proof. intros w. unfold sleep. destruct (past_deadline d w); cbn; lia. Qed.

Lemma sam_check : Traffic.sends_at_most 0 is_circuit_open_now.
Proof.
  intros w. unfold is_circuit_open_now.
  destruct (_is_circuit_open _ _). cbn. lia.
Qed.

Lemma sam_record : Traffic.sends_at_most 0 record_error_now.
Proof. intros w. cbn. lia. Qed.

Lemma sam_call_api (tokens : N) (m : option pystr) :
  Traffic.sends_at_most 1 (_call_gemini_api tokens m).
Proof.
  intros w. destruct (call_api_effects tokens m w) as (H & _). cbv zeta in H. lia.
Qed.

Lemma sam_tool_calling (tool_name : pystr) :
  Traffic.sends_at_most 1 (_call_with_tool_calling tool_name).
Proof.
  intros w. destruct (tool_calling_one_request tool_name w) as (_ & H & _).
  cbv zeta in H. lia.
Qed.

Lemma sam_retry_attempt (tokens : N) (max_attempts attempt : nat) :
  Traffic.sends_at_most 1 (retry_attempt tokens max_attempts attempt).
Proof.
  intros w. unfold retry_attempt.
  apply (sam_catch 1 0); [|intros e].
  - apply (sam_bind 0 1); [|intros _; apply (sam_bind 1 0)].
    + destruct (0 <? attempt)%nat; [|apply sam_ret].
      apply (sam_bind 0 0); [intros w0; cbn; lia | intros t; apply sam_sleep].
    + apply sam_call_api.
    + intros response. destruct (nonempty response); apply sam_ret.
  - destruct (is_transient _).
    + apply (sam_bind 0 0); [apply sam_record | intros _].
      destruct (_ <? _)%nat; [apply sam_ret|].
      destruct (_ =? _)%nat; [apply sam_raise | apply sam_ret].
    + destruct (_ =? _)%nat; [apply sam_raise | apply sam_ret].
Qed.

Lemma sam_retry_loop (tokens : N) (max_attempts : nat) (attempts : list nat) :
  Traffic.sends_at_most (List.length attempts)
    (retry_loop tokens max_attempts attempts).
Proof.
  induction attempts as [|attempt rest IH]; [apply sam_raise|].
  cbn [retry_loop List.length].
  apply (sam_bind 1 (List.length rest)); [apply sam_retry_attempt|].
  intros [response|]; [|exact IH].
  apply (sam_weaken 0); [lia | apply sam_ret].
Qed.

(** X14.  Whatever the provider answers and whatever deadline is in force,
    a call of [_call_with_retry] sends at most [max_attempts] requests and
    consumes no answer it did not ask for; with no attempts allowed it
    sends nothing and raises "All retry attempts failed". *)
Theorem retry_sends_at_most (tokens : N) (max_attempts : nat) :
  Traffic.sends_at_most max_attempts (_call_with_retry tokens max_attempts)
  /\ (forall w, _call_with_retry tokens 0 w =
                (w, Raises (Exception (lit "All retry attempts failed")))).
Proof.
  split; [|reflexivity].
  unfold _call_with_retry.
  apply (sam_weaken (List.length (seq 0 max_attempts)));
    [rewrite length_seq; lia | apply sam_retry_loop].
Qed.

Lemma sam_classify : Traffic.sends_at_most 1 classify_email_with_context.
Proof.
  unfold classify_email_with_context.
  apply (sam_bind 0 1); [apply sam_check|].
  intros [|]; [apply (sam_weaken 0); [lia | apply sam_raise]|].
  unfold classify_call.
  apply (sam_bind 1 0); [apply sam_tool_calling|]. intros response.
  apply (sam_bind 0 0); [apply sam_lift | intros _; apply sam_ret].
Qed.

Lemma sam_generate (sender subject : option pystr) :
  Traffic.sends_at_most 3 (generate_response sender subject).
Proof.
  unfold generate_response.
  apply (sam_catch 3 0); [|intros e; apply sam_raise].
  apply (sam_bind 0 3); [apply sam_check|].
  intros [|]; [apply (sam_weaken 0); [lia | apply sam_raise]|].
  unfold draft_call.
  apply (sam_bind 3 0); [apply (sam_retry_loop 1024 3 (seq 0 3))|]. intros response.
  destruct (_ || _); [apply sam_raise | apply sam_ret].
Qed.

(** X15.  One run of [classify_and_respond] sends at most four requests:
    one for the classification and at most three for the reply. *)
Theorem pipeline_sends_at_most_four (content : pystr) (subject sender : option pystr) :
  Traffic.sends_at_most 4 (EmailClassifier.classify_and_respond content subject sender)
  /\ Traffic.sends_at_most 1
       (EmailClassifier.classification_stage content subject
          (extract_all_features content subject))
  /\ (forall category,
        Traffic.sends_at_most 3 (EmailClassifier.drafting_stage category sender subject)).
Proof.
  assert (H1 : forall features,
             Traffic.sends_at_most 1
               (EmailClassifier.classification_stage content subject features)).
  { intros features. unfold EmailClassifier.classification_stage.
    apply (sam_catch 1 0).
    - apply (sam_bind 1 0); [apply sam_wait_for, sam_classify|]. intros ai.
      apply (sam_bind 0 0); [apply sam_lift|]. intros c.
      apply (sam_bind 0 0); [apply sam_lift|]. intros r.
      apply (sam_bind 0 0); [apply sam_lift|]. intros k. apply sam_ret.
    - intros e. destruct e; apply sam_ret. }
  assert (H3 : forall category,
             Traffic.sends_at_most 3
               (EmailClassifier.drafting_stage category sender subject)).
  { intros category. unfold EmailClassifier.drafting_stage.
    apply (sam_catch 3 0); [|intros e; apply sam_ret].
    apply sam_wait_for. unfold EmailClassifier._generate_response.
    apply (sam_catch 3 0); [|intros e; apply sam_raise].
    apply (sam_bind 3 0); [apply sam_generate | intros r; apply sam_lift]. }
  split; [|split; [apply H1 | exact H3]].
  unfold EmailClassifier.classify_and_respond.
  apply (sam_catch 4 0); [|intros e; apply sam_raise].
  cbv zeta.
  apply (sam_bind 1 3); [apply H1|].
  intros [[[c r] k] method].
  apply (sam_bind 3 0); [apply H3|]. intros sr.
  apply (sam_bind 0 0); [apply sam_lift|]. intros result.
  apply (sam_bind 0 0); [|intros _; apply sam_ret].
  intros w. cbn. lia.
Qed.

(** ** The retry loop under no deadline *)

Lemma mod1_range (x : Q) : 0 <= mod1 x /\ mod1 x < 1.
Proof.
  unfold mod1. pose proof (Qfloor_le x) as Hlo. pose proof (Qlt_floor x) as Hhi.
  rewrite inject_Z_plus in Hhi. change (inject_Z 1) with 1 in Hhi.
  split; lra.
Qed.

Lemma after_attempt_facts (attempt : nat) (w : world) :
  let w' := RetrySteps.after_attempt attempt w in
  deadline w' = deadline w
  /\ provider w' = provider w
  /\ sent w' = S (sent w)
  /\ model (svc w') = model (svc w)
  /\ fallback_model (svc w') = fallback_model (svc w)
  /\ trace w' =
     trace w ++ (if (0 <? attempt)%nat then [Sleep (RetrySteps.backoff attempt w)] else [])
       ++ [Request GenerateText (RetrySteps.model_for attempt (svc w))]
  /\ svc w' =
     (if RetrySpec.transient (RetrySpec.api_result (provider w (sent w)))
      then _record_error (clock w') (svc w) else svc w).
Proof.
  cbv zeta. unfold RetrySteps.after_attempt, RetrySteps.after_call,
    RetrySteps.before_call.
  destruct (RetrySpec.transient _); destruct (0 <? attempt)%nat;
    cbn [set_svc advance consume emit deadline provider sent svc trace clock];
    rewrite ?(proj1 (record_error_models _ _)), ?(proj2 (record_error_models _ _)),
      <- ?app_assoc;
    repeat split; reflexivity.
Qed.

(** One turn of the loop under no deadline. *)
Lemma retry_attempt_no_deadline (tokens : N) (max_attempts attempt : nat) (w : world) :
  deadline w = None ->
  retry_attempt tokens max_attempts attempt w =
  (RetrySteps.after_attempt attempt w,
   match RetrySpec.api_result (provider w (sent w)) with
   | Ok t => Returns (if nonempty t then Some t else None)
   | Raise e => if (attempt =? max_attempts - 1)%nat then Raises e else Returns None
   end).
Proof.
  intros Hd.
  unfold retry_attempt, RetrySteps.after_attempt, RetrySteps.after_call,
    RetrySteps.before_call, RetrySteps.model_for, catch, bindM.
  assert (Hs : (if (0 <? attempt)%nat
                then bindM loop_time
                       (fun t => sleep (inject_Z (2 ^ Z.of_nat attempt) + mod1 t))
                else ret tt) w =
               (if (0 <? attempt)%nat
                then emit (Sleep (RetrySteps.backoff attempt w))
                       (advance (RetrySteps.backoff attempt w) w)
                else w, Returns tt)).
  { destruct (0 <? attempt)%nat; [|reflexivity].
    unfold bindM, loop_time, sleep, past_deadline. rewrite Hd. reflexivity. }
  unfold bindM in Hs. rewrite Hs. clear Hs.
  rewrite call_api_no_deadline
    by (destruct (0 <? attempt)%nat; cbn [deadline emit advance]; exact Hd).
  assert (Hp : forall w0 : world,
             (if (0 <? attempt)%nat
              then emit (Sleep (RetrySteps.backoff attempt w))
                     (advance (RetrySteps.backoff attempt w) w)
              else w) = w0 ->
             provider w0 = provider w /\ sent w0 = sent w /\ svc w0 = svc w).
  { intros w0 <-. destruct (0 <? attempt)%nat; repeat split; reflexivity. }
  destruct (Hp _ eq_refl) as (Hp1 & Hp2 & Hp3). rewrite Hp1, Hp2, Hp3. clear Hp Hp1 Hp2 Hp3.
  destruct (RetrySpec.api_result (provider w (sent w))) as [t|e];
    cbn [Traffic.of_res RetrySpec.transient].
  - unfold ret. destruct (nonempty t); reflexivity.
  - unfold record_error_now, raise, ret.
    destruct (is_transient (str_exn e)).
    + destruct (attempt <? max_attempts - 1)%nat eqn:El;
        destruct (attempt =? max_attempts - 1)%nat eqn:Ee; try reflexivity.
      apply Nat.ltb_lt in El. apply Nat.eqb_eq in Ee. lia.
    + destruct (attempt =? max_attempts - 1)%nat; reflexivity.
Qed.

(** The three attempts of a call under no deadline. *)
Lemma retry_three_worlds (tokens : N) (w : world) :
  deadline w = None ->
  let w1 := RetrySteps.after_attempt 0 w in
  let w2 := RetrySteps.after_attempt 1 w1 in
  let w3 := RetrySteps.after_attempt 2 w2 in
  let r0 := RetrySteps.result_of 0 w in
  let r1 := RetrySteps.result_of 1 w in
  let r2 := RetrySteps.result_of 2 w in
  _call_with_retry tokens 3 w =
  if RetrySpec.succeeded r0 then (w1, Traffic.of_res r0)
  else if RetrySpec.succeeded r1 then (w2, Traffic.of_res r1)
  else (w3, if RetrySpec.succeeded r2 then Traffic.of_res r2
            else RetrySpec.exhausted r2).
Proof.
  intros Hd. cbv zeta.
  destruct (after_attempt_facts 0 w) as (Hd1 & Hp1 & Hs1 & _).
  destruct (after_attempt_facts 1 (RetrySteps.after_attempt 0 w)) as (Hd2 & Hp2 & Hs2 & _).
  cbv zeta in Hd1, Hp1, Hs1, Hd2, Hp2, Hs2.
  unfold RetrySteps.result_of.
  replace (sent w + 0)%nat with (sent w) by lia.
  replace (sent w + 1)%nat with (S (sent w)) by lia.
  replace (sent w + 2)%nat with (S (S (sent w))) by lia.
  unfold _call_with_retry. cbn [seq retry_loop]. unfold bindM.
  rewrite retry_attempt_no_deadline by exact Hd.
  destruct (RetrySpec.api_result (provider w (sent w))) as [t0|e0] eqn:E0;
    cbn [RetrySpec.succeeded Nat.eqb Nat.sub].
  1: destruct (nonempty t0); [reflexivity|].
  all: rewrite retry_attempt_no_deadline by congruence.
  all: rewrite Hp1, Hs1.
  all: destruct (RetrySpec.api_result (provider w (S (sent w)))) as [t1|e1] eqn:E1;
    cbn [RetrySpec.succeeded Nat.eqb Nat.sub].
  1, 3: destruct (nonempty t1); [reflexivity|].
  all: rewrite retry_attempt_no_deadline by congruence.
  all: rewrite Hp2, Hs2, Hp1, Hs1.
  all: destruct (RetrySpec.api_result (provider w (S (S (sent w))))) as [t2|e2] eqn:E2;
    cbn [RetrySpec.succeeded Nat.eqb Nat.sub RetrySpec.exhausted Traffic.of_res].
  all: try (destruct (nonempty t2); reflexivity).
  all: reflexivity.
Qed.

Lemma model_for_first (s : service) : RetrySteps.model_for 0 s = model s.
Proof.
  unfold RetrySteps.model_for, Traffic.addressed. cbn [Nat.ltb Nat.leb].
  destruct (nonempty (model s)); reflexivity.
Qed.

Lemma model_for_later (attempt : nat) (s : service) :
  nonempty (fallback_model s) = true ->
  RetrySteps.model_for (S attempt) s = fallback_model s.
Proof.
  intros H. unfold RetrySteps.model_for, Traffic.addressed. cbn [Nat.ltb Nat.leb].
  rewrite H. reflexivity.
Qed.

(** X16.  Under no deadline a call of [_call_with_retry] with three
    attempts goes on after every attempt that fails or answers nothing,
    whatever the kind of the failure, and stops at the first attempt that
    returns text.  The first request names the primary model, the second
    and third the fallback model; the second is sent after a pause of 2 to
    3 seconds and the third after a pause of 4 to 5 seconds.  Only the
    failure of the third attempt is raised; a third attempt that answers
    nothing ends in "All retry attempts failed". *)
Theorem retry_three_attempts (tokens : N) (w : world) :
  deadline w = None ->
  nonempty (fallback_model (svc w)) = true ->
  let r0 := RetrySteps.result_of 0 w in
  let r1 := RetrySteps.result_of 1 w in
  let r2 := RetrySteps.result_of 2 w in
  let first := Request GenerateText (model (svc w)) in
  let again := Request GenerateText (fallback_model (svc w)) in
  exists d1 d2 : Q,
    2 <= d1 /\ d1 < 3 /\ 4 <= d2 /\ d2 < 5
    /\ trace (fst (_call_with_retry tokens 3 w)) =
       trace w ++
         (if RetrySpec.succeeded r0 then [first]
          else if RetrySpec.succeeded r1 then [first; Sleep d1; again]
          else [first; Sleep d1; again; Sleep d2; again])
    /\ snd (_call_with_retry tokens 3 w) =
       (if RetrySpec.succeeded r0 then Traffic.of_res r0
        else if RetrySpec.succeeded r1 then Traffic.of_res r1
        else if RetrySpec.succeeded r2 then Traffic.of_res r2
        else RetrySpec.exhausted r2).
Proof.
  intros Hd Hfb. cbv zeta.
  rewrite (retry_three_worlds tokens w Hd). cbv zeta.
  set (w1 := RetrySteps.after_attempt 0 w).
  set (w2 := RetrySteps.after_attempt 1 w1).
  set (w3 := RetrySteps.after_attempt 2 w2).
  destruct (after_attempt_facts 0 w) as (_ & _ & _ & Hm1 & Hf1 & Ht1 & _).
  destruct (after_attempt_facts 1 w1) as (_ & _ & _ & Hm2 & Hf2 & Ht2 & _).
  destruct (after_attempt_facts 2 w2) as (_ & _ & _ & _ & _ & Ht3 & _).
  cbv zeta in Hm1, Hf1, Ht1, Hm2, Hf2, Ht2, Ht3.
  fold w1 in Hm1, Hf1, Ht1, Hm2, Hf2, Ht2. fold w2 in Hm2, Hf2, Ht2, Ht3.
  fold w3 in Ht3.
  cbn [Nat.ltb Nat.leb] in Ht1, Ht2, Ht3.
  rewrite model_for_first in Ht1.
  rewrite model_for_later in Ht2 by congruence.
  rewrite model_for_later in Ht3 by congruence.
  rewrite Hf1 in Ht2. rewrite Hf2, Hf1 in Ht3.
  exists (RetrySteps.backoff 1 w1), (RetrySteps.backoff 2 w2).
  pose proof (mod1_range (loop_clock w1)) as [Ha1 Hb1].
  pose proof (mod1_range (loop_clock w2)) as [Ha2 Hb2].
  unfold RetrySteps.backoff.
  change (inject_Z (2 ^ Z.of_nat 1)) with 2.
  change (inject_Z (2 ^ Z.of_nat 2)) with 4.
  repeat (split; [lra|]).
  destruct (RetrySpec.succeeded (RetrySteps.result_of 0 w)); cbn [fst snd].
  { split; [rewrite Ht1; reflexivity | reflexivity]. }
  destruct (RetrySpec.succeeded (RetrySteps.result_of 1 w)); cbn [fst snd].
  { split; [|reflexivity].
    rewrite Ht2, Ht1, <- !app_assoc. reflexivity. }
  split; [|reflexivity].
  rewrite Ht3, Ht2, Ht1, <- !app_assoc. reflexivity.
Qed.

(** Witness of X16: a 503, then a 500, then an answer: three requests, the
    answer returned. *)
Lemma retry_three_attempts_witness :
  snd (_call_with_retry 1024 3
         (Samples.world_at 1000 Samples.two_models
            [Samples.status 503; Samples.status 500;
             Samples.answer (lit "Prezado cliente")]))
  = Returns (lit "Prezado cliente").
Proof.
  destruct (retry_three_attempts 1024
              (Samples.world_at 1000 Samples.two_models
                 [Samples.status 503; Samples.status 500;
                  Samples.answer (lit "Prezado cliente")])
              eq_refl eq_refl) as (d1 & d2 & _ & _ & _ & _ & _ & H).
  exact H.
Defined.

Lemma three_services (w : world) :
  let w1 := RetrySteps.after_attempt 0 w in
  let w2 := RetrySteps.after_attempt 1 w1 in
  let w3 := RetrySteps.after_attempt 2 w2 in
  svc w1 = (if RetrySpec.transient (RetrySteps.result_of 0 w)
            then _record_error (clock w1) (svc w) else svc w)
  /\ svc w2 = (if RetrySpec.transient (RetrySteps.result_of 1 w)
               then _record_error (clock w2) (svc w1) else svc w1)
  /\ svc w3 = (if RetrySpec.transient (RetrySteps.result_of 2 w)
               then _record_error (clock w3) (svc w2) else svc w2).
Proof.
  cbv zeta.
  destruct (after_attempt_facts 0 w) as (_ & Hp1 & Hs1 & _ & _ & _ & H1).
  destruct (after_attempt_facts 1 (RetrySteps.after_attempt 0 w))
    as (_ & Hp2 & Hs2 & _ & _ & _ & H2).
  destruct (after_attempt_facts 2
              (RetrySteps.after_attempt 1 (RetrySteps.after_attempt 0 w)))
    as (_ & _ & _ & _ & _ & _ & H3).
  cbv zeta in Hp1, Hs1, H1, Hp2, Hs2, H2, H3.
  unfold RetrySteps.result_of.
  replace (sent w + 0)%nat with (sent w) by lia.
  replace (sent w + 1)%nat with (S (sent w)) by lia.
  replace (sent w + 2)%nat with (S (S (sent w))) by lia.
  rewrite Hp2, Hs2, Hp1, Hs1 in H3. rewrite Hp1, Hs1 in H2.
  repeat split; assumption.
Qed.

(** ** Runs that a time bound does not cut *)

Lemma steady_ret {A} (a : A) : Traffic.steady (ret a).
Proof. intros w _. reflexivity. Qed.

Lemma steady_raise {A} (e : exn) : Traffic.steady (raise (A:=A) e).
Proof. intros w _. reflexivity. Qed.

Lemma steady_lift {A} (r : res A) : Traffic.steady (lift r).
Proof. intros w _. destruct r; reflexivity. Qed.

Lemma steady_bind {A B} (m : M A) (k : A -> M B) :
  Traffic.steady m -> (forall a, Traffic.steady (k a)) -> Traffic.steady (bindM m k).
Proof.
  intros Hm Hk w Hc. unfold bindM in *. specialize (Hm w).
  destruct (m w) as [w1 r]. cbn [fst snd] in Hm.
  destruct r as [a|e|].
  - rewrite Hm by discriminate. apply Hk. exact Hc.
  - rewrite Hm by discriminate. reflexivity.
  - exfalso. apply Hc. reflexivity.
Qed.

Lemma steady_catch {A} (m : M A) (h : exn -> M A) :
  Traffic.steady m -> (forall e, Traffic.steady (h e)) -> Traffic.steady (catch m h).
Proof.
  intros Hm Hh w Hc. unfold catch in *. specialize (Hm w).
  destruct (m w) as [w1 r]. cbn [fst snd] in Hm.
  destruct r as [a|e|].
  - rewrite Hm by discriminate. reflexivity.
  - rewrite Hm by discriminate. apply Hh. exact Hc.
  - exfalso. apply Hc. reflexivity.
Qed.

Lemma steady_sleep (d : Q) : Traffic.steady (sleep d).
Proof.
  intros w Hc. unfold sleep in *.
  change (past_deadline d (Traffic.unbounded w)) with false. cbv iota.
  destruct (past_deadline d w); [exfalso; apply Hc; reflexivity | reflexivity].
Qed.

Lemma steady_post (budget : Q) (kind : endpoint) (model_id : pystr) :
  Traffic.steady (post budget kind model_id).
Proof.
  intros w Hc. unfold post in *.
  change (provider (Traffic.unbounded w) (sent (Traffic.unbounded w)))
    with (provider w (sent w)).
  change (past_deadline (waited budget (provider w (sent w)))
            (consume (emit (Request kind model_id) (Traffic.unbounded w))))
    with false.
  cbv iota.
  destruct (past_deadline _ _); [exfalso; apply Hc; reflexivity|].
  unfold lift. destruct (received budget _); reflexivity.
Qed.

Lemma steady_check : Traffic.steady is_circuit_open_now.
Proof.
  intros w _. unfold is_circuit_open_now.
  change (clock (Traffic.unbounded w)) with (clock w).
  change (svc (Traffic.unbounded w)) with (svc w).
  destruct (_is_circuit_open _ _). reflexivity.
Qed.

Lemma steady_record : Traffic.steady record_error_now.
Proof. intros w _. reflexivity. Qed.

Lemma steady_loop_time : Traffic.steady loop_time.
Proof. intros w _. reflexivity. Qed.

Lemma steady_call_api (tokens : N) (m : option pystr) :
  Traffic.steady (_call_gemini_api tokens m).
Proof.
  intros w Hc. unfold _call_gemini_api in *.
  change (svc (Traffic.unbounded w)) with (svc w).
  refine (steady_catch _ _ _ _ w Hc); clear Hc.
  - apply steady_bind; [apply steady_post | intros x; apply steady_lift].
  - intros e. apply steady_raise.
Qed.

Lemma steady_retry_attempt (tokens : N) (max_attempts attempt : nat) :
  Traffic.steady (retry_attempt tokens max_attempts attempt).
Proof.
  intros w Hc. unfold retry_attempt in *.
  change (svc (Traffic.unbounded w)) with (svc w).
  refine (steady_catch _ _ _ _ w Hc); clear Hc.
  - apply steady_bind; [|intros _; apply steady_bind].
    + destruct (0 <? attempt)%nat; [|apply steady_ret].
      apply steady_bind; [apply steady_loop_time | intros t; apply steady_sleep].
    + apply steady_call_api.
    + intros response. destruct (nonempty response); apply steady_ret.
  - intros e. destruct (is_transient _).
    + apply steady_bind; [apply steady_record | intros _].
      destruct (_ <? _)%nat; [apply steady_ret|].
      destruct (_ =? _)%nat; [apply steady_raise | apply steady_ret].
    + destruct (_ =? _)%nat; [apply steady_raise | apply steady_ret].
Qed.

Lemma steady_retry_loop (tokens : N) (max_attempts : nat) (attempts : list nat) :
  Traffic.steady (retry_loop tokens max_attempts attempts).
Proof.
  induction attempts as [|attempt rest IH]; [apply steady_raise|].
  cbn [retry_loop].
  apply steady_bind; [apply steady_retry_attempt|].
  intros [response|]; [apply steady_ret | exact IH].
Qed.

Lemma steady_generate (sender subject : option pystr) :
  Traffic.steady (generate_response sender subject).
Proof.
  unfold generate_response.
  apply steady_catch; [|intros e; apply steady_raise].
  apply steady_bind; [apply steady_check|].
  intros [|]; [apply steady_raise|].
  unfold draft_call, _call_with_retry.
  apply steady_bind; [apply steady_retry_loop|]. intros response.
  destruct (_ || _); [apply steady_raise | apply steady_ret].
Qed.

(** ** The circuit breaker inside a drafting call *)

(** The breaker after a drafting call that no time bound limits. *)
Lemma draft_breaker_unbounded
    (w : world) (sender subject : option pystr) :
  deadline w = None ->
  circuit_open_until (svc w) < clock w ->
  let w' := fst (generate_response sender subject w) in
  let all_transient :=
    RetrySpec.transient (RetrySteps.result_of 0 w)
    && RetrySpec.transient (RetrySteps.result_of 1 w)
    && RetrySpec.transient (RetrySteps.result_of 2 w) in
  circuit_open_until (svc w') =
    (if all_transient then clock w' + 45 else circuit_open_until (svc w))
  /\ (3 <=? List.length (circuit_breaker_errors (svc w')))%nat = all_transient
  /\ (List.length (circuit_breaker_errors (svc w')) <= 3)%nat.
Proof.
  intros Hd Hclosed. cbv zeta.
  unfold generate_response, catch, bindM, is_circuit_open_now.
  rewrite (check_after_open_until _ _ Hclosed).
  set (w0 := set_svc (set_errors [] (svc w)) w).
  unfold draft_call, bindM.
  rewrite (retry_three_worlds 1024 w0 Hd). cbv zeta.
  destruct (three_services w0) as (S1 & S2 & S3). cbv zeta in S1, S2, S3.
  change (RetrySteps.result_of 0 w0) with (RetrySteps.result_of 0 w) in *.
  change (RetrySteps.result_of 1 w0) with (RetrySteps.result_of 1 w) in *.
  change (RetrySteps.result_of 2 w0) with (RetrySteps.result_of 2 w) in *.
  set (w1 := RetrySteps.after_attempt 0 w0) in *.
  set (w2 := RetrySteps.after_attempt 1 w1) in *.
  set (w3 := RetrySteps.after_attempt 2 w2) in *.
  assert (E0 : circuit_breaker_errors (svc w0) = []) by reflexivity.
  assert (O0 : circuit_open_until (svc w0) = circuit_open_until (svc w)) by reflexivity.
  destruct (RetrySteps.result_of 0 w) as [t0|e0];
    cbn [RetrySpec.succeeded RetrySpec.transient Traffic.of_res] in *;
    [destruct (nonempty t0) | destruct (is_transient (str_exn e0))];
    (destruct (RetrySteps.result_of 1 w) as [t1|e1];
     cbn [RetrySpec.succeeded RetrySpec.transient Traffic.of_res] in *;
     [destruct (nonempty t1) | destruct (is_transient (str_exn e1))]);
    (destruct (RetrySteps.result_of 2 w) as [t2|e2];
     cbn [RetrySpec.succeeded RetrySpec.transient Traffic.of_res RetrySpec.exhausted] in *;
     [destruct (nonempty t2) | destruct (is_transient (str_exn e2))]);
    cbn [andb];
    repeat match goal with
           | |- context [if ?c then raise _ else ret _] => destruct c
           end;
    cbn [fst snd raise ret draft_failure];
    rewrite ?S3, ?S2, ?S1, ?record_error_open_until, ?record_error_errors,
      ?last_length, ?E0, ?O0;
    unfold BreakerHistory.trips;
    rewrite ?record_error_errors, ?last_length, ?E0, ?S2, ?S1,
      ?record_error_errors, ?last_length, ?E0, ?S1, ?record_error_errors, ?E0;
    cbn [List.length app Nat.leb circuit_breaker_threshold];
    rewrite ?S2, ?S1, ?record_error_open_until, ?O0;
    unfold BreakerHistory.trips;
    rewrite ?record_error_errors, ?S1, ?record_error_errors, ?E0;
    cbn [List.length app Nat.leb circuit_breaker_threshold];
    rewrite ?S1, ?record_error_open_until, ?O0;
    unfold BreakerHistory.trips; rewrite ?E0;
    cbn [List.length app Nat.leb circuit_breaker_threshold];
    repeat split; try reflexivity; try lia.
Qed.

(** X17.  Take a drafting call that starts on a closed breaker, that no
    time bound of a caller cuts short and during which no other request
    uses the service.  It opens the breaker exactly when all three of its
    attempts fail with errors of the service-unavailable class;
    [circuit_open_until] is then 45 seconds after the last failure.  In
    every other case it leaves [circuit_open_until] as it was and fewer
    than three errors in the log. *)
Theorem draft_opens_breaker_after_three_transient
    (w : world) (sender subject : option pystr) :
  circuit_open_until (svc w) < clock w ->
  snd (generate_response sender subject w) <> Cancelled ->
  let w' := fst (generate_response sender subject w) in
  let all_transient :=
    RetrySpec.transient (RetrySteps.result_of 0 w)
    && RetrySpec.transient (RetrySteps.result_of 1 w)
    && RetrySpec.transient (RetrySteps.result_of 2 w) in
  circuit_open_until (svc w') =
    (if all_transient then clock w' + 45 else circuit_open_until (svc w))
  /\ (3 <=? List.length (circuit_breaker_errors (svc w')))%nat = all_transient
  /\ (List.length (circuit_breaker_errors (svc w')) <= 3)%nat.
Proof.
  intros Hclosed Hc.
  pose proof (steady_generate sender subject w Hc) as Hs.
  pose proof (draft_breaker_unbounded (Traffic.unbounded w) sender subject
                eq_refl Hclosed) as Hu.
  cbv zeta in Hu. rewrite Hs in Hu. exact Hu.
Qed.

Lemma draft_opens_breaker_after_three_transient_witness :
  circuit_open_until
    (svc (fst (generate_response None None
                 (set_deadline (Some 1020)
                    (Samples.world_at 1000 Samples.two_models
                       [Samples.status 503; Samples.status 503; Samples.status 503])))))
  = clock (fst (generate_response None None
                  (set_deadline (Some 1020)
                     (Samples.world_at 1000 Samples.two_models
                        [Samples.status 503; Samples.status 503; Samples.status 503]))))
    + 45.
Proof.
  apply (proj1 (draft_opens_breaker_after_three_transient
                  (set_deadline (Some 1020)
                     (Samples.world_at 1000 Samples.two_models
                        [Samples.status 503; Samples.status 503; Samples.status 503]))
                  None None eq_refl ltac:(vm_compute; discriminate))).
Defined.



(** ** The orchestrator *)

Lemma wait_for_not_cancelled {A} (m : M A) (timeout : Q) (w : world) :
  snd (wait_for m timeout w) <> Cancelled.
Proof.
  unfold wait_for. destruct (m _) as [w1 r]. destruct r; cbn [snd]; discriminate.
Qed.

Lemma classification_stage_returns (content : pystr) (subject : option pystr)
    (features : FeatureDict) (w : world) :
  exists s, snd (EmailClassifier.classification_stage content subject features w)
            = Returns s.
Proof.
  unfold EmailClassifier.classification_stage, catch, bindM.
  pose proof (wait_for_not_cancelled classify_email_with_context 15 w) as Hc.
  destruct (wait_for classify_email_with_context 15 w) as [w1 r]. cbn [snd] in Hc.
  destruct r as [ai|e|]; [| |congruence].
  - unfold lift.
    destruct (Json.get ai (lit "category") _) as [c|e]; cbn [snd fst].
    2: { destruct e; eexists; reflexivity. }
    destruct (Json.get ai (lit "reasoning") _) as [r|e]; cbn [snd fst].
    2: { destruct e; eexists; reflexivity. }
    destruct (Json.get ai (lit "confidence") _) as [k|e]; cbn [snd fst].
    2: { destruct e; eexists; reflexivity. }
    eexists; reflexivity.
  - destruct e; eexists; reflexivity.
Qed.

(** The drafting stage, from what [generate_response] does under the
    20-second bound. *)
Lemma drafting_stage_by_reply (category : value) (sender subject : option pystr)
    (w : world) :
  snd (EmailClassifier.drafting_stage category sender subject w) =
  Returns
    match snd (generate_response sender subject
                 (set_deadline (Some (clock w + 20)) w)) with
    | Returns {| to := JStr t; subject := JStr s; body := JStr b |} =>
        {| Models.to := t; Models.subject := s; Models.body := b |}
    | _ => EmailClassifier.templated_reply category sender subject
    end.
Proof.
  unfold EmailClassifier.drafting_stage, EmailClassifier._generate_response,
    catch, wait_for, bindM.
  destruct (generate_response sender subject _) as [w1 r].
  destruct r as [[t s b]|e|]; cbn [snd fst]; try reflexivity.
  unfold lift, Models.new_StructuredResponse.
  cbn [GeminiService.to GeminiService.subject GeminiService.body].
  destruct t; try reflexivity; destruct s; try reflexivity;
    destruct b; reflexivity.
Qed.

Lemma fallback_validates (content : pystr) (subject : option pystr)
    (features : option FeatureDict) (sr : Models.StructuredResponse) :
  Models.new_ClassificationResult
    (JStr (EmailClassifier.category
             (EmailClassifier._nlp_enhanced_fallback content subject features)))
    (JStr (EmailClassifier.reasoning
             (EmailClassifier._nlp_enhanced_fallback content subject features))) sr =
  Ok {| Models.category :=
          EmailClassifier.category
            (EmailClassifier._nlp_enhanced_fallback content subject features);
        Models.reasoning :=
          EmailClassifier.reasoning
            (EmailClassifier._nlp_enhanced_fallback content subject features);
        Models.suggested_response := sr |}.
Proof.
  unfold EmailClassifier._nlp_enhanced_fallback.
  repeat match goal with
         | |- context [if ?c then _ else _] => destruct c
         end; reflexivity.
Qed.

(** X19.  The drafting stage never fails: it returns the drafted reply when
    [generate_response] returns three strings within 20 seconds, and the
    templated reply in every other case: an error, the time bound, or a
    drafted field that is no string. *)
Theorem drafting_stage_never_fails (category : value) (sender subject : option pystr)
    (w : world) :
  snd (EmailClassifier.drafting_stage category sender subject w) =
  Returns
    match snd (generate_response sender subject
                 (set_deadline (Some (clock w + 20)) w)) with
    | Returns {| to := JStr t; subject := JStr s; body := JStr b |} =>
        {| Models.to := t; Models.subject := s; Models.body := b |}
    | _ => EmailClassifier.templated_reply category sender subject
    end.
Proof.
  unfold EmailClassifier.drafting_stage, catch, wait_for.
  pose proof (drafting_stage_by_reply category sender subject w) as H.
  unfold EmailClassifier.drafting_stage, catch, wait_for in H.
  destruct (EmailClassifier._generate_response sender subject _) as [w1 r].
  destruct r; exact H.
Qed.

(** The pipeline, from what its classification stage settles. *)
Lemma pipeline_by_stages (content : pystr) (subject sender : option pystr)
    (w w1 : world) (c r k : value) (method : pystr) :
  EmailClassifier.classification_stage content subject
    (extract_all_features content subject) w = (w1, Returns (c, r, k, method)) ->
  snd (EmailClassifier.classify_and_respond content subject sender w) =
  match Models.new_ClassificationResult c r
          (match snd (generate_response sender subject
                        (set_deadline (Some (clock w1 + 20)) w1)) with
           | Returns {| to := JStr t; subject := JStr s; body := JStr b |} =>
               {| Models.to := t; Models.subject := s; Models.body := b |}
           | _ => EmailClassifier.templated_reply c sender subject
           end) with
  | Ok result => Returns result
  | Raise e => Raises (Exception (lit "Email Classification Service failed: "
                                    ++ str_exn e))
  end.
Proof.
  intros Hs.
  unfold EmailClassifier.classify_and_respond, catch. cbv zeta.
  unfold bindM at 1. rewrite Hs.
  unfold bindM at 1.
  pose proof (drafting_stage_by_reply c sender subject w1) as Hd.
  destruct (EmailClassifier.drafting_stage c sender subject w1) as [w2 sr].
  cbn [snd] in Hd. rewrite Hd.
  unfold bindM, lift, EmailClassifier.log_completed, ret, raise.
  destruct (Models.new_ClassificationResult _ _ _); reflexivity.
Qed.

(** The two ways the pipeline ends. *)
Lemma pipeline_results (content : pystr) (subject sender : option pystr) (w : world) :
  (exists result,
      snd (EmailClassifier.classify_and_respond content subject sender w) = Returns result
      /\ (Models.category result = lit "productive"
          \/ Models.category result = lit "unproductive"))
  \/ snd (EmailClassifier.classify_and_respond content subject sender w) =
     Raises (Exception (lit "Email Classification Service failed: "
                          ++ str_exn ValidationError)).
Proof.
  destruct (classification_stage_returns content subject
              (extract_all_features content subject) w) as ([[[c r] k] method] & Hs).
  destruct (EmailClassifier.classification_stage _ _ _ w) as [w1 s] eqn:Es.
  cbn [snd] in Hs. subst s.
  rewrite (pipeline_by_stages _ _ sender _ _ _ _ _ _ Es).
  unfold Models.new_ClassificationResult.
  destruct c; try (right; reflexivity).
  destruct r; try (right; reflexivity).
  destruct (str_eqb s (lit "productive")) eqn:E1.
  + left. eexists. split; [reflexivity|]. left. cbn [Models.category].
    unfold str_eqb in E1. destruct (list_eq_dec _ _ _); [assumption | discriminate].
  + destruct (str_eqb s (lit "unproductive")) eqn:E2; cbn [orb].
    * left. eexists. split; [reflexivity|]. right. cbn [Models.category].
      unfold str_eqb in E2. destruct (list_eq_dec _ _ _); [assumption | discriminate].
    * right. reflexivity.
Qed.

(** X20.  [classify_and_respond] is never cancelled by its own time bounds
    and raises one exception only, the labelled service failure around a
    validation error; when it returns, the category is one of the two
    labels.  It always returns when the classification stage settles on
    the heuristic. *)
Theorem pipeline_outcomes (content : pystr) (subject sender : option pystr) (w : world) :
  ((exists result,
       snd (EmailClassifier.classify_and_respond content subject sender w) = Returns result
       /\ (Models.category result = lit "productive"
           \/ Models.category result = lit "unproductive"))
   \/ snd (EmailClassifier.classify_and_respond content subject sender w) =
      Raises (Exception (lit "Email Classification Service failed: "
                           ++ str_exn ValidationError)))
  /\ (forall e,
        snd (wait_for classify_email_with_context 15 w) = Raises e ->
        exists result,
          snd (EmailClassifier.classify_and_respond content subject sender w)
          = Returns result).
Proof.
  split.
  - apply pipeline_results.
  - intros e He.
    assert (Hs : exists w1,
               EmailClassifier.classification_stage content subject
                 (extract_all_features content subject) w =
               (w1, Returns (EmailClassifier.heuristic content subject
                               (extract_all_features content subject)))).
    { unfold EmailClassifier.classification_stage, catch, bindM.
      destruct (wait_for classify_email_with_context 15 w) as [w1 r].
      cbn [snd] in He. subst r. exists w1. destruct e; reflexivity. }
    destruct Hs as (w1 & Hs). unfold EmailClassifier.heuristic in Hs.
    rewrite (pipeline_by_stages _ _ _ _ _ _ _ _ _ Hs).
    match goal with
    | |- context [Models.new_ClassificationResult _ _ ?sr] =>
        rewrite (fallback_validates content subject
                   (Some (extract_all_features content subject)) sr)
    end.
    eexists. reflexivity.
Qed.

Lemma pipeline_outcomes_witness :
  exists result,
    snd (EmailClassifier.classify_and_respond Samples.urgent_content
           Samples.urgent_subject None
           (Samples.world_at 1000 Samples.tripped []))
    = Returns result.
Proof.
  apply (proj2 (pipeline_outcomes Samples.urgent_content Samples.urgent_subject None
                  (Samples.world_at 1000 Samples.tripped []))
           circuit_open_error).
  reflexivity.
Defined.

Lemma str_eqb_refl (s : pystr) : str_eqb s s = true.
Proof. unfold str_eqb. destruct (list_eq_dec _ _ _); congruence. Qed.

Lemma str_eqb_eq (a b : pystr) : str_eqb a b = true <-> a = b.
Proof.
  unfold str_eqb. destruct (list_eq_dec _ _ _); split; congruence.
Qed.





(** ** Replies and function calls that do not fit *)



Lemma str_eqb_neq (a b : pystr) : a <> b -> str_eqb a b = false.
Proof.
  intros H. unfold str_eqb. destruct (list_eq_dec _ _ _); congruence.
Qed.

(** X23.  A call of a function under another name than the requested one
    is ignored: the answer carries no text either, so the classification
    call fails with "Could not extract structured output from response",
    wrapped by its handler. *)
Theorem other_function_call_is_ignored (tool_name other : pystr) (args : value)
    (w : world) (d : Q) :
  other <> tool_name ->
  (structured_output tool_name (Bodies.function_call_answer other args) =
   Raise (Exception (lit "Could not extract structured output from response")))
  /\ (deadline w = None ->
      d <= 15 ->
      provider w (sent w) =
        {| elapsed := d;
           outcome := Response 200 (Bodies.function_call_answer other args) |} ->
      snd (_call_with_tool_calling tool_name w) =
      Raises (Exception (lit "Tool calling failed: "
                           ++ lit "Could not extract structured output from response"))).
Proof.
  intros Hne.
  assert (Hs : structured_output tool_name (Bodies.function_call_answer other args) =
               Raise (Exception (lit "Could not extract structured output from response"))).
  { unfold structured_output, Bodies.function_call_answer.
    change (has_candidates ?b) with (Ok (A:=bool) true).
    cbn [bind].
    repeat (match goal with
            | |- context [getitem (JDict [(?k, ?v)]) ?k'] =>
                change (getitem (JDict [(k, v)]) k') with (Ok v)
            end; cbn [bind getitem0]).
    change (content_has (lit "parts") ?c) with (Ok (A:=bool) true).
    cbn [bind].
    repeat (match goal with
            | |- context [getitem (JDict [(?k, ?v)]) ?k'] =>
                change (getitem (JDict [(k, v)]) k') with (Ok v)
            end; cbn [bind getitem0]).
    cbn [iter bind find_function_call].
    match goal with
    | |- context [py_in (lit "functionCall") ?p] =>
        change (py_in (lit "functionCall") p) with (Ok (A:=bool) true)
    end.
    cbn [bind].
    match goal with
    | |- context [getitem (JDict [(?k, ?v)]) ?k'] =>
        change (getitem (JDict [(k, v)]) k') with (Ok v)
    end.
    cbn [bind].
    match goal with
    | |- context [Json.get (JDict ((?k, ?v) :: ?rest)) (lit "name") ?dflt] =>
        change (Json.get (JDict ((k, v) :: rest)) (lit "name") dflt) with (Ok v)
    end.
    cbn [bind is_str]. rewrite (str_eqb_neq tool_name other) by congruence.
    cbn [bind].
    match goal with
    | |- context [Json.get ?p (lit "text") ?dflt] =>
        change (Json.get p (lit "text") dflt) with (Ok dflt)
    end.
    reflexivity. }
  split; [exact Hs|].
  intros Hd Hfast Hx.
  unfold _call_with_tool_calling, catch, bindM.
  rewrite post_no_deadline by exact Hd.
  rewrite Hx. unfold received. cbn [elapsed outcome].
  apply Qltb_ge in Hfast. rewrite Hfast. cbn [lift fst snd].
  unfold read_tool_answer. change (200 =? 200)%N with true. cbv iota.
  rewrite Hs. reflexivity.
Qed.

Lemma other_function_call_is_ignored_witness :
  structured_output (lit "classify_email")
    (Bodies.function_call_answer (lit "search") (JDict []))
  = Raise (Exception (lit "Could not extract structured output from response")).
Proof.
  apply (proj1 (other_function_call_is_ignored (lit "classify_email") (lit "search")
                  (JDict []) (Samples.world_at 1000 Samples.two_models []) 1
                  ltac:(discriminate))).
Defined.

(** ** The preprocessor *)

Import NLPPreprocessor.

Lemma forallb_rev {A} (f : A -> bool) (l : list A) :
  forallb f (rev l) = forallb f l.
Proof.
  induction l as [|a l IH]; [reflexivity|].
  cbn [rev forallb]. rewrite forallb_app, IH. cbn [forallb].
  rewrite andb_true_r. apply andb_comm.
Qed.

Lemma lstrip_snoc (l : pystr) (a : N) :
  lstrip (l ++ [a]) = if forallb isspace (l ++ [a]) then [] else lstrip l ++ [a].
Proof.
  induction l as [|b l IH]; cbn [app lstrip forallb].
  - rewrite andb_true_r. destruct (isspace a); reflexivity.
  - destruct (isspace b); cbn [andb]; [exact IH | reflexivity].
Qed.

Lemma rstrip_cons (a : N) (x : pystr) :
  PyFacts.rstrip (a :: x) =
  if forallb isspace (a :: x) then [] else a :: PyFacts.rstrip x.
Proof.
  unfold PyFacts.rstrip. cbn [rev]. rewrite lstrip_snoc.
  replace (forallb isspace (rev x ++ [a])) with (forallb isspace (a :: x)).
  - destruct (forallb isspace (a :: x)); [reflexivity|].
    rewrite rev_app_distr. reflexivity.
  - rewrite forallb_app, forallb_rev. cbn [forallb].
    rewrite andb_true_r. apply andb_comm.
Qed.

Lemma rstrip_spaces (x : pystr) :
  forallb isspace x = true -> PyFacts.rstrip x = [].
Proof.
  destruct x as [|a x]; [reflexivity|]. intros H. rewrite rstrip_cons, H. reflexivity.
Qed.

Lemma rstrip_not_spaces (x : pystr) :
  forallb isspace x = false -> PyFacts.rstrip x <> [].
Proof.
  destruct x as [|a x]; [discriminate|]. intros H. rewrite rstrip_cons, H. discriminate.
Qed.

Lemma rstrip_ink_app (w y : pystr) :
  forallb PyFacts.is_ink w = true -> PyFacts.rstrip (w ++ y) = w ++ PyFacts.rstrip y.
Proof.
  induction w as [|a w IH]; [reflexivity|].
  cbn [forallb app]. intros H. apply andb_true_iff in H. destruct H as [Ha Hw].
  unfold PyFacts.is_ink in Ha. apply negb_true_iff in Ha.
  rewrite rstrip_cons. cbn [forallb]. rewrite Ha. cbn [andb].
  rewrite IH by exact Hw. reflexivity.
Qed.

Lemma rstrip_ink (w : pystr) :
  forallb PyFacts.is_ink w = true -> PyFacts.rstrip w = w.
Proof.
  intros H. rewrite <- (app_nil_r w) at 1. rewrite rstrip_ink_app by exact H.
  apply app_nil_r.
Qed.

Lemma sub_spaces_true_clean (s : pystr) :
  lstrip (sub_spaces true s) = sub_spaces true s.
Proof.
  induction s as [|c s IH]; [reflexivity|].
  cbn [sub_spaces]. destruct (isspace c) eqn:E; [exact IH|].
  cbn [lstrip]. rewrite E. reflexivity.
Qed.

Lemma split_ws_aux_words (s cur : pystr) :
  forallb PyFacts.is_ink cur = true -> Forall is_word (split_ws_aux cur s).
Proof.
  revert cur. induction s as [|c s IH]; intros cur Hcur; cbn [split_ws_aux].
  - destruct cur as [|a cur]; [constructor|].
    constructor; [|constructor]. split.
    + intros E. apply (f_equal (@List.length N)) in E. rewrite length_rev in E.
      discriminate.
    + rewrite forallb_rev. exact Hcur.
  - destruct (isspace c) eqn:E.
    + destruct cur as [|a cur]; [apply IH; reflexivity|].
      constructor; [|apply IH; reflexivity]. split.
      * intros E'. apply (f_equal (@List.length N)) in E'. rewrite length_rev in E'.
        discriminate.
      * rewrite forallb_rev. exact Hcur.
    + apply IH. cbn [forallb]. unfold PyFacts.is_ink at 1. rewrite E. exact Hcur.
Qed.

Lemma split_ws_words (s : pystr) : Forall is_word (split_ws s).
Proof. apply split_ws_aux_words. reflexivity. Qed.

Lemma join_words_nil (ws : list pystr) :
  Forall is_word ws -> join_words ws = [] -> ws = [].
Proof.
  destruct ws as [|w [|w2 r]]; [reflexivity| |]; intros H E; inversion H as [|? ? Hw _]; subst.
  - destruct Hw as [Hw _]. cbn [join_words] in E. congruence.
  - exfalso. change (w ++ 32%N :: join_words (w2 :: r) = []) in E.
    apply app_eq_nil in E. destruct E as [_ E]. discriminate E.
Qed.

Lemma normalize_by_words (s : pystr) :
  (forall b, PyFacts.rstrip (lstrip (sub_spaces b s)) = join_words (split_ws_aux [] s))
  /\ (forall cur, cur <> [] -> forallb PyFacts.is_ink cur = true ->
      PyFacts.rstrip (rev cur ++ sub_spaces false s) = join_words (split_ws_aux cur s)).
Proof.
  induction s as [|c s [IH0 IH1]].
  - split.
    + intros b. reflexivity.
    + intros cur Hne Hcur. cbn [sub_spaces split_ws_aux]. rewrite app_nil_r.
      destruct cur as [|a cur]; [congruence|]. cbn [join_words].
      apply rstrip_ink. rewrite forallb_rev. exact Hcur.
  - split.
    + intros b. cbn [sub_spaces split_ws_aux]. destruct (isspace c) eqn:E.
      * destruct b; [apply IH0|]. cbn [lstrip].
        change (isspace 32%N) with true. cbv iota. apply IH0.
      * cbn [lstrip]. rewrite E.
        apply (IH1 [c]); [discriminate|].
        cbn [forallb]. unfold PyFacts.is_ink. rewrite E. reflexivity.
    + intros cur Hne Hcur. cbn [sub_spaces split_ws_aux]. destruct (isspace c) eqn:E.
      * destruct cur as [|a cur]; [congruence|].
        rewrite rstrip_ink_app by (rewrite forallb_rev; exact Hcur).
        rewrite rstrip_cons. cbn [forallb]. change (isspace 32%N) with true. cbn [andb].
        pose proof (IH0 true) as H. rewrite sub_spaces_true_clean in H.
        pose proof (split_ws_aux_words s [] eq_refl) as Hw.
        destruct (forallb isspace (sub_spaces true s)) eqn:F.
        -- apply rstrip_spaces in F. rewrite F in H. symmetry in H.
           apply (join_words_nil _ Hw) in H. rewrite H.
           cbn [join_words]. apply app_nil_r.
        -- apply rstrip_not_spaces in F.
           destruct (split_ws_aux [] s) as [|w r] eqn:Er; [cbn [join_words] in H; congruence|].
           change (join_words (rev (a :: cur) :: w :: r))
             with (rev (a :: cur) ++ 32%N :: join_words (w :: r)).
           rewrite H. reflexivity.
      * specialize (IH1 (c :: cur)). cbn [rev] in IH1. rewrite <- app_assoc in IH1.
        apply IH1; [discriminate|].
        cbn [forallb]. unfold PyFacts.is_ink at 1. rewrite E. exact Hcur.
Qed.

Lemma sub_spaces_no_line_feed (b : bool) (s : pystr) :
  forallb (fun c => negb (c =? 10)%N) (sub_spaces b s) = true.
Proof.
  revert b. induction s as [|c s IH]; intros b; [reflexivity|].
  cbn [sub_spaces]. destruct (isspace c) eqn:E.
  - destruct b; [apply IH|]. cbn [forallb]. rewrite IH. reflexivity.
  - cbn [forallb]. rewrite IH, andb_true_r.
    destruct (N.eqb_spec c 10) as [->|]; [|reflexivity].
    vm_compute in E. discriminate E.
Qed.

Lemma sub_newlines_without (s : pystr) :
  forallb (fun c => negb (c =? 10)%N) s = true -> sub_newlines 0 s = s.
Proof.
  induction s as [|c s IH]; [reflexivity|].
  cbn [forallb sub_newlines]. intros H. apply andb_true_iff in H. destruct H as [Hc Hs].
  apply negb_true_iff in Hc. rewrite Hc, IH by exact Hs. reflexivity.
Qed.

Lemma split_ws_aux_ink (w cur s : pystr) :
  forallb PyFacts.is_ink w = true ->
  split_ws_aux cur (w ++ s) = split_ws_aux (rev w ++ cur) s.
Proof.
  revert cur. induction w as [|a w IH]; intros cur H; [reflexivity|].
  cbn [forallb] in H. apply andb_true_iff in H. destruct H as [Ha Hw].
  unfold PyFacts.is_ink in Ha. apply negb_true_iff in Ha.
  cbn [app split_ws_aux rev]. rewrite Ha, IH by exact Hw.
  rewrite <- app_assoc. reflexivity.
Qed.

Lemma split_join (ws : list pystr) :
  Forall is_word ws -> split_ws (join_words ws) = ws.
Proof.
  induction ws as [|w ws IH]; [reflexivity|].
  intros H. inversion H as [|? ? [Hne Hink] Hws]; subst.
  assert (Hr : rev w ++ [] <> []).
  { rewrite app_nil_r. intros E. apply (f_equal (@List.length N)) in E.
    rewrite length_rev in E. destruct w; [congruence | discriminate]. }
  destruct ws as [|w2 r].
  - cbn [join_words]. unfold split_ws. rewrite <- (app_nil_r w) at 1.
    rewrite split_ws_aux_ink by exact Hink. cbn [split_ws_aux].
    destruct (rev w ++ []) as [|a x] eqn:Ex; [congruence|].
    rewrite <- Ex, app_nil_r, rev_involutive. reflexivity.
  - change (join_words (w :: w2 :: r)) with (w ++ 32%N :: join_words (w2 :: r)).
    unfold split_ws. rewrite split_ws_aux_ink by exact Hink. cbn [split_ws_aux].
    change (isspace 32%N) with true. cbv iota.
    destruct (rev w ++ []) as [|a x] eqn:Ex; [congruence|].
    rewrite <- Ex, app_nil_r, rev_involutive. f_equal. apply IH. exact Hws.
Qed.

(** X24.  [_normalize_text] returns the words of the text on one line,
    separated by single spaces: what [' '.join(text.split())] gives.  Its
    rule on runs of three and more line feeds never applies, since the
    first substitution leaves no line feed; normalising keeps the words and
    is idempotent. *)
Theorem normalize_text_joins_words (text : pystr) :
  _normalize_text text = join_words (split_ws text)
  /\ sub_newlines 0 (sub_spaces false text) = sub_spaces false text
  /\ split_ws (_normalize_text text) = split_ws text
  /\ _normalize_text (_normalize_text text) = _normalize_text text.
Proof.
  assert (Hn : sub_newlines 0 (sub_spaces false text) = sub_spaces false text)
    by (apply sub_newlines_without, sub_spaces_no_line_feed).
  assert (He : forall t, _normalize_text t = join_words (split_ws t)).
  { intros t. unfold _normalize_text.
    rewrite sub_newlines_without by apply sub_spaces_no_line_feed.
    apply (proj1 (normalize_by_words t)). }
  assert (Hs : split_ws (_normalize_text text) = split_ws text)
    by (rewrite He; apply split_join, split_ws_words).
  repeat split; [apply He | exact Hn | exact Hs |].
  rewrite (He (_normalize_text text)), Hs. symmetry. apply He.
Qed.

Lemma below_256 (P : N -> bool) :
  forallb P (map N.of_nat (seq 0 256)) = true ->
  forall c, (c < 256)%N -> P c = true.
Proof.
  intros H c Hc. rewrite forallb_forall in H. apply H.
  apply in_map_iff. exists (N.to_nat c). split; [apply N2Nat.id|].
  apply in_seq. lia.
Qed.

Lemma lower_char_cases (c : N) : (c < 256)%N \/ lower_char c = c.
Proof.
  unfold lower_char.
  destruct ((65 <=? c) && (c <=? 90) || (192 <=? c) && (c <=? 222) && negb (c =? 215))%N
    eqn:E; [left | right; reflexivity].
  apply orb_true_iff in E. destruct E as [E|E].
  - apply andb_true_iff in E. destruct E as [_ E]. apply N.leb_le in E. lia.
  - apply andb_true_iff in E. destruct E as [E _].
    apply andb_true_iff in E. destruct E as [_ E]. apply N.leb_le in E. lia.
Qed.

Lemma isspace_lower_char (c : N) : isspace (lower_char c) = isspace c.
Proof.
  destruct (lower_char_cases c) as [H|H]; [|rewrite H; reflexivity].
  apply eqb_prop.
  apply (below_256 (fun c => Bool.eqb (isspace (lower_char c)) (isspace c)));
    [vm_compute; reflexivity | exact H].
Qed.

Lemma lower_char_idempotent (c : N) : lower_char (lower_char c) = lower_char c.
Proof.
  destruct (lower_char_cases c) as [H|H]; [|rewrite H; exact H].
  apply N.eqb_eq.
  apply (below_256 (fun c => (lower_char (lower_char c) =? lower_char c)%N));
    [vm_compute; reflexivity | exact H].
Qed.

Lemma lower_idempotent (s : pystr) : lower (lower s) = lower s.
Proof.
  unfold lower. rewrite map_map. apply map_ext. intros c. apply lower_char_idempotent.
Qed.

Lemma startswith_in (p s : pystr) (c : N) :
  startswith p s = true -> In c p -> In c s.
Proof.
  revert s. induction p as [|a p IH]; intros s H Hc; [destruct Hc|].
  destruct s as [|b s]; [discriminate H|].
  cbn [startswith] in H. apply andb_true_iff in H. destruct H as [Hab Hp].
  apply N.eqb_eq in Hab. subst b.
  destruct Hc as [->|Hc]; [left; reflexivity | right; apply IH; assumption].
Qed.

Lemma contains_in (sub s : pystr) (c : N) :
  contains sub s = true -> In c sub -> In c s.
Proof.
  induction s as [|b s IH]; intros H Hc.
  - cbn [contains] in H. rewrite orb_false_r in H. apply (startswith_in _ _ _ H Hc).
  - cbn [contains] in H. apply orb_true_iff in H. destruct H as [H|H].
    + apply (startswith_in _ _ _ H Hc).
    + right. apply IH; assumption.
Qed.

Lemma unmarked_lacks (text k : pystr) (x : N) :
  Indicators.unmarked text = true ->
  existsb (N.eqb x) k = true ->
  existsb (N.eqb x) Indicators.marks = true ->
  contains k (lower text) = false.
Proof.
  intros H Hk Hx. destruct (contains k (lower text)) eqn:E; [|reflexivity].
  apply existsb_exists in Hk. destruct Hk as (y & Hy & Hxy). apply N.eqb_eq in Hxy. subst y.
  apply (contains_in _ _ x E) in Hy. unfold lower in Hy.
  apply in_map_iff in Hy. destruct Hy as (c & Hc & Hin).
  unfold Indicators.unmarked in H. rewrite forallb_forall in H.
  specialize (H c Hin). rewrite Hc, Hx in H. discriminate H.
Qed.

(** X25.  [_detect_language] answers "en" for every text without the six
    letters a-grave, a-acute, e-circumflex, o-acute, o-circumflex and
    o-tilde: Portuguese written without accents, and any text whose only
    accented endings are those in a-tilde, counts at most two indicators. *)
Theorem language_without_marks_is_en (text : pystr) :
  Indicators.unmarked text = true ->
  _detect_language text = lit "en".
Proof.
  intros H. unfold _detect_language, portuguese_indicators.
  cbn [map filter].
  rewrite (unmarked_lacks text (lit "ões") 245 H eq_refl eq_refl).
  rewrite (unmarked_lacks text (lit "ê") 234 H eq_refl eq_refl).
  rewrite (unmarked_lacks text (lit "á") 225 H eq_refl eq_refl).
  rewrite (unmarked_lacks text (lit "à") 224 H eq_refl eq_refl).
  rewrite (unmarked_lacks text (lit "ó") 243 H eq_refl eq_refl).
  rewrite (unmarked_lacks text (lit "ô") 244 H eq_refl eq_refl).
  destruct (contains (lit "ção") (lower text));
    destruct (contains (lit "ão") (lower text)); reflexivity.
Qed.

Lemma language_without_marks_is_en_witness :
  _detect_language (lit "A informação não chegou, por favor verifiquem o pagamento.")
  = lit "en".
Proof.
  apply language_without_marks_is_en. vm_compute. reflexivity.
Defined.

Lemma split_ws_aux_lower (s cur : pystr) :
  split_ws_aux (lower cur) (lower s) = map lower (split_ws_aux cur s).
Proof.
  revert cur. induction s as [|c s IH]; intros cur.
  - cbn [lower map split_ws_aux]. destruct cur as [|a cur]; [reflexivity|].
    cbn [map]. unfold lower. rewrite <- map_rev. reflexivity.
  - change (lower (c :: s)) with (lower_char c :: lower s).
    cbn [split_ws_aux]. rewrite isspace_lower_char. destruct (isspace c).
    + destruct cur as [|a cur]; [apply (IH [])|].
      change (lower (a :: cur)) with (lower_char a :: lower cur).
      cbn [map]. rewrite <- (IH []). f_equal.
      change (lower_char a :: lower cur) with (map lower_char (a :: cur)).
      unfold lower. rewrite <- map_rev. reflexivity.
    + apply (IH (c :: cur)).
Qed.

Lemma split_ws_lower (s : pystr) : split_ws (lower s) = map lower (split_ws s).
Proof. apply (split_ws_aux_lower s []). Qed.

Lemma lower_join_words (ws : list pystr) :
  lower (join_words ws) = join_words (map lower ws).
Proof.
  induction ws as [|w ws IH]; [reflexivity|].
  destruct ws as [|w2 r]; [reflexivity|].
  change (join_words (w :: w2 :: r)) with (w ++ 32%N :: join_words (w2 :: r)).
  change (map lower (w :: w2 :: r)) with (lower w :: lower w2 :: map lower r).
  change (join_words (lower w :: lower w2 :: map lower r))
    with (lower w ++ 32%N :: join_words (map lower (w2 :: r))).
  rewrite <- IH. unfold lower. rewrite map_app. reflexivity.
Qed.

Lemma lowered_words_stay (p : pystr -> bool) (l : list pystr) :
  map lower (filter p (map lower l)) = filter p (map lower l).
Proof.
  induction l as [|a l IH]; [reflexivity|].
  cbn [map filter]. destruct (p (lower a)); [|exact IH].
  cbn [map]. rewrite IH, lower_idempotent. reflexivity.
Qed.

Lemma filter_twice {A} (p : A -> bool) (l : list A) :
  filter p (filter p l) = filter p l.
Proof.
  induction l as [|a l IH]; [reflexivity|].
  cbn [filter]. destruct (p a) eqn:E; [|exact IH].
  cbn [filter]. rewrite E, IH. reflexivity.
Qed.

Lemma filter_words (p : pystr -> bool) (l : list pystr) :
  Forall is_word l -> Forall is_word (filter p l).
Proof.
  intros H. apply Forall_forall. intros w Hw. apply filter_In in Hw.
  rewrite Forall_forall in H. apply H. tauto.
Qed.

(** X26.  The words of what [_remove_stopwords] returns are the
    lower-cased words of the text that are no stop words, in their order;
    none of them is a stop word, and removing stop words a second time
    changes nothing. *)
Theorem remove_stopwords_keeps_other_words (text : pystr) :
  split_ws (_remove_stopwords text) =
    filter (fun word => negb (is_stop_word word)) (split_ws (lower text))
  /\ Forall (fun word => is_stop_word word = false) (split_ws (_remove_stopwords text))
  /\ _remove_stopwords (_remove_stopwords text) = _remove_stopwords text.
Proof.
  assert (Hs : split_ws (_remove_stopwords text) =
               filter (fun word => negb (is_stop_word word)) (split_ws (lower text))).
  { unfold _remove_stopwords. apply split_join, filter_words, split_ws_words. }
  split; [exact Hs|]. split.
  - rewrite Hs. apply Forall_forall. intros w Hw. apply filter_In in Hw.
    destruct Hw as [_ Hw]. apply negb_true_iff in Hw. exact Hw.
  - unfold _remove_stopwords at 1.
    assert (Hl : lower (_remove_stopwords text) = _remove_stopwords text).
    { unfold _remove_stopwords. rewrite lower_join_words, split_ws_lower.
      rewrite lowered_words_stay. reflexivity. }
    rewrite Hl, Hs, filter_twice. reflexivity.
Qed.

(** ** The store of company configurations *)

Lemma find_put_same (k : pystr) (v : CompanyService.CompanyConfig)
    (d : CompanyService.configs) :
  CompanyService.find k (CompanyService.put k v d) = Some v.
Proof.
  induction d as [|[k0 old] d IH]; cbn [CompanyService.put CompanyService.find].
  - rewrite str_eqb_refl. reflexivity.
  - destruct (str_eqb k k0) eqn:E; cbn [CompanyService.find]; rewrite E;
      [reflexivity | exact IH].
Qed.

Lemma find_put_other (k k' : pystr) (v : CompanyService.CompanyConfig)
    (d : CompanyService.configs) :
  k' <> k ->
  CompanyService.find k' (CompanyService.put k v d) = CompanyService.find k' d.
Proof.
  intros Hne.
  induction d as [|[k0 old] d IH]; cbn [CompanyService.put CompanyService.find].
  - rewrite (str_eqb_neq k' k) by exact Hne. reflexivity.
  - destruct (str_eqb k k0) eqn:E; cbn [CompanyService.find].
    + apply str_eqb_eq in E. subst k0.
      rewrite (str_eqb_neq k' k) by exact Hne. reflexivity.
    + destruct (str_eqb k' k0); [reflexivity | exact IH].
Qed.

Lemma length_put (k : pystr) (v : CompanyService.CompanyConfig)
    (d : CompanyService.configs) :
  List.length (CompanyService.put k v d) =
  if CompanyService.config_exists k d then List.length d else S (List.length d).
Proof.
  unfold CompanyService.config_exists.
  induction d as [|[k0 old] d IH]; cbn [CompanyService.put CompanyService.find];
    [reflexivity|].
  destruct (str_eqb k k0); [reflexivity|].
  cbn [List.length]. rewrite IH.
  destruct (CompanyService.find k d); reflexivity.
Qed.

(** X27.  A configuration can be read back under the identifier
    [create_config] returned, every other identifier reads as before, and a
    draw whose first eight characters are in use replaces the earlier
    configuration: the store does not grow. *)
Theorem created_config_is_stored (uuid4 : pystr) (now : Q)
    (company_name custom_instructions : pystr) (self : CompanyService.configs) :
  let self' := fst (CompanyService.create_config uuid4 now company_name
                      custom_instructions self) in
  let config := snd (CompanyService.create_config uuid4 now company_name
                       custom_instructions self) in
  CompanyService.get_config (CompanyService.config_id config) self' = Some config
  /\ (forall other, other <> CompanyService.config_id config ->
      CompanyService.get_config other self' = CompanyService.get_config other self)
  /\ List.length self' =
     (if CompanyService.config_exists (CompanyService.config_id config) self
      then List.length self else S (List.length self)).
Proof.
  cbv zeta. unfold CompanyService.create_config, CompanyService.get_config.
  cbn [fst snd CompanyService.config_id].
  split; [apply find_put_same|]. split.
  - intros other Hne. apply find_put_other. exact Hne.
  - apply length_put.
Qed.

Lemma upper_char_not_small (c : N) :
  ((97 <=? CompanyService.upper_char c) && (CompanyService.upper_char c <=? 122))%N = false.
Proof.
  unfold CompanyService.upper_char.
  destruct ((97 <=? c) && (c <=? 122))%N eqn:E; [|exact E].
  apply andb_true_iff in E. destruct E as [E1 E2].
  apply N.leb_le in E1. apply N.leb_le in E2.
  apply andb_false_iff. left. apply N.leb_gt. lia.
Qed.

Lemma store_invariant (calls : list CompanyService.creation)
    (self : CompanyService.configs) :
  (forall id c, CompanyService.find id self = Some c ->
     CompanyService.config_id c = id
     /\ (List.length id <= 8)%nat
     /\ forallb (fun ch => negb ((97 <=? ch) && (ch <=? 122))%N) id = true) ->
  forall id c,
    CompanyService.find id
      (fold_left (fun self c =>
                    fst (CompanyService.create_config (CompanyService.drawn c)
                           (CompanyService.at_time c) (CompanyService.name c)
                           (CompanyService.instructions c) self))
                 calls self) = Some c ->
    CompanyService.config_id c = id
    /\ (List.length id <= 8)%nat
    /\ forallb (fun ch => negb ((97 <=? ch) && (ch <=? 122))%N) id = true.
Proof.
  revert self. induction calls as [|call calls IH]; intros self Hinv; [exact Hinv|].
  cbn [fold_left]. apply IH. intros id c.
  unfold CompanyService.create_config. cbn [fst].
  set (k := CompanyService.upper (firstn 8 (CompanyService.drawn call))).
  destruct (list_eq_dec N.eq_dec id k) as [->|Hne].
  - rewrite find_put_same. intros H. injection H as <-.
    cbn [CompanyService.config_id]. split; [reflexivity|]. split.
    + unfold k, CompanyService.upper. rewrite length_map, length_firstn. lia.
    + unfold k, CompanyService.upper. apply forallb_forall. intros ch Hch.
      apply in_map_iff in Hch. destruct Hch as (x & <- & _).
      rewrite upper_char_not_small. reflexivity.
  - rewrite find_put_other by exact Hne. apply Hinv.
Qed.

(** X28.  In a service that has only seen [create_config], a
    configuration is stored under its own identifier, which has at most
    eight characters and no small letter: an identifier typed in small
    letters finds nothing. *)
Theorem stored_ids_are_short_capitals (calls : list CompanyService.creation)
    (config_id : pystr) (config : CompanyService.CompanyConfig) :
  CompanyService.get_config config_id (CompanyService.after calls) = Some config ->
  CompanyService.config_id config = config_id
  /\ (List.length config_id <= 8)%nat
  /\ forallb (fun ch => negb ((97 <=? ch) && (ch <=? 122))%N) config_id = true.
Proof.
  unfold CompanyService.get_config, CompanyService.after.
  apply store_invariant. intros id c H. discriminate H.
Qed.

Lemma stored_ids_are_short_capitals_witness :
  CompanyService.config_id
    {| CompanyService.config_id := lit "3F2A9C1E";
       CompanyService.company_name := lit "Acme";
       CompanyService.custom_instructions := [];
       CompanyService.created_at := 1000 |} = lit "3F2A9C1E"
  /\ (List.length (lit "3F2A9C1E") <= 8)%nat
  /\ forallb (fun ch => negb ((97 <=? ch) && (ch <=? 122))%N) (lit "3F2A9C1E") = true.
Proof.
  apply (stored_ids_are_short_capitals
           [{| CompanyService.drawn := lit "3f2a9c1e-7b64-4d1a-9c0e-5a1b2c3d4e5f";
               CompanyService.at_time := 1000;
               CompanyService.name := lit "Acme";
               CompanyService.instructions := [] |}]).
  reflexivity.
Defined.

(** ** The endpoint *)

(** X29.  The classification endpoint answers every request.  When the run
    of the pipeline would take more than 30 seconds the answer is the stock
    "productive" response of the timeout branch.  Otherwise it passes on
    the category, one of the two labels, with the reasoning and the reply
    when the pipeline returns, and gives the stock "productive" response of
    the error branch when the pipeline raises, which it only does with its
    labelled service failure. *)
Theorem endpoint_always_answers (request : Main.EmailRequest) (w : world) :
  let run :=
    EmailClassifier.classify_and_respond (Main.content request)
      (Main.subject request) (Main.sender request) w in
  let late := Qltb (clock w + 30) (clock (fst run)) in
  exists response,
    Main.classify_email request w = Returns response
    /\ (Main.category response = lit "productive"
        \/ Main.category response = lit "unproductive")
    /\ (late = true -> response = Main.timeout_response request)
    /\ (late = false ->
        (forall e, snd run = Raises e -> response = Main.error_response request)
        /\ (forall result, snd run = Returns result ->
            Main.category response = Models.category result
            /\ Main.reasoning response = Models.reasoning result
            /\ Main.suggestedResponse response = Models.suggested_response result)).
Proof.
  cbv zeta. unfold Main.classify_email, Main.bounded_pipeline.
  pose proof (pipeline_results (Main.content request) (Main.subject request)
                (Main.sender request) w) as Hp.
  destruct (EmailClassifier.classify_and_respond _ _ _ w) as [w1 r].
  cbn [fst snd] in *.
  destruct (Qltb (clock w + 30) (clock w1)).
  - eexists. split; [reflexivity|]. split; [left; reflexivity|].
    split; [reflexivity | discriminate].
  - destruct Hp as [(result & Hr & Hc) | He].
    + rewrite Hr. eexists. split; [reflexivity|].
      cbn [Main.category Main.reasoning Main.suggestedResponse].
      split; [exact Hc|]. split; [discriminate|]. intros _. split.
      * intros e H. discriminate H.
      * intros result' H. injection H as <-. repeat split.
    + rewrite He. eexists. split; [reflexivity|].
      split; [left; reflexivity|]. split; [discriminate|]. intros _. split.
      * reflexivity.
      * intros result H. discriminate H.
Qed.

(** ** The pipeline behind an open breaker *)

Lemma open_check (now : Q) (s : service) :
  snd (_is_circuit_open now s) = true ->
  let s1 := set_errors (filter (fun t => Qltb (now - t) 60) (circuit_breaker_errors s)) s in
  _is_circuit_open now s = (s1, true) /\ _is_circuit_open now s1 = (s1, true).
Proof.
  cbv zeta. unfold _is_circuit_open.
  change (circuit_open_until (set_errors ?l s)) with (circuit_open_until s).
  change (circuit_breaker_errors (set_errors ?l s)) with l.
  destruct (Qltb (circuit_open_until s) now); [discriminate|].
  rewrite filter_twice.
  destruct (circuit_breaker_threshold <=? _)%nat; [|discriminate].
  intros _. split; reflexivity.
Qed.

(** X30.  While the breaker is open the pipeline answers on its own: both
    stages are refused by the breaker check, no request is sent and no time
    passes, and the result is the verdict of the heuristic with the
    templated reply for its category. *)
Theorem open_breaker_answers_offline (content : pystr) (subject sender : option pystr)
    (w : world) :
  snd (_is_circuit_open (clock w) (svc w)) = true ->
  let verdict :=
    EmailClassifier._nlp_enhanced_fallback content subject
      (Some (extract_all_features content subject)) in
  let end_ := EmailClassifier.classify_and_respond content subject sender w in
  snd end_ =
    Returns {| Models.category := EmailClassifier.category verdict;
               Models.reasoning := EmailClassifier.reasoning verdict;
               Models.suggested_response :=
                 EmailClassifier.templated_reply
                   (JStr (EmailClassifier.category verdict)) sender subject |}
  /\ sent (fst end_) = sent w
  /\ clock (fst end_) = clock w.
Proof.
  intros H. apply open_check in H. cbv zeta in H. destruct H as [H1 H2].
  cbv zeta.
  unfold EmailClassifier.classify_and_respond, EmailClassifier.classification_stage,
    EmailClassifier.drafting_stage, EmailClassifier._generate_response,
    generate_response, classify_email_with_context, catch, bindM, wait_for,
    is_circuit_open_now.
  cbn [clock svc set_deadline set_svc deadline].
  rewrite H1.
  cbn [raise ret fst snd clock svc set_deadline set_svc deadline circuit_open_error].
  unfold EmailClassifier.heuristic. cbv beta iota zeta.
  cbn [clock svc set_deadline set_svc deadline].
  rewrite H2. cbv beta iota zeta.
  unfold raise, draft_failure, ret. cbv beta iota zeta.
  unfold raise. cbv beta iota zeta.
  rewrite fallback_validates.
  unfold lift, EmailClassifier.log_completed. cbv beta iota zeta.
  cbn [fst snd]. split; [reflexivity|]. split; reflexivity.
Qed.

Lemma open_breaker_answers_offline_witness :
  sent (fst (EmailClassifier.classify_and_respond (lit "O sistema apresenta erro no login.")
               (Some (lit "Erro")) None
               (Samples.world_at 1000 Samples.tripped [])))
  = 0%nat.
Proof.
  apply (proj1 (proj2 (open_breaker_answers_offline
                         (lit "O sistema apresenta erro no login.") (Some (lit "Erro")) None
                         (Samples.world_at 1000 Samples.tripped []) eq_refl))).
Defined.
